(** * PR review backend: diff parser and review orchestrator

    A shallow embedding of [backend/diff_parser.py], [backend/models.py],
    [backend/agents.py] and [backend/orchestrator.py], with the properties
    the specification states about them.

    Conventions of the embedding.
    - Python [str] is [string]; a character is one [ascii] code unit.  The
      only character classes the code uses are the literal markers of the
      unified-diff format and the regular-expression class [\d], which is
      taken over the ASCII digits.  The class of the code also holds the
      other Unicode decimal digits: what is proved about numbers read from
      a text is stated for ASCII text ([plain_digits] and
      [plain_hunk_headers] below).
    - Python [int] line numbers and counters only grow from [0] or are read
      from digits: they are [nat].  [int()] raises [ValueError] on more
      than 4300 digits: [extract_changed_lines] and the functions of the
      orchestrator that call it are given twice, as total functions that
      return what the code returns when no conversion fails, and with
      that failure in the module [Raising].  In the handlers the
      conversion of the pull-request number is taken to return.
    - [None] is [None]; a call that may raise returns a [call_result].
    - The language-model calls are oracles: functions given as section
      variables, about which nothing is assumed. *)

From Stdlib Require Import Ascii String List Arith Lia Bool.
From stdpp Require Import base option list strings gmap fin_maps.

Local Open Scope string_scope.
Local Open Scope list_scope.

(** ** Text primitives ([str] methods used by the code) *)

Module Text.

(** [s.split(sep)] for a one-character separator: never the empty list. *)
Fixpoint split (sep : ascii) (s : string) : list string :=
  match s with
  | EmptyString => [EmptyString]
  | String c r =>
      if Ascii.eqb c sep then EmptyString :: split sep r
      else match split sep r with
           | [] => [String c EmptyString]
           | l :: ls => String c l :: ls
           end
  end.

(** [sep.join(ls)]. *)
Fixpoint join (sep : string) (ls : list string) : string :=
  match ls with
  | [] => EmptyString
  | l :: r =>
      match r with
      | [] => l
      | _ :: _ => l +:+ sep +:+ join sep r
      end
  end.

(** [s.startswith(p)]. *)
Fixpoint startswith (s p : string) {struct p} : bool :=
  match p with
  | EmptyString => true
  | String a p' =>
      match s with
      | EmptyString => false
      | String b s' => Ascii.eqb b a && startswith s' p'
      end
  end.

(** [s[1:]]. *)
Definition tail (s : string) : string :=
  match s with
  | EmptyString => EmptyString
  | String _ r => r
  end.

(** [c in s] for a character [c]. *)
Fixpoint contains (c : ascii) (s : string) : bool :=
  match s with
  | EmptyString => false
  | String d r => Ascii.eqb d c || contains c r
  end.

Definition nl : ascii := "010"%char.

Definition newline : string := String nl EmptyString.

(** A decimal digit of the ASCII range.  The class [\d] of the code also
    holds the other Unicode decimal digits; on ASCII text the two agree. *)
Definition is_digit (c : ascii) : bool :=
  match Ascii.is_nat c with
  | Some _ => true
  | None => false
  end.

Fixpoint all_digits (s : string) : bool :=
  match s with
  | EmptyString => true
  | String c r => is_digit c && all_digits r
  end.

Definition starts_with_digit (s : string) : bool :=
  match s with
  | EmptyString => false
  | String c _ => is_digit c
  end.

(** The longest run of digits a string starts with (greedy [\d*]). *)
Fixpoint digits_prefix (s : string) : string :=
  match s with
  | EmptyString => EmptyString
  | String c r => if is_digit c then String c (digits_prefix r) else EmptyString
  end.

(** [int(ds)] on a string of digits, most significant first.  The code's
    [int()] raises [ValueError] on more than 4300 digits; on a shorter
    string of ASCII digits the two agree. *)
Fixpoint int_go (acc : nat) (ds : string) : nat :=
  match ds with
  | EmptyString => acc
  | String c r =>
      match Ascii.is_nat c with
      | Some d => int_go (10 * acc + d) r
      | None => acc
      end
  end.

Definition int (ds : string) : nat := int_go 0 ds.

End Text.

(** ** models.py *)

Module FileChange.
Record t : Type := mk {
  filename : string;
  additions : nat;
  deletions : nat;
  patch : string;
  status : string
}.
End FileChange.

(** The dictionaries [extract_changed_lines] appends, keys as in the code. *)
Module ChangedLine.
Record t : Type := mk {
  line_number : nat;
  type : string;
  content : string;
  raw : string
}.
End ChangedLine.

(** The dictionaries [group_changes_by_function] returns. *)
Module FunctionGroup.
Record t : Type := mk {
  name : string;
  changes : list string
}.
End FunctionGroup.

(** ** diff_parser.py *)

Module DiffParser.

Import Text.

(** [re.search(r'b/(.+)$', line)], group 1.  [line] is one element of
    [split('\n')], so it holds no newline: [.+$] then takes everything that
    follows the leftmost [b/] that is followed by at least one character. *)
Fixpoint search_b_path (line : string) : option string :=
  match line with
  | EmptyString => None
  | String c r =>
      match r with
      | String d (String e r') =>
          if Ascii.eqb c "b" && Ascii.eqb d "/" then Some (String e r')
          else search_b_path r
      | _ => None
      end
  end.

(** [re.search(r'\+(\d+)', line)], group 1: the digits after the leftmost
    [+] that is followed by a digit, digits being those of [is_digit]. *)
Fixpoint search_plus_digits (line : string) : option string :=
  match line with
  | EmptyString => None
  | String c r =>
      if Ascii.eqb c "+" && negb (String.eqb (digits_prefix r) EmptyString)
      then Some (digits_prefix r)
      else search_plus_digits r
  end.

Definition is_file_header (line : string) : bool := startswith line "diff --git".
Definition is_new_file (line : string) : bool := startswith line "new file".
Definition is_deleted_file (line : string) : bool := startswith line "deleted file".
Definition is_addition (line : string) : bool :=
  startswith line "+" && negb (startswith line "+++").
Definition is_deletion (line : string) : bool :=
  startswith line "-" && negb (startswith line "---").

(** *** parse_diff *)

(** The loop state: [files], [current_file] (a dict, or [None]) and
    [current_patch]. *)
Record parse_state : Type := mk_parse_state {
  files : list FileChange.t;
  current_file : option FileChange.t;
  current_patch : list string
}.

Definition parse_init : parse_state := mk_parse_state [] None [].

Definition set_patch (f : FileChange.t) (p : string) : FileChange.t :=
  FileChange.mk (FileChange.filename f) (FileChange.additions f)
    (FileChange.deletions f) p (FileChange.status f).

Definition set_status (f : FileChange.t) (s : string) : FileChange.t :=
  FileChange.mk (FileChange.filename f) (FileChange.additions f)
    (FileChange.deletions f) (FileChange.patch f) s.

Definition incr_additions (f : FileChange.t) : FileChange.t :=
  FileChange.mk (FileChange.filename f) (FileChange.additions f + 1)
    (FileChange.deletions f) (FileChange.patch f) (FileChange.status f).

Definition incr_deletions (f : FileChange.t) : FileChange.t :=
  FileChange.mk (FileChange.filename f) (FileChange.additions f)
    (FileChange.deletions f + 1) (FileChange.patch f) (FileChange.status f).

(** [if current_file: current_file['patch'] = ...; files.append(...)]. *)
Definition flush (st : parse_state) : list FileChange.t :=
  match current_file st with
  | Some f => files st ++ [set_patch f (join newline (current_patch st))]
  | None => files st
  end.

Definition header_filename (line : string) : string :=
  match search_b_path line with
  | Some name => name
  | None => "unknown"
  end.

Definition new_file (line : string) : FileChange.t :=
  FileChange.mk (header_filename line) 0 0 EmptyString "modified".

(** One iteration of the [for line in lines] loop. *)
Definition parse_step (st : parse_state) (line : string) : parse_state :=
  if is_file_header line then
    mk_parse_state (flush st) (Some (new_file line)) []
  else if is_new_file line then
    mk_parse_state (files st)
      (option_map (fun f => set_status f "added") (current_file st))
      (current_patch st)
  else if is_deleted_file line then
    mk_parse_state (files st)
      (option_map (fun f => set_status f "deleted") (current_file st))
      (current_patch st)
  else if is_addition line then
    mk_parse_state (files st)
      (option_map incr_additions (current_file st))
      (current_patch st ++ [line])
  else if is_deletion line then
    mk_parse_state (files st)
      (option_map incr_deletions (current_file st))
      (current_patch st ++ [line])
  else
    mk_parse_state (files st) (current_file st) (current_patch st ++ [line]).

Definition parse_lines (lines : list string) : list FileChange.t :=
  flush (fold_left parse_step lines parse_init).

Definition parse_diff (diff_content : string) : list FileChange.t :=
  parse_lines (split nl diff_content).

(** *** extract_changed_lines *)

(** The loop state: [current_line_num] and [changed_lines]. *)
Record scan_state : Type := mk_scan_state {
  current_line_num : nat;
  changed_lines : list ChangedLine.t
}.

Definition scan_init : scan_state := mk_scan_state 0 [].

Definition scan_step (st : scan_state) (line : string) : scan_state :=
  if startswith line "@@" then
    match search_plus_digits line with
    | Some ds => mk_scan_state (int ds) (changed_lines st)
    | None => st
    end
  else if is_addition line then
    mk_scan_state (current_line_num st + 1)
      (changed_lines st ++
         [ChangedLine.mk (current_line_num st) "addition" (tail line) line])
  else if is_deletion line then
    mk_scan_state (current_line_num st)
      (changed_lines st ++
         [ChangedLine.mk (current_line_num st) "deletion" (tail line) line])
  else if negb (startswith line "\") then
    mk_scan_state (current_line_num st + 1) (changed_lines st)
  else st.

Definition scan_lines (lines : list string) : scan_state :=
  fold_left scan_step lines scan_init.

Definition extract_changed_lines (patch : string) : list ChangedLine.t :=
  changed_lines (scan_lines (split nl patch)).

(** [filename.split('.')[-1] if '.' in filename else '']. *)
Definition get_file_extension (filename : string) : string :=
  if contains "." filename then List.last (split "." filename) EmptyString
  else EmptyString.

(** *** group_changes_by_function *)

(** The table [function_patterns], a regular expression per language. *)
Definition function_patterns (language : string) : option string :=
  if String.eqb language "python" then Some "^\s*def\s+(\w+)"
  else if String.eqb language "javascript" then
    Some "^\s*(?:function\s+(\w+)|(?:const|let|var)\s+(\w+)\s*=\s*(?:async\s*)?\()"
  else if String.eqb language "typescript" then
    Some "^\s*(?:function\s+(\w+)|(?:const|let|var)\s+(\w+)\s*=\s*(?:async\s*)?\()"
  else if String.eqb language "java" then
    Some "^\s*(?:public|private|protected)?\s*(?:static\s+)?[\w<>]+\s+(\w+)\s*\("
  else if String.eqb language "go" then
    Some "^\s*func\s+(?:\(\w+\s+\*?\w+\)\s+)?(\w+)"
  else None.

(** [line.startswith('+') or line.startswith('-')] *)
Definition is_change (line : string) : bool :=
  startswith line "+" || startswith line "-".

Section GroupChanges.

(** [search_name pattern line] stands for the regular-expression engine:
    [match.group(1) or match.group(2)] when [re.search(pattern, line)]
    matches, [None] when it does not. *)
Variable search_name : string -> string -> option string.

(** The loop state: the list [functions] and [current_function], which is
    [None] or refers to an element of [functions] (the dictionary appended
    last); the element is updated in place through that reference. *)
Definition group_state : Type := (list FunctionGroup.t * option nat)%type.

Definition add_change (line : string) (g : FunctionGroup.t) : FunctionGroup.t :=
  FunctionGroup.mk (FunctionGroup.name g) (FunctionGroup.changes g ++ [line]).

Definition group_step (pattern : string) (st : group_state) (line : string)
  : group_state :=
  let st :=
    match search_name pattern line with
    | Some function_name =>
        (fst st ++ [FunctionGroup.mk function_name []], Some (length (fst st)))
    | None => st
    end in
  match snd st with
  | Some current_function =>
      if is_change line
      then (alter (add_change line) current_function (fst st), snd st)
      else st
  | None => st
  end.

Definition group_changes_by_function (patch language : string)
  : list FunctionGroup.t :=
  match function_patterns language with
  | None => []
  | Some pattern =>
      fst (fold_left (group_step pattern) (split nl patch) ([], None))
  end.

End GroupChanges.

End DiffParser.

(** ** Sections of a diff, read off the text

    The reference reading of a diff that [parse_diff] is compared with: a
    section is a [diff --git] line with the lines that follow it up to the
    next such line. *)

Module Sections.

Import Text DiffParser.

(** The lines before the next file header. *)
Fixpoint section_body (ls : list string) : list string :=
  match ls with
  | [] => []
  | l :: r => if is_file_header l then [] else l :: section_body r
  end.

(** Every file section as (header line, body lines); what precedes the first
    header belongs to no section. *)
Fixpoint sections (ls : list string) : list (string * list string) :=
  match ls with
  | [] => []
  | l :: r =>
      if is_file_header l then (l, section_body r) :: sections r
      else sections r
  end.

Definition is_status_line (l : string) : bool :=
  is_new_file l || is_deleted_file l.

(** The status the last status line of a section announces. *)
Definition section_status (body : list string) : string :=
  match List.find is_status_line (rev body) with
  | Some l => if is_new_file l then "added" else "deleted"
  | None => "modified"
  end.

Definition section_patch_lines (body : list string) : list string :=
  List.filter (fun l => negb (is_status_line l)) body.

Definition section_file (sec : string * list string) : FileChange.t :=
  FileChange.mk (header_filename (fst sec))
    (length (List.filter is_addition (snd sec)))
    (length (List.filter is_deletion (snd sec)))
    (join newline (section_patch_lines (snd sec)))
    (section_status (snd sec)).

End Sections.

Import Text DiffParser Sections.

(** ** models.py: findings and analyzer results *)

Inductive Severity : Type := CRITICAL | HIGH | MEDIUM | LOW | INFO.

Inductive IssueCategory : Type :=
  LOGIC | SECURITY | PERFORMANCE | READABILITY | BEST_PRACTICES | TESTING
| DOCUMENTATION.

(** [category.value] *)
Definition category_value (c : IssueCategory) : string :=
  match c with
  | LOGIC => "logic"
  | SECURITY => "security"
  | PERFORMANCE => "performance"
  | READABILITY => "readability"
  | BEST_PRACTICES => "best_practices"
  | TESTING => "testing"
  | DOCUMENTATION => "documentation"
  end.

Definition Severity_eqb (a b : Severity) : bool :=
  match a, b with
  | CRITICAL, CRITICAL | HIGH, HIGH | MEDIUM, MEDIUM | LOW, LOW
  | INFO, INFO => true
  | _, _ => false
  end.

Module ReviewIssue.
Record t : Type := mk {
  category : IssueCategory;
  severity : Severity;
  line_number : option Z;
  filename : string;
  code_snippet : string;
  issue_description : string;
  recommendation : string;
  reasoning : string
}.
End ReviewIssue.

Module LogicAnalysisOutput.
Record t : Type := mk {
  issues : list ReviewIssue.t;
  potential_bugs : list string;
  edge_cases_missing : list string
}.
End LogicAnalysisOutput.

Module SecurityAnalysisOutput.
Record t : Type := mk {
  vulnerabilities : list ReviewIssue.t;
  security_score : nat;
  critical_issues : list string
}.
End SecurityAnalysisOutput.

Module PerformanceAnalysisOutput.
Record t : Type := mk {
  bottlenecks : list ReviewIssue.t;
  optimization_suggestions : list string;
  complexity_warnings : list string
}.
End PerformanceAnalysisOutput.

Module ReadabilityAnalysisOutput.
Record t : Type := mk {
  style_issues : list ReviewIssue.t;
  naming_suggestions : list string;
  documentation_needed : list string;
  readability_score : nat
}.
End ReadabilityAnalysisOutput.

Module TestingAnalysisOutput.
Record t : Type := mk {
  missing_tests : list string;
  test_coverage_concerns : list string;
  test_quality_issues : list ReviewIssue.t
}.
End TestingAnalysisOutput.

Module AggregatedReview.
Record t : Type := mk {
  overall_assessment : string;
  approval_status : string;
  critical_blockers : list ReviewIssue.t;
  all_issues : list ReviewIssue.t;
  strengths : list string;
  summary_by_category : gmap string nat;
  priority_actions : list string
}.
End AggregatedReview.

(** ** Calls that may raise *)

Inductive call_result (A : Type) : Type :=
| Returned (a : A)
| Raised.

Arguments Returned {A} a.
Arguments Raised {A}.

(** [try: x = call() except Exception: x = None] *)
Definition or_none {A : Type} (r : call_result A) : option A :=
  match r with
  | Returned a => Some a
  | Raised => None
  end.

(** ** agents.py

    The context dictionary every analyzer receives, and the five [analyze]
    methods.  [chain] stands for [self.chain.invoke]: the prompt, the remote
    model and the output parser, which return a parsed result or raise. *)

Module AnalysisContext.
Record t : Type := mk {
  filename : string;
  language : string;
  changes : string;
  patch : string
}.
End AnalysisContext.

Module LogicAnalysisAgent.
Definition default : LogicAnalysisOutput.t := LogicAnalysisOutput.mk [] [] [].
Definition analyze (chain : AnalysisContext.t -> call_result LogicAnalysisOutput.t)
    (context : AnalysisContext.t) : LogicAnalysisOutput.t :=
  match chain context with
  | Returned result => result
  | Raised => default
  end.
End LogicAnalysisAgent.

Module SecurityAnalysisAgent.
Definition default : SecurityAnalysisOutput.t := SecurityAnalysisOutput.mk [] 50 [].
Definition analyze (chain : AnalysisContext.t -> call_result SecurityAnalysisOutput.t)
    (context : AnalysisContext.t) : SecurityAnalysisOutput.t :=
  match chain context with
  | Returned result => result
  | Raised => default
  end.
End SecurityAnalysisAgent.

Module PerformanceAnalysisAgent.
Definition default : PerformanceAnalysisOutput.t :=
  PerformanceAnalysisOutput.mk [] [] [].
Definition analyze
    (chain : AnalysisContext.t -> call_result PerformanceAnalysisOutput.t)
    (context : AnalysisContext.t) : PerformanceAnalysisOutput.t :=
  match chain context with
  | Returned result => result
  | Raised => default
  end.
End PerformanceAnalysisAgent.

Module ReadabilityAnalysisAgent.
Definition default : ReadabilityAnalysisOutput.t :=
  ReadabilityAnalysisOutput.mk [] [] [] 50.
Definition analyze
    (chain : AnalysisContext.t -> call_result ReadabilityAnalysisOutput.t)
    (context : AnalysisContext.t) : ReadabilityAnalysisOutput.t :=
  match chain context with
  | Returned result => result
  | Raised => default
  end.
End ReadabilityAnalysisAgent.

Module TestingAnalysisAgent.
Definition default : TestingAnalysisOutput.t := TestingAnalysisOutput.mk [] [] [].
Definition analyze (chain : AnalysisContext.t -> call_result TestingAnalysisOutput.t)
    (context : AnalysisContext.t) : TestingAnalysisOutput.t :=
  match chain context with
  | Returned result => result
  | Raised => default
  end.
End TestingAnalysisAgent.

(** ** orchestrator.py *)

(** The [results] dictionary of [_analyze_file]: one entry per analyzer
    name, the analyzer's result or [None]. *)
Module FileResults.
Record t : Type := mk {
  logic : option LogicAnalysisOutput.t;
  security : option SecurityAnalysisOutput.t;
  performance : option PerformanceAnalysisOutput.t;
  readability : option ReadabilityAnalysisOutput.t;
  testing : option TestingAnalysisOutput.t
}.
End FileResults.

(** The [all_analyses] dictionary of [review_pr]: for every analyzer name
    the list of its per-file entries. *)
Module Analyses.
Record t : Type := mk {
  logic : list (option LogicAnalysisOutput.t);
  security : list (option SecurityAnalysisOutput.t);
  performance : list (option PerformanceAnalysisOutput.t);
  readability : list (option ReadabilityAnalysisOutput.t);
  testing : list (option TestingAnalysisOutput.t)
}.
Definition empty : t := mk [] [] [] [] [].
End Analyses.

(** What the aggregation prompt is filled with.  The prompt text itself is
    not modelled: the fields carry the data the code renders into it
    ([issues_detail] the first 15 issues, [agent_insights] the scores whose
    averages are printed). *)
Module AggregationContext.
Record t : Type := mk {
  total_issues : nat;
  critical_count : nat;
  category_summary : gmap string nat;
  issues_detail : list ReviewIssue.t;
  agent_insights : list nat * list nat;
  approval_status : string
}.
End AggregationContext.

(** The dictionary [review_pr] returns, without [processing_time], which is
    a wall-clock reading. *)
Module ReviewResult.
Record t : Type := mk {
  review : AggregatedReview.t;
  agent_analyses : Analyses.t
}.
End ReviewResult.

Module ReviewOrchestrator.

Import Text DiffParser.

(** [all_issues.extend(analysis.<field>)] for every entry that is not
    [None], in list order. *)
Definition extend_from {A : Type} (field : A -> list ReviewIssue.t)
    (all_issues : list ReviewIssue.t) (entries : list (option A))
  : list ReviewIssue.t :=
  fold_left
    (fun acc analysis =>
       match analysis with
       | Some a => acc ++ field a
       | None => acc
       end)
    entries all_issues.

Definition _collect_all_issues (analyses : Analyses.t) : list ReviewIssue.t :=
  let all_issues := [] in
  let all_issues :=
    extend_from LogicAnalysisOutput.issues all_issues (Analyses.logic analyses) in
  let all_issues :=
    extend_from SecurityAnalysisOutput.vulnerabilities all_issues
      (Analyses.security analyses) in
  let all_issues :=
    extend_from PerformanceAnalysisOutput.bottlenecks all_issues
      (Analyses.performance analyses) in
  let all_issues :=
    extend_from ReadabilityAnalysisOutput.style_issues all_issues
      (Analyses.readability analyses) in
  let all_issues :=
    extend_from TestingAnalysisOutput.test_quality_issues all_issues
      (Analyses.testing analyses) in
  all_issues.

(** [issue.severity in [Severity.CRITICAL, Severity.HIGH]] *)
Definition is_blocker (issue : ReviewIssue.t) : bool :=
  Severity_eqb (ReviewIssue.severity issue) CRITICAL
  || Severity_eqb (ReviewIssue.severity issue) HIGH.

Definition critical_blockers (all_issues : list ReviewIssue.t)
  : list ReviewIssue.t :=
  List.filter is_blocker all_issues.

(** [summary_by_category[category] = summary_by_category.get(category, 0) + 1] *)
Definition count_issue (summary : gmap string nat) (issue : ReviewIssue.t)
  : gmap string nat :=
  let category := category_value (ReviewIssue.category issue) in
  <[category := default 0 (summary !! category) + 1]> summary.

Definition summary_by_category (all_issues : list ReviewIssue.t)
  : gmap string nat :=
  fold_left count_issue all_issues ∅.

Definition nonempty {A : Type} (l : list A) : bool :=
  match l with
  | [] => false
  | _ :: _ => true
  end.

Definition approval_status (all_issues : list ReviewIssue.t) : string :=
  if existsb (fun issue => Severity_eqb (ReviewIssue.severity issue) CRITICAL)
       all_issues
  then "CHANGES_REQUESTED"
  else if nonempty (critical_blockers all_issues) then "CHANGES_REQUESTED"
  else if nonempty all_issues then "COMMENTED"
  else "APPROVED".

(** The scores [_summarize_agent_insights] averages. *)
Definition _summarize_agent_insights (analyses : Analyses.t)
  : list nat * list nat :=
  (omap (option_map SecurityAnalysisOutput.security_score)
     (Analyses.security analyses),
   omap (option_map ReadabilityAnalysisOutput.readability_score)
     (Analyses.readability analyses)).

(** [not issue.filename or not issue.code_snippet or not
    issue.issue_description] *)
Definition missing_required_fields (issue : ReviewIssue.t) : bool :=
  String.eqb (ReviewIssue.filename issue) EmptyString
  || String.eqb (ReviewIssue.code_snippet issue) EmptyString
  || String.eqb (ReviewIssue.issue_description issue) EmptyString.

(** The body of the [try]: the parsed answer of the aggregation chain, if
    the chain returns one and no issue in it trips the [ValueError]. *)
Definition accepted (answer : call_result AggregatedReview.t)
  : option AggregatedReview.t :=
  match answer with
  | Returned result =>
      if existsb missing_required_fields
           (AggregatedReview.critical_blockers result)
      then None
      else if existsb missing_required_fields
                (AggregatedReview.all_issues result)
      then None
      else Some result
  | Raised => None
  end.

Section Orchestrator.

(** The five analyzers as the orchestrator calls them, and the aggregation
    chain.  [mentions_security analyses] stands for
    [any('security' in str(a) for a in analyses.values())], a test on the
    printed form of the result objects. *)
Variable logic_agent : AnalysisContext.t -> call_result LogicAnalysisOutput.t.
Variable security_agent : AnalysisContext.t -> call_result SecurityAnalysisOutput.t.
Variable performance_agent :
  AnalysisContext.t -> call_result PerformanceAnalysisOutput.t.
Variable readability_agent :
  AnalysisContext.t -> call_result ReadabilityAnalysisOutput.t.
Variable testing_agent : AnalysisContext.t -> call_result TestingAnalysisOutput.t.
Variable aggregator_chain : AggregationContext.t -> call_result AggregatedReview.t.
Variable mentions_security : Analyses.t -> bool.

Definition analysis_context (file_change : FileChange.t) : AnalysisContext.t :=
  let language := get_file_extension (FileChange.filename file_change) in
  let changed_lines := extract_changed_lines (FileChange.patch file_change) in
  let changes_text := join newline (map ChangedLine.raw changed_lines) in
  AnalysisContext.mk (FileChange.filename file_change) language changes_text
    (FileChange.patch file_change).

(** The five calls run on a thread pool; each result is stored under the
    name of its analyzer, so the dictionary does not depend on the order of
    completion. *)
Definition _analyze_file (file_change : FileChange.t) : FileResults.t :=
  let context := analysis_context file_change in
  FileResults.mk
    (or_none (logic_agent context))
    (or_none (security_agent context))
    (or_none (performance_agent context))
    (or_none (readability_agent context))
    (or_none (testing_agent context)).

(** [for key in all_analyses: all_analyses[key].append(file_analyses[key])] *)
Definition append_results (all_analyses : Analyses.t)
    (file_analyses : FileResults.t) : Analyses.t :=
  Analyses.mk
    (Analyses.logic all_analyses ++ [FileResults.logic file_analyses])
    (Analyses.security all_analyses ++ [FileResults.security file_analyses])
    (Analyses.performance all_analyses ++
       [FileResults.performance file_analyses])
    (Analyses.readability all_analyses ++
       [FileResults.readability file_analyses])
    (Analyses.testing all_analyses ++ [FileResults.testing file_analyses]).

Definition is_deleted (file_change : FileChange.t) : bool :=
  String.eqb (FileChange.status file_change) "deleted".

Definition analyze_files (files : list FileChange.t) : Analyses.t :=
  fold_left
    (fun all_analyses file_change =>
       if is_deleted file_change then all_analyses
       else append_results all_analyses (_analyze_file file_change))
    files Analyses.empty.

Definition aggregation_context (all_issues : list ReviewIssue.t)
    (analyses : Analyses.t) : AggregationContext.t :=
  AggregationContext.mk
    (length all_issues)
    (length (critical_blockers all_issues))
    (summary_by_category all_issues)
    (take 15 all_issues)
    (_summarize_agent_insights analyses)
    (approval_status all_issues).

(** The review built in the [except] branch. *)
Definition fallback_review (all_issues : list ReviewIssue.t)
    (analyses : Analyses.t) : AggregatedReview.t :=
  AggregatedReview.mk
    "Review completed with automated analysis."
    (approval_status all_issues)
    (take 10 (critical_blockers all_issues))
    (take 50 all_issues)
    (["Code changes submitted"] ++
       (if mentions_security analyses then ["High security score"] else []))
    (summary_by_category all_issues)
    ["Review all flagged issues"; "Address critical blockers first";
     "Improve test coverage"].

Definition _generate_aggregated_review (all_issues : list ReviewIssue.t)
    (analyses : Analyses.t) : AggregatedReview.t :=
  match accepted (aggregator_chain (aggregation_context all_issues analyses)) with
  | Some result => result
  | None => fallback_review all_issues analyses
  end.

Definition review_pr (files : list FileChange.t) : ReviewResult.t :=
  let all_analyses := analyze_files files in
  let all_issues := _collect_all_issues all_analyses in
  let aggregated_review := _generate_aggregated_review all_issues all_analyses in
  ReviewResult.mk aggregated_review all_analyses.

End Orchestrator.

End ReviewOrchestrator.

(** ** github_client.py *)

(** The dictionary [parse_pr_url] returns; [pr_number] is still text. *)
Module ParsedPR.
Record t : Type := mk {
  owner : string;
  repo : string;
  pr_number : string
}.
End ParsedPR.

Module PRMetadata.
Record t : Type := mk {
  pr_number : nat;
  title : string;
  description : option string;
  author : string;
  branch : string;
  files_changed : nat;
  additions : nat;
  deletions : nat
}.
End PRMetadata.

Module GitHubClient.

Import Text.

(** [s] without the prefix [p], if it starts with it. *)
Fixpoint strip_prefix (p s : string) {struct p} : option string :=
  match p with
  | EmptyString => Some s
  | String a p' =>
      match s with
      | EmptyString => None
      | String b s' => if Ascii.eqb b a then strip_prefix p' s' else None
      end
  end.

(** The longest run of characters other than [/] a string starts with
    (greedy [[^/]*]), and what follows it. *)
Fixpoint span_segment (s : string) : string * string :=
  match s with
  | EmptyString => (EmptyString, EmptyString)
  | String c r =>
      if Ascii.eqb c "/" then (EmptyString, s)
      else let '(seg, rest) := span_segment r in (String c seg, rest)
  end.

(** The pattern [github\.com/([^/]+)/([^/]+)/pull/(\d+)] matched at the
    start of [s], digits being those of [is_digit].  A segment cannot be
    shortened by backtracking, since the character after a shorter one is
    not [/]. *)
Definition match_pr_here (s : string) : option ParsedPR.t :=
  match strip_prefix "github.com/" s with
  | None => None
  | Some s1 =>
      let '(owner, s2) := span_segment s1 in
      if String.eqb owner EmptyString then None
      else
        match strip_prefix "/" s2 with
        | None => None
        | Some s3 =>
            let '(repo, s4) := span_segment s3 in
            if String.eqb repo EmptyString then None
            else
              match strip_prefix "/pull/" s4 with
              | None => None
              | Some s5 =>
                  if String.eqb (digits_prefix s5) EmptyString then None
                  else Some (ParsedPR.mk owner repo (digits_prefix s5))
              end
        end
  end.

(** [re.search(pattern, url)]: the leftmost position at which the pattern
    matches. *)
Fixpoint parse_pr_url (url : string) : option ParsedPR.t :=
  match match_pr_here url with
  | Some parsed => Some parsed
  | None =>
      match url with
      | EmptyString => None
      | String _ r => parse_pr_url r
      end
  end.

End GitHubClient.

(** ** main.py *)

Module PRReviewRequest.
Record t (Dict : Type) : Type := mk {
  github_url : option string;
  diff_content : option string;
  pr_metadata : option Dict
}.
Arguments mk {Dict} _ _ _.
Arguments github_url {Dict} _.
Arguments diff_content {Dict} _.
Arguments pr_metadata {Dict} _.
End PRReviewRequest.

(** The response of the review endpoint.  [agent_analyses] holds the
    serialized results, the [None] entries left out; [processing_time] is a
    wall-clock reading and is not modelled. *)
Module SerializedAnalyses.
Record t : Type := mk {
  logic : list LogicAnalysisOutput.t;
  security : list SecurityAnalysisOutput.t;
  performance : list PerformanceAnalysisOutput.t;
  readability : list ReadabilityAnalysisOutput.t;
  testing : list TestingAnalysisOutput.t
}.
End SerializedAnalyses.

Module PRReviewResponse.
Record t : Type := mk {
  pr_metadata : option PRMetadata.t;
  review : AggregatedReview.t;
  agent_analyses : SerializedAnalyses.t
}.
End PRReviewResponse.

(** What a request handler does: return a value, raise [HTTPException], or
    let another exception escape. *)
Inductive handled (A : Type) : Type :=
| Responds (a : A)
| HTTPException (status_code : nat) (detail : string)
| Escapes.

Arguments Responds {A} a.
Arguments HTTPException {A} status_code detail.
Arguments Escapes {A}.

(** The value stored for a job in [review_results]; [Completed] holds the
    result as the background task builds it, with the analyzer entries as
    [review_pr] returned them. *)
Inductive job : Type :=
| Processing
| Completed (pr_metadata : option PRMetadata.t) (result : ReviewResult.t)
| Failed (error : string).

Module Main.

Import Text DiffParser GitHubClient ReviewOrchestrator.

(** [bool(s)] for an optional string: neither [None] nor empty. *)
Definition truthy (s : option string) : bool :=
  match s with
  | Some (String _ _) => true
  | _ => false
  end.

Definition text_of (s : option string) : string :=
  match s with
  | Some t => t
  | None => EmptyString
  end.

(** [for analysis in analyses_list: if analysis: ...append(...)] *)
Definition serialize (analyses : Analyses.t) : SerializedAnalyses.t :=
  SerializedAnalyses.mk
    (omap id (Analyses.logic analyses))
    (omap id (Analyses.security analyses))
    (omap id (Analyses.performance analyses))
    (omap id (Analyses.readability analyses))
    (omap id (Analyses.testing analyses)).

Section Endpoints.

(** The collaborators of the handlers: the orchestrator (with its analyzers
    and aggregation chain), the two GitHub fetches, which return [None] and
    the empty list on any failure, and the construction of [PRMetadata]
    from the dictionary of the request, which may fail validation with a
    message.  [dict_truthy] is [bool(request.pr_metadata)]. *)
Variable Dict : Type.
Variable dict_truthy : Dict -> bool.
Variable build_metadata : Dict -> PRMetadata.t + string.
Variable fetch_pr_metadata : string -> string -> nat -> option PRMetadata.t.
Variable fetch_pr_files : string -> string -> nat -> list FileChange.t.
Variable orchestrator_review_pr : list FileChange.t -> ReviewResult.t + string.

(** The [try] block of the handler: the review, the serialization of the
    analyzer results and the response; any exception becomes a 500. *)
Definition respond (pr_metadata : option PRMetadata.t)
    (files : list FileChange.t) : handled PRReviewResponse.t :=
  match orchestrator_review_pr files with
  | inl review_result =>
      Responds
        (PRReviewResponse.mk pr_metadata (ReviewResult.review review_result)
           (serialize (ReviewResult.agent_analyses review_result)))
  | inr message =>
      HTTPException 500 ("Review processing error: " +:+ message)
  end.

(** The handler of [POST /review]. *)
Definition review_pr (request : PRReviewRequest.t Dict)
  : handled PRReviewResponse.t :=
  if negb (truthy (PRReviewRequest.github_url request))
     && negb (truthy (PRReviewRequest.diff_content request))
  then HTTPException 400
         "Must provide either 'github_url' or 'diff_content' in request body"
  else if truthy (PRReviewRequest.github_url request) then
    match parse_pr_url (text_of (PRReviewRequest.github_url request)) with
    | None => HTTPException 400 "Invalid GitHub PR URL format"
    | Some parsed =>
        let owner := ParsedPR.owner parsed in
        let repo := ParsedPR.repo parsed in
        let pr_number := int (ParsedPR.pr_number parsed) in
        match fetch_pr_metadata owner repo pr_number with
        | None => HTTPException 404 "Could not fetch PR metadata from GitHub"
        | Some pr_metadata =>
            match fetch_pr_files owner repo pr_number with
            | [] => HTTPException 404 "Could not fetch PR files from GitHub"
            | files => respond (Some pr_metadata) files
            end
        end
    end
  else if truthy (PRReviewRequest.diff_content request) then
    match parse_diff (text_of (PRReviewRequest.diff_content request)) with
    | [] => HTTPException 400 "Could not parse diff content"
    | files =>
        match PRReviewRequest.pr_metadata request with
        | Some d =>
            if dict_truthy d then
              match build_metadata d with
              | inl pr_metadata => respond (Some pr_metadata) files
              | inr _ => Escapes
              end
            else respond None files
        | None => respond None files
        end
    end
  else HTTPException 400 "Must provide either github_url or diff_content".

(** The body of the background task [process_review_async]: the value it
    stores for the job. *)
Definition process_review (request : PRReviewRequest.t Dict) : job :=
  let gathered : (option PRMetadata.t * list FileChange.t) + string :=
    if truthy (PRReviewRequest.github_url request) then
      match parse_pr_url (text_of (PRReviewRequest.github_url request)) with
      | Some parsed =>
          let owner := ParsedPR.owner parsed in
          let repo := ParsedPR.repo parsed in
          let pr_number := int (ParsedPR.pr_number parsed) in
          inl (fetch_pr_metadata owner repo pr_number,
               fetch_pr_files owner repo pr_number)
      | None => inl (None, [])
      end
    else if truthy (PRReviewRequest.diff_content request) then
      let files :=
        parse_diff (text_of (PRReviewRequest.diff_content request)) in
      match PRReviewRequest.pr_metadata request with
      | Some d =>
          if dict_truthy d then
            match build_metadata d with
            | inl pr_metadata => inl (Some pr_metadata, files)
            | inr message => inr message
            end
          else inl (None, files)
      | None => inl (None, files)
      end
    else inl (None, []) in
  match gathered with
  | inr message => Failed message
  | inl (pr_metadata, files) =>
      match files with
      | [] => Failed "Could not process PR"
      | _ :: _ =>
          match orchestrator_review_pr files with
          | inl review_result => Completed pr_metadata review_result
          | inr message => Failed message
          end
      end
  end.

(** [review_results], the store of the asynchronous reviews, and the three
    operations on it: [POST /review/async] registers the job under a fresh
    identifier, the background task overwrites the entry, [GET
    /review/status/{job_id}] reads it. *)
Definition review_pr_async (job_id : string) (review_results : gmap string job)
  : gmap string job :=
  <[job_id := Processing]> review_results.

Definition process_review_async (job_id : string)
    (request : PRReviewRequest.t Dict) (review_results : gmap string job)
  : gmap string job :=
  <[job_id := process_review request]> review_results.

Definition get_review_status (job_id : string)
    (review_results : gmap string job) : handled job :=
  match review_results !! job_id with
  | None => HTTPException 404 "Job not found"
  | Some status => Responds status
  end.

End Endpoints.

End Main.

(** ** The conversion that fails

    [int()] raises [ValueError] on a string of more than 4300 digits, the
    default limit of the interpreter on the conversion of strings to
    integers.  [extract_changed_lines] converts the number of every hunk
    header and catches nothing; [_analyze_file] calls it before the
    analyzers and outside every [try], and [review_pr] catches nothing
    either: each raises when the conversion does.  This module gives these
    functions with that failure; the functions of the same names above give
    what they return when no conversion fails. *)

Module Raising.

Import Text DiffParser ReviewOrchestrator.

Definition max_str_digits : nat := 4300.

Definition bind {A B : Type} (r : call_result A) (f : A -> call_result B)
  : call_result B :=
  match r with
  | Returned a => f a
  | Raised => Raised
  end.

(** [int(ds)] on a string of digits. *)
Definition int (ds : string) : call_result nat :=
  if Nat.leb (String.length ds) max_str_digits then Returned (Text.int ds)
  else Raised.

(** One turn of the loop of [extract_changed_lines]. *)
Definition scan_step (st : scan_state) (line : string)
  : call_result scan_state :=
  if startswith line "@@" then
    match search_plus_digits line with
    | Some ds =>
        bind (int ds)
          (fun n => Returned (mk_scan_state n (changed_lines st)))
    | None => Returned st
    end
  else if is_addition line then
    Returned
      (mk_scan_state (current_line_num st + 1)
         (changed_lines st ++
          [ChangedLine.mk (current_line_num st) "addition" (tail line) line]))
  else if is_deletion line then
    Returned
      (mk_scan_state (current_line_num st)
         (changed_lines st ++
          [ChangedLine.mk (current_line_num st) "deletion" (tail line) line]))
  else if negb (startswith line "\") then
    Returned (mk_scan_state (current_line_num st + 1) (changed_lines st))
  else Returned st.

Definition scan_lines (lines : list string) : call_result scan_state :=
  fold_left (fun acc line => bind acc (fun st => scan_step st line)) lines
    (Returned scan_init).

Definition extract_changed_lines (patch : string)
  : call_result (list ChangedLine.t) :=
  bind (scan_lines (split nl patch)) (fun st => Returned (changed_lines st)).

Section Orchestrator.

Variable logic_agent : AnalysisContext.t -> call_result LogicAnalysisOutput.t.
Variable security_agent : AnalysisContext.t -> call_result SecurityAnalysisOutput.t.
Variable performance_agent :
  AnalysisContext.t -> call_result PerformanceAnalysisOutput.t.
Variable readability_agent :
  AnalysisContext.t -> call_result ReadabilityAnalysisOutput.t.
Variable testing_agent : AnalysisContext.t -> call_result TestingAnalysisOutput.t.
Variable aggregator_chain : AggregationContext.t -> call_result AggregatedReview.t.
Variable mentions_security : Analyses.t -> bool.

Definition analysis_context (file_change : FileChange.t)
  : call_result AnalysisContext.t :=
  let language := get_file_extension (FileChange.filename file_change) in
  bind (extract_changed_lines (FileChange.patch file_change))
    (fun changed_lines =>
       let changes_text := join newline (map ChangedLine.raw changed_lines) in
       Returned
         (AnalysisContext.mk (FileChange.filename file_change) language
            changes_text (FileChange.patch file_change))).

Definition _analyze_file (file_change : FileChange.t)
  : call_result FileResults.t :=
  bind (analysis_context file_change)
    (fun context =>
       Returned
         (FileResults.mk
            (or_none (logic_agent context))
            (or_none (security_agent context))
            (or_none (performance_agent context))
            (or_none (readability_agent context))
            (or_none (testing_agent context)))).

Definition analyze_files (files : list FileChange.t) : call_result Analyses.t :=
  fold_left
    (fun acc file_change =>
       bind acc
         (fun all_analyses =>
            if is_deleted file_change then Returned all_analyses
            else
              bind (_analyze_file file_change)
                (fun file_analyses =>
                   Returned (append_results all_analyses file_analyses))))
    files (Returned Analyses.empty).

Definition review_pr (files : list FileChange.t) : call_result ReviewResult.t :=
  bind (analyze_files files)
    (fun all_analyses =>
       let all_issues := _collect_all_issues all_analyses in
       let aggregated_review :=
         _generate_aggregated_review aggregator_chain mentions_security
           all_issues all_analyses in
       Returned (ReviewResult.mk aggregated_review all_analyses)).

End Orchestrator.

End Raising.

(** * Definitions used to state the properties *)

Import Text DiffParser Sections ReviewOrchestrator GitHubClient.

(** What a line that is no file header does to the accumulator. *)
Definition file_step (l : string) (f : FileChange.t) : FileChange.t :=
  if is_new_file l then set_status f "added"
  else if is_deleted_file l then set_status f "deleted"
  else if is_addition l then incr_additions f
  else if is_deletion l then incr_deletions f
  else f.

(** The accumulator after the body lines of a section. *)
Definition absorb (f : FileChange.t) (body : list string) : FileChange.t :=
  fold_left (fun g l => file_step l g) body f.

Definition finish (f : FileChange.t) (cp body : list string) : FileChange.t :=
  set_patch (absorb f body)
    (join newline (cp ++ section_patch_lines body)).

Definition ex_new_file_diff : string :=
  "diff --git a/x.py b/x.py" +:+ String nl "new file mode 100644"
  +:+ String nl "+a".

Definition ex_two_headers : string :=
  "diff --git a/x.py b/x.py" +:+ String nl "+a" +:+ String nl
  "diff --git x y" +:+ String nl "-b".

Definition ex_hunk_patch : string :=
  "@@ -1,2 +10,3 @@" +:+ String nl " context" +:+ String nl "+added"
  +:+ String nl "-deleted" +:+ String nl "".

(** The disposition policy of the specification, for a finding list and a
    status. *)
Definition disposition_rule (findings : list ReviewIssue.t) (status : string)
  : Prop :=
  (status = "CHANGES_REQUESTED" <->
   exists issue, In issue findings /\
     (ReviewIssue.severity issue = CRITICAL \/
      ReviewIssue.severity issue = HIGH)) /\
  ((~ exists issue, In issue findings /\
       (ReviewIssue.severity issue = CRITICAL \/
        ReviewIssue.severity issue = HIGH)) ->
   findings <> [] -> status = "COMMENTED") /\
  (findings = [] -> status = "APPROVED").

(** The findings of one analyzer entry, [None] holding none. *)
Definition findings_of {A : Type} (field : A -> list ReviewIssue.t)
    (entry : option A) : list ReviewIssue.t :=
  match entry with
  | Some a => field a
  | None => []
  end.

(** The files an analysis is run on, and the entries one analyzer yields
    for them: its result, or [None] where the call raised. *)
Definition live_files (files : list FileChange.t) : list FileChange.t :=
  List.filter (fun f => negb (is_deleted f)) files.

Definition entries {A : Type} (agent : AnalysisContext.t -> call_result A)
    (files : list FileChange.t) : list (option A) :=
  map (fun f => or_none (agent (analysis_context f))) (live_files files).

(** The findings of one file, analyzer by analyzer in the order the
    orchestrator names them, and the two ways of flattening per-file
    results. *)
Definition file_findings (r : FileResults.t) : list ReviewIssue.t :=
  findings_of LogicAnalysisOutput.issues (FileResults.logic r) ++
  findings_of SecurityAnalysisOutput.vulnerabilities (FileResults.security r) ++
  findings_of PerformanceAnalysisOutput.bottlenecks (FileResults.performance r) ++
  findings_of ReadabilityAnalysisOutput.style_issues (FileResults.readability r) ++
  findings_of TestingAnalysisOutput.test_quality_issues (FileResults.testing r).

Definition file_major (results : list FileResults.t) : list ReviewIssue.t :=
  flat_map file_findings results.

Definition analyzer_major (results : list FileResults.t) : list ReviewIssue.t :=
  flat_map (fun r => findings_of LogicAnalysisOutput.issues (FileResults.logic r))
    results ++
  flat_map (fun r => findings_of SecurityAnalysisOutput.vulnerabilities
                       (FileResults.security r)) results ++
  flat_map (fun r => findings_of PerformanceAnalysisOutput.bottlenecks
                       (FileResults.performance r)) results ++
  flat_map (fun r => findings_of ReadabilityAnalysisOutput.style_issues
                       (FileResults.readability r)) results ++
  flat_map (fun r => findings_of TestingAnalysisOutput.test_quality_issues
                       (FileResults.testing r)) results.

(** The invariants of the specification on the lists and the tally of a
    review. *)
Definition blockers_invariant (r : AggregatedReview.t) : Prop :=
  (forall issue,
     In issue (AggregatedReview.critical_blockers r) ->
     In issue (AggregatedReview.all_issues r)) /\
  AggregatedReview.critical_blockers r =
  List.filter is_blocker (AggregatedReview.all_issues r).

(** The sum of the counts of a tally, and the number of findings of a list
    whose category prints as [key]. *)
Definition total_count (summary : gmap string nat) : nat :=
  map_fold (fun _ n acc => n + acc) 0 summary.

Definition category_count (key : string) (l : list ReviewIssue.t) : nat :=
  length
    (List.filter
       (fun issue =>
          String.eqb (category_value (ReviewIssue.category issue)) key) l).

Definition tally_invariant (r : AggregatedReview.t) : Prop :=
  (forall c,
     default 0 (AggregatedReview.summary_by_category r !! category_value c) =
     category_count (category_value c) (AggregatedReview.all_issues r)) /\
  total_count (AggregatedReview.summary_by_category r) =
  length (AggregatedReview.all_issues r).

Module Examples.

Definition issue (sev : Severity) (file : string) : ReviewIssue.t :=
  ReviewIssue.mk LOGIC sev None file "x = y / 0" "division by zero"
    "guard the divisor" "the call raises at run time".

Definition file (name : string) : FileChange.t :=
  FileChange.mk name 1 0 "+x = y / 0" "modified".

(** Analyzers that answer with their empty result. *)
Definition quiet_logic (c : AnalysisContext.t) :=
  Returned LogicAnalysisAgent.default.
Definition quiet_security (c : AnalysisContext.t) :=
  Returned SecurityAnalysisAgent.default.
Definition quiet_performance (c : AnalysisContext.t) :=
  Returned PerformanceAnalysisAgent.default.
Definition quiet_readability (c : AnalysisContext.t) :=
  Returned ReadabilityAnalysisAgent.default.
Definition quiet_testing (c : AnalysisContext.t) :=
  Returned TestingAnalysisAgent.default.

(** A logic analyzer that reports one finding per file: critical for
    [last.py], informational for any other file. *)
Definition one_logic_issue (c : AnalysisContext.t)
  : call_result LogicAnalysisOutput.t :=
  Returned
    (LogicAnalysisOutput.mk
       [issue (if String.eqb (AnalysisContext.filename c) "last.py"
               then CRITICAL else INFO)
          (AnalysisContext.filename c)]
       [] []).

(** A security analyzer that reports one medium finding per file. *)
Definition one_security_issue (c : AnalysisContext.t)
  : call_result SecurityAnalysisOutput.t :=
  Returned
    (SecurityAnalysisOutput.mk
       [ReviewIssue.mk SECURITY MEDIUM None (AnalysisContext.filename c)
          "eval(s)" "evaluates input" "parse instead" "code injection"]
       80 []).

Definition failing_security (c : AnalysisContext.t)
  : call_result SecurityAnalysisOutput.t := Raised.

Definition failing_aggregator (c : AggregationContext.t)
  : call_result AggregatedReview.t := Raised.

(** An aggregation answer that passes the field check and approves. *)
Definition approving_aggregator (c : AggregationContext.t)
  : call_result AggregatedReview.t :=
  Returned
    (AggregatedReview.mk "Looks good." "APPROVED"
       (AggregationContext.issues_detail c)
       (AggregationContext.issues_detail c)
       ["Small change"] (AggregationContext.category_summary c)
       ["Merge"]).

(** An aggregation answer that passes the field check and asks for
    changes on a finding of its own. *)
Definition demanding_aggregator (c : AggregationContext.t)
  : call_result AggregatedReview.t :=
  Returned
    (AggregatedReview.mk "Needs work." "CHANGES_REQUESTED"
       [issue HIGH "a.py"] [issue HIGH "a.py"] [] ∅ ["Fix a.py"]).

Definition no_mention (a : Analyses.t) : bool := false.

Definition three_files : list FileChange.t :=
  [file "a.py"; file "b.py"; file "c.py"].

Definition two_files : list FileChange.t := [file "a.py"; file "b.py"].

(** 51 files, the last of them [last.py]. *)
Definition many_files : list FileChange.t :=
  repeat (file "a.py") 50 ++ [file "last.py"].

End Examples.



(** In a run over [Examples.many_files] whose aggregation chain raises, the
    merged list holds 50 informational findings and then a critical one. *)
Definition many_files_review : AggregatedReview.t :=
  ReviewResult.review
    (review_pr Examples.one_logic_issue Examples.quiet_security
       Examples.quiet_performance Examples.quiet_readability
       Examples.quiet_testing Examples.failing_aggregator
       Examples.no_mention Examples.many_files).

(** A line on which the running line counter of [extract_changed_lines]
    advances when it starts no hunk: an addition, or a line that is neither
    a deletion nor a backslash marker. *)
Definition advances (line : string) : bool :=
  is_addition line
  || (negb (is_deletion line) && negb (startswith line "\")).

Definition is_hunk_header (line : string) : bool := startswith line "@@".

(** Whether [b/] occurs in a string. *)
Fixpoint has_b_slash (s : string) : bool :=
  match s with
  | EmptyString => false
  | String c r => (Ascii.eqb c "b" && startswith r "/") || has_b_slash r
  end.

(** The reference reading of a patch that [group_changes_by_function] is
    compared with: a group is a line on which the pattern matches with the
    change lines from that line up to the next such line. *)
Section GroupsOf.

Variable search_name : string -> string -> option string.
Variable pattern : string.

Definition own_change (l : string) : list string :=
  if is_change l then [l] else [].

Fixpoint group_body (ls : list string) : list string :=
  match ls with
  | [] => []
  | l :: r =>
      match search_name pattern l with
      | Some _ => []
      | None => own_change l ++ group_body r
      end
  end.

Fixpoint groups_of (ls : list string) : list FunctionGroup.t :=
  match ls with
  | [] => []
  | l :: r =>
      match search_name pattern l with
      | Some function_name =>
          FunctionGroup.mk function_name (own_change l ++ group_body r)
          :: groups_of r
      | None => groups_of r
      end
  end.

End GroupsOf.

(** The three dispositions in increasing order of severity. *)
Definition status_rank (status : string) : nat :=
  if String.eqb status "CHANGES_REQUESTED" then 2
  else if String.eqb status "COMMENTED" then 1
  else 0.

(** The seven strings a category prints as. *)
Definition category_values : list string :=
  map category_value
    [LOGIC; SECURITY; PERFORMANCE; READABILITY; BEST_PRACTICES; TESTING;
     DOCUMENTATION].

(** The repository's analyzers as the orchestrator calls them: [analyze]
    returns, whatever its chain does. *)
Definition own_logic chain (c : AnalysisContext.t) :=
  Returned (LogicAnalysisAgent.analyze chain c).
Definition own_security chain (c : AnalysisContext.t) :=
  Returned (SecurityAnalysisAgent.analyze chain c).
Definition own_performance chain (c : AnalysisContext.t) :=
  Returned (PerformanceAnalysisAgent.analyze chain c).
Definition own_readability chain (c : AnalysisContext.t) :=
  Returned (ReadabilityAnalysisAgent.analyze chain c).
Definition own_testing chain (c : AnalysisContext.t) :=
  Returned (TestingAnalysisAgent.analyze chain c).

(** A line that [extract_changed_lines] records. *)
Definition is_changed (l : string) : bool := is_addition l || is_deletion l.

(** A record as [extract_changed_lines] builds it from its raw line. *)
Definition well_formed_record (r : ChangedLine.t) : Prop :=
  ChangedLine.content r = tail (ChangedLine.raw r) /\
  ((ChangedLine.type r = "addition" /\ is_addition (ChangedLine.raw r) = true) \/
   (ChangedLine.type r = "deletion" /\ is_deletion (ChangedLine.raw r) = true)).

(** An issue that passes the check made on the answer of the aggregation
    chain. *)
Definition has_required_fields (issue : ReviewIssue.t) : Prop :=
  ReviewIssue.filename issue <> EmptyString /\
  ReviewIssue.code_snippet issue <> EmptyString /\
  ReviewIssue.issue_description issue <> EmptyString.

(** The texts whose numbers are read and converted without failure, and as
    the embedding reads them.  The class [\d] and [int()] of the code accept
    every Unicode decimal digit, where the embedding reads the ASCII
    digits, and [int()] raises on more than 4300 digits: a text is plain
    when its characters are ASCII and none of its runs of digits is longer
    than that limit. *)
Definition is_ascii (c : ascii) : bool :=
  match c with
  | Ascii _ _ _ _ _ _ _ b7 => negb b7
  end.

Fixpoint all_ascii (s : string) : bool :=
  match s with
  | EmptyString => true
  | String c r => is_ascii c && all_ascii r
  end.

Fixpoint longest_digit_run (s : string) : nat :=
  match s with
  | EmptyString => 0
  | String c r =>
      Nat.max (String.length (digits_prefix (String c r))) (longest_digit_run r)
  end.

Definition plain_digits (s : string) : bool :=
  all_ascii s && Nat.leb (longest_digit_run s) Raising.max_str_digits.

(** The patches with plain hunk headers: the digits of a patch are read,
    and converted, on its lines that start with [@@] only. *)
Definition plain_hunk_headers (patch : string) : bool :=
  forallb (fun line => negb (startswith line "@@") || plain_digits line)
    (split nl patch).








(** The reading of a file header by tokens: whether one of the words of the
    line, separated by spaces, is [b/] followed by a path. *)
Definition has_b_path_token (line : string) : bool :=
  existsb (fun word => startswith word "b/" && negb (String.eqb word "b/"))
    (split " " line).


(** * Facts about the text primitives *)

Section TextFacts.

Lemma append_cons c a b : String c a +:+ b = String c (a +:+ b).
Proof. reflexivity. Qed.

Lemma append_nil_l a : EmptyString +:+ a = a.
Proof. reflexivity. Qed.

Lemma append_assoc a b c : (a +:+ b) +:+ c = a +:+ (b +:+ c).
Proof.
  induction a as [|x a IH]; [reflexivity|].
  rewrite !append_cons, IH. reflexivity.
Qed.

Lemma length_append a b :
  String.length (a +:+ b) = String.length a + String.length b.
Proof.
  induction a as [|c a IH]; [reflexivity|].
  rewrite append_cons. simpl. rewrite IH. reflexivity.
Qed.

Lemma split_nonempty sep s : split sep s <> [].
Proof.
  destruct s as [|c r]; simpl; [discriminate|].
  destruct (Ascii.eqb c sep); [discriminate|].
  destruct (split sep r); discriminate.
Qed.

(** Splitting distributes over a separator that is written out. *)
Lemma split_append sep a b :
  split sep (a +:+ String sep b) = split sep a ++ split sep b.
Proof.
  induction a as [|c a IH].
  - rewrite append_nil_l. simpl. rewrite Ascii.eqb_refl. reflexivity.
  - rewrite append_cons. simpl. rewrite IH.
    destruct (Ascii.eqb c sep); [reflexivity|].
    pose proof (split_nonempty sep a) as Hne.
    destruct (split sep a); [contradiction|reflexivity].
Qed.

(** No line that [split] returns holds the separator. *)
Lemma split_no_sep sep s :
  Forall (fun l => contains sep l = false) (split sep s).
Proof.
  induction s as [|c r IH]; simpl.
  - constructor; [reflexivity|constructor].
  - destruct (Ascii.eqb c sep) eqn:E.
    + constructor; [reflexivity|assumption].
    + destruct (split sep r) as [|l ls].
      * constructor; [simpl; rewrite E; reflexivity|constructor].
      * inversion IH; subst.
        constructor; [|assumption]. simpl. rewrite E. assumption.
Qed.

Lemma strip_prefix_append p s : strip_prefix p (p +:+ s) = Some s.
Proof.
  induction p as [|a p IH]; [reflexivity|].
  rewrite append_cons. simpl. rewrite Ascii.eqb_refl. exact IH.
Qed.

Lemma strip_prefix_spec p : forall s r,
  strip_prefix p s = Some r -> s = p +:+ r.
Proof.
  induction p as [|a p IH]; intros s r H.
  - simpl in H. injection H as ->. reflexivity.
  - destruct s as [|b s]; [discriminate|]. simpl in H.
    destruct (Ascii.eqb_spec b a) as [->|]; [|discriminate].
    rewrite append_cons, (IH s r H). reflexivity.
Qed.

Lemma split_cons_line sep c s l ls :
  Ascii.eqb c sep = false ->
  split sep s = l :: ls ->
  split sep (String c s) = String c l :: ls.
Proof. intros Hc Hs. simpl. rewrite Hc, Hs. reflexivity. Qed.

Lemma split_line sep l :
  contains sep l = false -> split sep l = [l].
Proof.
  induction l as [|c l IH]; intros H; [reflexivity|].
  simpl in H. apply orb_false_elim in H as [Hc H].
  apply (split_cons_line sep c l l []); [assumption|apply IH, H].
Qed.

Lemma startswith_append s p t :
  startswith s p = true -> startswith (s +:+ t) p = true.
Proof.
  revert s. induction p as [|a p IH]; intros s H; [reflexivity|].
  destruct s as [|b s]; [discriminate|].
  rewrite append_cons. simpl in *.
  apply andb_prop in H as [-> H]. simpl. apply IH, H.
Qed.


Lemma digits_prefix_append ds rest :
  all_digits ds = true ->
  starts_with_digit rest = false ->
  digits_prefix (ds +:+ rest) = ds.
Proof.
  intros Hd Hr. induction ds as [|c ds IH].
  - rewrite append_nil_l. destruct rest as [|x rest]; [reflexivity|].
    simpl in *. rewrite Hr. reflexivity.
  - simpl in Hd. apply andb_prop in Hd as [Hc Hd].
    rewrite append_cons. simpl. rewrite Hc, (IH Hd). reflexivity.
Qed.

(** [int] reads positional decimal notation. *)
Lemma int_go_snoc ds : forall acc c d,
  all_digits ds = true ->
  Ascii.is_nat c = Some d ->
  int_go acc (ds +:+ String c EmptyString) = 10 * int_go acc ds + d.
Proof.
  induction ds as [|x ds IH]; intros acc c d Hd Hc.
  - rewrite append_nil_l. simpl. rewrite Hc. reflexivity.
  - simpl in Hd. apply andb_prop in Hd as [Hx Hd].
    rewrite append_cons. simpl. unfold is_digit in Hx.
    destruct (Ascii.is_nat x); [|discriminate].
    apply IH; assumption.
Qed.

Lemma int_snoc ds c d :
  all_digits ds = true ->
  Ascii.is_nat c = Some d ->
  int (ds +:+ String c EmptyString) = 10 * int ds + d.
Proof. apply int_go_snoc. Qed.

End TextFacts.

(** * Properties of the diff parser *)

Section ParseFacts.

Lemma addition_not_status l : is_addition l = true -> is_status_line l = false.
Proof.
  destruct l as [|c r]; [discriminate|].
  unfold is_addition, is_status_line, is_new_file, is_deleted_file, startswith.
  simpl. destruct (Ascii.eqb_spec c "+") as [->|]; [reflexivity|discriminate].
Qed.

Lemma deletion_not_status l : is_deletion l = true -> is_status_line l = false.
Proof.
  destruct l as [|c r]; [discriminate|].
  unfold is_deletion, is_status_line, is_new_file, is_deleted_file, startswith.
  simpl. destruct (Ascii.eqb_spec c "-") as [->|]; [reflexivity|discriminate].
Qed.

Lemma addition_not_deletion l : is_addition l = true -> is_deletion l = false.
Proof.
  destruct l as [|c r]; [discriminate|].
  unfold is_addition, is_deletion, startswith.
  simpl. destruct (Ascii.eqb_spec c "+") as [->|]; [reflexivity|discriminate].
Qed.

Lemma parse_step_body st l :
  is_file_header l = false ->
  parse_step st l =
  mk_parse_state (files st) (option_map (file_step l) (current_file st))
    (current_patch st ++ section_patch_lines [l]).
Proof.
  intros Hh. unfold parse_step, file_step, section_patch_lines, is_status_line.
  rewrite Hh. simpl.
  destruct (is_new_file l) eqn:Hn; simpl.
  { rewrite app_nil_r. reflexivity. }
  destruct (is_deleted_file l) eqn:Hd; simpl.
  { rewrite app_nil_r. reflexivity. }
  destruct (is_addition l); [reflexivity|].
  destruct (is_deletion l); [reflexivity|].
  destruct st as [fs [f|] cp]; reflexivity.
Qed.

Lemma section_patch_lines_cons l body :
  section_patch_lines (l :: body) = section_patch_lines [l] ++ section_patch_lines body.
Proof.
  unfold section_patch_lines. simpl.
  destruct (negb (is_status_line l)); reflexivity.
Qed.

Lemma flush_fold ls : forall st,
  flush (fold_left parse_step ls st) =
  files st ++
  match current_file st with
  | Some f => [finish f (current_patch st) (section_body ls)]
  | None => []
  end ++ map (fun sec => finish (new_file (fst sec)) [] (snd sec)) (sections ls).
Proof.
  induction ls as [|l ls IH]; intros st; simpl.
  - unfold flush, finish, absorb, section_patch_lines. simpl.
    destruct (current_file st); rewrite !app_nil_r; reflexivity.
  - destruct (is_file_header l) eqn:Hh.
    + rewrite IH. unfold parse_step. rewrite Hh. simpl.
      unfold flush, finish, absorb, section_patch_lines at 1. simpl.
      destruct (current_file st); rewrite ?app_nil_r, <- ?app_assoc; reflexivity.
    + rewrite IH, parse_step_body by assumption. simpl.
      destruct (current_file st) as [f|]; simpl; [|reflexivity].
      unfold finish. rewrite (section_patch_lines_cons l (section_body ls)).
      rewrite <- app_assoc. reflexivity.
Qed.

Lemma absorb_filename body : forall f,
  FileChange.filename (absorb f body) = FileChange.filename f.
Proof.
  induction body as [|l body IH]; intros f; [reflexivity|].
  unfold absorb in *. simpl. rewrite IH. unfold file_step.
  repeat match goal with |- context [if ?b then _ else _] => destruct b end;
    reflexivity.
Qed.

Lemma absorb_additions body : forall f,
  FileChange.additions (absorb f body) =
  FileChange.additions f + length (List.filter is_addition body).
Proof.
  induction body as [|l body IH]; intros f; [simpl; lia|].
  unfold absorb in *. simpl. rewrite IH. unfold file_step.
  destruct (is_addition l) eqn:Ha.
  - apply addition_not_status in Ha. unfold is_status_line in Ha.
    apply orb_false_elim in Ha as [-> ->]. simpl. lia.
  - repeat match goal with |- context [if ?b then _ else _] => destruct b end;
      simpl; lia.
Qed.

Lemma absorb_deletions body : forall f,
  FileChange.deletions (absorb f body) =
  FileChange.deletions f + length (List.filter is_deletion body).
Proof.
  induction body as [|l body IH]; intros f; [simpl; lia|].
  unfold absorb in *. simpl. rewrite IH. unfold file_step.
  destruct (is_deletion l) eqn:Hd.
  - pose proof (deletion_not_status _ Hd) as Hs. unfold is_status_line in Hs.
    apply orb_false_elim in Hs as [-> ->].
    destruct (is_addition l) eqn:Ha.
    + apply addition_not_deletion in Ha. congruence.
    + simpl. lia.
  - repeat match goal with |- context [if ?b then _ else _] => destruct b end;
      simpl; lia.
Qed.

Lemma find_snoc {A} (p : A -> bool) xs x :
  List.find p (xs ++ [x]) =
  match List.find p xs with
  | Some y => Some y
  | None => if p x then Some x else None
  end.
Proof.
  induction xs as [|y xs IH]; simpl; [reflexivity|].
  destruct (p y); [reflexivity|assumption].
Qed.

Lemma absorb_status body : forall f,
  FileChange.status (absorb f body) =
  match List.find is_status_line (rev body) with
  | Some l => if is_new_file l then "added" else "deleted"
  | None => FileChange.status f
  end.
Proof.
  induction body as [|l body IH]; intros f; [reflexivity|].
  unfold absorb in *. simpl. rewrite IH, find_snoc.
  destruct (List.find is_status_line (rev body)); [reflexivity|].
  unfold file_step, is_status_line.
  destruct (is_new_file l) eqn:Hn; simpl; [rewrite Hn; reflexivity|].
  destruct (is_deleted_file l); simpl; [rewrite Hn; reflexivity|].
  repeat match goal with |- context [if ?b then _ else _] => destruct b end;
    reflexivity.
Qed.

Lemma file_eq (f g : FileChange.t) :
  FileChange.filename f = FileChange.filename g ->
  FileChange.additions f = FileChange.additions g ->
  FileChange.deletions f = FileChange.deletions g ->
  FileChange.patch f = FileChange.patch g ->
  FileChange.status f = FileChange.status g ->
  f = g.
Proof. destruct f, g; simpl; intros; subst; reflexivity. Qed.

Lemma finish_new_file h body :
  finish (new_file h) [] body = section_file (h, body).
Proof.
  apply file_eq; unfold finish, section_file, set_patch; simpl.
  - apply absorb_filename.
  - apply absorb_additions.
  - apply absorb_deletions.
  - reflexivity.
  - rewrite absorb_status. reflexivity.
Qed.

(** [parse_diff] returns one record per file section of the text, in the
    order of the sections. *)
Lemma parse_lines_sections ls :
  parse_lines ls = map section_file (sections ls).
Proof.
  unfold parse_lines. rewrite flush_fold. simpl.
  apply map_ext. intros [h body]. apply finish_new_file.
Qed.

Lemma parse_diff_sections text :
  parse_diff text = map section_file (sections (split nl text)).
Proof. apply parse_lines_sections. Qed.

Lemma sections_headers ls :
  map fst (sections ls) = List.filter is_file_header ls.
Proof.
  induction ls as [|l ls IH]; simpl; [reflexivity|].
  destruct (is_file_header l); simpl; congruence.
Qed.

Lemma sections_preamble pre ls :
  forallb (fun l => negb (is_file_header l)) pre = true ->
  sections (pre ++ ls) = sections ls.
Proof.
  induction pre as [|l pre IH]; intros Hp; [reflexivity|].
  simpl in Hp. apply andb_prop in Hp as [Hl Hp].
  simpl. destruct (is_file_header l); [discriminate|]. apply IH, Hp.
Qed.

Lemma sections_no_header ls :
  forallb (fun l => negb (is_file_header l)) ls = true ->
  sections ls = [].
Proof.
  intros H. rewrite <- (app_nil_r ls). rewrite sections_preamble; auto.
Qed.

Lemma search_b_path_unfold c d e r :
  search_b_path (String c (String d (String e r))) =
  if Ascii.eqb c "b" && Ascii.eqb d "/" then Some (String e r)
  else search_b_path (String d (String e r)).
Proof. reflexivity. Qed.

(** [search_b_path] fails exactly on the lines that hold no [b/] followed by
    a character. *)
Lemma search_b_path_none line :
  search_b_path line = None <->
  (forall p c r, line <> p +:+ "b/" +:+ String c r).
Proof.
  split.
  - intros Hs p. revert line Hs.
    induction p as [|x p IH]; intros line Hs c r ->.
    + discriminate Hs.
    + rewrite append_cons in Hs.
      destruct (p +:+ "b/" +:+ String c r) as [|d [|e r']] eqn:E.
      * destruct p; discriminate E.
      * destruct p as [|y [|z p]]; discriminate E.
      * rewrite search_b_path_unfold in Hs.
        destruct (Ascii.eqb x "b" && Ascii.eqb d "/"); [discriminate|].
        apply (IH _ Hs c r). symmetry. exact E.
  - induction line as [|x line IH]; intros H; [reflexivity|].
    destruct line as [|d [|e r']]; [reflexivity..|].
    rewrite search_b_path_unfold.
    destruct (Ascii.eqb_spec x "b") as [->|]; simpl andb.
    + destruct (Ascii.eqb_spec d "/") as [->|].
      * exfalso. apply (H EmptyString e r'). reflexivity.
      * apply IH. intros p c r Hp. apply (H (String "b" p) c r).
        rewrite Hp. reflexivity.
    + apply IH. intros p c r Hp. apply (H (String x p) c r).
      rewrite Hp. reflexivity.
Qed.

End ParseFacts.

(** ** The claims about [parse_diff] and [extract_changed_lines] *)

(** C8, as stated, fails: the patch of the only record of
    [ex_new_file_diff] is not the text of its section below the header,
    because the [new file] line is left out of it. *)
Lemma parse_patch_verbatim_fails :
  parse_diff ex_new_file_diff = [FileChange.mk "x.py" 1 0 "+a" "added"] /\
  map (fun sec => join newline (snd sec)) (sections (split nl ex_new_file_diff))
    = ["new file mode 100644" +:+ String nl "+a"] /\
  map FileChange.patch (parse_diff ex_new_file_diff) <>
  map (fun sec => join newline (snd sec)) (sections (split nl ex_new_file_diff)).
Proof.
  split; [reflexivity|]. split; [reflexivity|].
  vm_compute. discriminate.
Qed.

(** C8, amended: the patch of every record that [parse_diff] returns is the
    text of the corresponding file section of the input without its
    [diff --git] line and without its lines that start with [new file] or
    [deleted file], the remaining lines verbatim, in order, joined by
    newlines. *)
Theorem parse_patch_is_section_without_status_lines : forall text,
  map FileChange.patch (parse_diff text) =
  map (fun sec =>
         join newline
           (List.filter (fun l => negb (is_new_file l || is_deleted_file l))
              (snd sec)))
      (sections (split nl text)).
Proof.
  intros text. rewrite parse_diff_sections, map_map. reflexivity.
Qed.

(** C9: the lines before the first [diff --git] line are discarded.  A text
    none of whose lines is a file header yields no record, and a text that
    begins with such lines is parsed to the same records, patches and
    counts included, as the text that follows them. *)
Theorem parse_preamble_discarded :
  (forall text,
     forallb (fun l => negb (is_file_header l)) (split nl text) = true ->
     parse_diff text = []) /\
  (forall pre rest,
     forallb (fun l => negb (is_file_header l)) (split nl pre) = true ->
     parse_diff (pre +:+ String nl rest) = parse_diff rest).
Proof.
  split.
  - intros text H. rewrite parse_diff_sections, sections_no_header; auto.
  - intros pre rest Hp.
    rewrite !parse_diff_sections, split_append, sections_preamble; auto.
Qed.

Lemma parse_preamble_discarded_witness :
  (forallb (fun l => negb (is_file_header l))
     (split nl ("junk" +:+ String nl "+x")) = true /\
   parse_diff ("junk" +:+ String nl "+x") = []) /\
  (forallb (fun l => negb (is_file_header l))
     (split nl ("junk" +:+ String nl "+x")) = true /\
   parse_diff (("junk" +:+ String nl "+x") +:+
               String nl ("diff --git a/f b/f" +:+ String nl "+y")) =
   [FileChange.mk "f" 1 0 "+y" "modified"]).
Proof.
  split.
  - split; [reflexivity|].
    apply (proj1 parse_preamble_discarded). reflexivity.
  - split; [reflexivity|].
    rewrite (proj2 parse_preamble_discarded); reflexivity.
Defined.

(** C10, as stated, fails: the header [diff --git a/lib/x.py] has no token
    of the form [b/<path>], yet its record is not named ["unknown"]: the
    [b/] that ends [lib/] is followed by [x.py], and that is its filename. *)
Lemma header_named_from_inside_a_path :
  let header := "diff --git a/lib/x.py" in
  is_file_header header = true /\
  has_b_path_token header = false /\
  parse_diff header = [FileChange.mk "x.py" 0 0 EmptyString "modified"] /\
  (forall fc, In fc (parse_diff header) -> FileChange.filename fc <> "unknown").
Proof.
  split; [reflexivity|]. split; [reflexivity|]. split; [reflexivity|].
  intros fc [<-|[]]. discriminate.
Qed.

(** C10, amended: a [diff --git] line in which no [b/] is followed by a
    further character, anywhere in the line and not only at the start of a
    token, still opens a record: the record of the [k]-th file header of
    the text is the [k]-th record of the result, and its filename is
    ["unknown"]. *)
Theorem parse_header_without_path_unknown : forall text k h,
  nth_error (List.filter is_file_header (split nl text)) k = Some h ->
  (forall p c r, h <> p +:+ "b/" +:+ String c r) ->
  exists fc,
    nth_error (parse_diff text) k = Some fc /\
    FileChange.filename fc = "unknown".
Proof.
  intros text k h Hk Hh.
  rewrite parse_diff_sections.
  rewrite <- sections_headers in Hk.
  rewrite nth_error_map in Hk.
  destruct (nth_error (sections (split nl text)) k) as [sec|] eqn:Hs;
    [|discriminate].
  simpl in Hk. injection Hk as <-.
  exists (section_file sec). split.
  - rewrite nth_error_map, Hs. reflexivity.
  - unfold section_file, header_filename. simpl.
    apply search_b_path_none in Hh. rewrite Hh. reflexivity.
Qed.

Lemma parse_header_without_path_unknown_witness :
  nth_error (List.filter is_file_header (split nl ex_two_headers)) 1
    = Some "diff --git x y" /\
  (forall p c r, "diff --git x y" <> p +:+ "b/" +:+ String c r) /\
  exists fc,
    nth_error (parse_diff ex_two_headers) 1 = Some fc /\
    FileChange.filename fc = "unknown".
Proof.
  assert (Hno : forall p c r, "diff --git x y" <> p +:+ "b/" +:+ String c r)
    by (apply search_b_path_none; reflexivity).
  split; [reflexivity|]. split; [exact Hno|].
  apply (parse_header_without_path_unknown ex_two_headers 1 "diff --git x y");
    [reflexivity|exact Hno].
Defined.

Section ScanFacts.

Lemma scan_lines_snoc pre line :
  scan_lines (pre ++ [line]) = scan_step (scan_lines pre) line.
Proof. unfold scan_lines. rewrite fold_left_app. reflexivity. Qed.

Lemma addition_not_hunk line :
  is_addition line = true -> startswith line "@@" = false.
Proof.
  destruct line as [|c r]; [discriminate|].
  unfold is_addition. simpl.
  destruct (Ascii.eqb_spec c "+") as [->|]; [reflexivity|discriminate].
Qed.

Lemma deletion_not_hunk line :
  is_deletion line = true -> startswith line "@@" = false.
Proof.
  destruct line as [|c r]; [discriminate|].
  unfold is_deletion. simpl.
  destruct (Ascii.eqb_spec c "-") as [->|]; [reflexivity|discriminate].
Qed.





Lemma digits_prefix_not_digit s :
  starts_with_digit s = false -> digits_prefix s = EmptyString.
Proof. destruct s as [|c s]; [reflexivity|]. simpl. intros ->. reflexivity. Qed.


Lemma digits_prefix_empty s :
  digits_prefix s = EmptyString -> starts_with_digit s = false.
Proof.
  destruct s as [|c s]; [reflexivity|]. simpl.
  destruct (is_digit c); [discriminate|reflexivity].
Qed.

(** The search finds the first [+] that is followed by a digit. *)
Lemma search_plus_digits_first p : forall ds rest,
  search_plus_digits p = None ->
  all_digits ds = true ->
  ds <> EmptyString ->
  starts_with_digit rest = false ->
  search_plus_digits (p +:+ "+" +:+ ds +:+ rest) = Some ds.
Proof.
  induction p as [|x p IH]; intros ds rest Hp Hd Hne Hr.
  - rewrite append_nil_l, append_cons, append_nil_l. simpl.
    rewrite (digits_prefix_append ds rest Hd Hr).
    destruct ds; [contradiction|reflexivity].
  - simpl in Hp. rewrite append_cons. simpl.
    destruct (Ascii.eqb x "+"); simpl in *; [|apply IH; assumption].
    destruct (String.eqb_spec (digits_prefix p) EmptyString) as [E|E];
      simpl in Hp; [|discriminate].
    assert (E' : digits_prefix (p +:+ "+" +:+ ds +:+ rest) = EmptyString).
    { apply digits_prefix_not_digit. apply digits_prefix_empty in E.
      destruct p as [|y p]; [rewrite append_nil_l; reflexivity|].
      rewrite append_cons. exact E. }
    rewrite E'. simpl. apply IH; assumption.
Qed.








Lemma digits_prefix_run s :
  String.length (digits_prefix s) <= longest_digit_run s.
Proof. destruct s as [|c r]; [reflexivity|]. apply Nat.le_max_l. Qed.

Lemma longest_digit_run_tail c r :
  longest_digit_run r <= longest_digit_run (String c r).
Proof. apply Nat.le_max_r. Qed.

(** The digits the search returns are a run of digits of the line. *)
Lemma search_plus_digits_run line : forall ds,
  search_plus_digits line = Some ds ->
  String.length ds <= longest_digit_run line.
Proof.
  induction line as [|x line IH]; intros ds H; [discriminate|].
  etransitivity; [|apply longest_digit_run_tail].
  simpl in H. destruct (_ && _).
  - injection H as <-. apply digits_prefix_run.
  - apply IH, H.
Qed.

(** In a patch with plain hunk headers the numbers that the pass converts
    are within the limit of [int()]. *)
Lemma plain_hunk_headers_convert patch line ds :
  plain_hunk_headers patch = true ->
  In line (split nl patch) ->
  startswith line "@@" = true ->
  search_plus_digits line = Some ds ->
  String.length ds <= Raising.max_str_digits.
Proof.
  unfold plain_hunk_headers. intros Hp Hin Hh Hs.
  rewrite forallb_forall in Hp. specialize (Hp line Hin).
  rewrite Hh in Hp. simpl in Hp. unfold plain_digits in Hp.
  apply andb_prop in Hp as [_ Hp]. apply Nat.leb_le in Hp.
  etransitivity; [apply (search_plus_digits_run line ds Hs) | exact Hp].
Qed.

Lemma raising_scan_step_returns st line :
  (forall ds, startswith line "@@" = true ->
     search_plus_digits line = Some ds ->
     String.length ds <= Raising.max_str_digits) ->
  Raising.scan_step st line = Returned (scan_step st line).
Proof.
  intros H. unfold Raising.scan_step, scan_step.
  destruct (startswith line "@@").
  - destruct (search_plus_digits line) as [ds|]; [|reflexivity].
    unfold Raising.int. specialize (H ds eq_refl eq_refl).
    apply Nat.leb_le in H. rewrite H. reflexivity.
  - destruct (is_addition line); [reflexivity|].
    destruct (is_deletion line); [reflexivity|].
    destruct (negb (startswith line "\")); reflexivity.
Qed.

(** What the raising step returns is what the total step gives. *)
Lemma raising_scan_step_agrees st line st' :
  Raising.scan_step st line = Returned st' -> st' = scan_step st line.
Proof.
  unfold Raising.scan_step, scan_step.
  destruct (startswith line "@@").
  - destruct (search_plus_digits line) as [ds|].
    + unfold Raising.int. destruct (Nat.leb _ _); simpl; [|discriminate].
      intros H. injection H as <-. reflexivity.
    + intros H. injection H as <-. reflexivity.
  - destruct (is_addition line); [intros H; injection H as <-; reflexivity|].
    destruct (is_deletion line); [intros H; injection H as <-; reflexivity|].
    destruct (negb (startswith line "\")); intros H; injection H as <-;
      reflexivity.
Qed.

Lemma raising_fold_raised lines :
  fold_left (fun acc line => Raising.bind acc (fun st => Raising.scan_step st line))
    lines Raised = Raised.
Proof. induction lines as [|l lines IH]; [reflexivity | exact IH]. Qed.

Lemma raising_fold_returns lines : forall st,
  (forall line ds, In line lines -> startswith line "@@" = true ->
     search_plus_digits line = Some ds ->
     String.length ds <= Raising.max_str_digits) ->
  fold_left (fun acc line => Raising.bind acc (fun st => Raising.scan_step st line))
    lines (Returned st) =
  Returned (fold_left scan_step lines st).
Proof.
  induction lines as [|l lines IH]; intros st H; [reflexivity|].
  simpl. rewrite raising_scan_step_returns.
  - apply IH. intros line ds Hin. apply H. right. exact Hin.
  - intros ds. apply H. left. reflexivity.
Qed.

Lemma raising_fold_agrees lines : forall st st',
  fold_left (fun acc line => Raising.bind acc (fun st => Raising.scan_step st line))
    lines (Returned st) = Returned st' ->
  st' = fold_left scan_step lines st.
Proof.
  induction lines as [|l lines IH]; intros st st' H.
  - injection H as <-. reflexivity.
  - simpl in H. destruct (Raising.scan_step st l) as [st1|] eqn:E.
    + apply raising_scan_step_agrees in E. subst st1. apply IH, H.
    + simpl in H. rewrite raising_fold_raised in H. discriminate H.
Qed.

(** On a patch with plain hunk headers [extract_changed_lines] returns. *)
Lemma raising_extract_returns patch :
  plain_hunk_headers patch = true ->
  Raising.extract_changed_lines patch = Returned (extract_changed_lines patch).
Proof.
  intros Hp. unfold Raising.extract_changed_lines, Raising.scan_lines.
  rewrite raising_fold_returns; [reflexivity|].
  intros line ds Hin Hh Hs.
  exact (plain_hunk_headers_convert patch line ds Hp Hin Hh Hs).
Qed.

(** Whatever [extract_changed_lines] returns is what the total function
    gives. *)
Lemma raising_extract_agrees patch records :
  Raising.extract_changed_lines patch = Returned records ->
  records = extract_changed_lines patch.
Proof.
  unfold Raising.extract_changed_lines, Raising.scan_lines.
  destruct (fold_left _ _ _) as [st|] eqn:E; [|discriminate].
  apply raising_fold_agrees in E. intros H. injection H as <-.
  rewrite E. reflexivity.
Qed.


End ScanFacts.




(** * Properties of the orchestrator *)

Section OrchestratorFacts.

Lemma is_blocker_spec issue :
  is_blocker issue = true <->
  ReviewIssue.severity issue = CRITICAL \/ ReviewIssue.severity issue = HIGH.
Proof.
  unfold is_blocker. destruct (ReviewIssue.severity issue); simpl;
    split; intros H; try reflexivity; try discriminate; auto;
    destruct H; discriminate.
Qed.

Lemma critical_blockers_nil_iff all_issues :
  critical_blockers all_issues = [] <->
  ~ exists issue, In issue all_issues /\
      (ReviewIssue.severity issue = CRITICAL \/
       ReviewIssue.severity issue = HIGH).
Proof.
  unfold critical_blockers. split.
  - intros Hnil (issue & Hin & Hsev).
    assert (Hf : In issue (List.filter is_blocker all_issues)).
    { apply filter_In. split; [assumption|]. apply is_blocker_spec, Hsev. }
    rewrite Hnil in Hf. destruct Hf.
  - intros Hno.
    destruct (List.filter is_blocker all_issues) as [|issue l] eqn:E;
      [reflexivity|].
    exfalso. apply Hno. exists issue.
    assert (Hf : In issue (List.filter is_blocker all_issues))
      by (rewrite E; left; reflexivity).
    apply filter_In in Hf as [Hin Hb]. split; [assumption|].
    apply is_blocker_spec, Hb.
Qed.

Lemma critical_implies_blockers all_issues :
  existsb (fun issue => Severity_eqb (ReviewIssue.severity issue) CRITICAL)
    all_issues = true ->
  critical_blockers all_issues <> [].
Proof.
  intros H Hnil. apply existsb_exists in H as (issue & Hin & Hc).
  apply critical_blockers_nil_iff in Hnil. apply Hnil.
  exists issue. split; [assumption|].
  destruct (ReviewIssue.severity issue); try discriminate. left. reflexivity.
Qed.

Lemma blockers_exist all_issues :
  critical_blockers all_issues <> [] ->
  exists issue, In issue all_issues /\
    (ReviewIssue.severity issue = CRITICAL \/
     ReviewIssue.severity issue = HIGH).
Proof.
  unfold critical_blockers. intros Hne.
  destruct (List.filter is_blocker all_issues) as [|issue l] eqn:E;
    [contradiction|].
  assert (Hf : In issue (List.filter is_blocker all_issues))
    by (rewrite E; left; reflexivity).
  apply filter_In in Hf as [Hin Hb]. exists issue. split; [assumption|].
  apply is_blocker_spec, Hb.
Qed.

(** The status the orchestrator computes follows the policy. *)
Lemma approval_status_rule all_issues :
  disposition_rule all_issues (approval_status all_issues).
Proof.
  unfold disposition_rule, approval_status.
  destruct (existsb _ all_issues) eqn:Hc.
  { apply critical_implies_blockers, blockers_exist in Hc.
    split; [split; [intros _; exact Hc | reflexivity]|].
    split; [intros Hn; contradiction|].
    intros ->. destruct Hc as (i & [] & _). }
  destruct (critical_blockers all_issues) as [|b bs] eqn:Hb; simpl.
  - apply critical_blockers_nil_iff in Hb.
    destruct all_issues as [|i l]; simpl nonempty; cbv iota.
    + split; [split; [discriminate | intros (i & [] & _)]|].
      split; [intros _ Hne; contradiction | reflexivity].
    + split; [split; [discriminate | intros HB; contradiction]|].
      split; [reflexivity | discriminate].
  - assert (Hne : critical_blockers all_issues <> [])
      by (rewrite Hb; discriminate).
    apply blockers_exist in Hne.
    split; [split; [intros _; exact Hne | reflexivity]|].
    split; [intros Hn; contradiction|].
    intros ->. destruct Hne as (i & [] & _).
Qed.

Lemma extend_from_flat {A : Type} (field : A -> list ReviewIssue.t) entries :
  forall all_issues,
  extend_from field all_issues entries =
  all_issues ++ flat_map (findings_of field) entries.
Proof.
  unfold extend_from.
  induction entries as [|e entries IH]; intros all_issues; simpl.
  - rewrite app_nil_r. reflexivity.
  - rewrite IH. destruct e; simpl; [rewrite <- app_assoc|]; reflexivity.
Qed.

(** The merged list: analyzer by analyzer, each analyzer's entries in their
    order. *)
Lemma collect_all_issues_flat analyses :
  _collect_all_issues analyses =
  flat_map (findings_of LogicAnalysisOutput.issues) (Analyses.logic analyses) ++
  flat_map (findings_of SecurityAnalysisOutput.vulnerabilities)
    (Analyses.security analyses) ++
  flat_map (findings_of PerformanceAnalysisOutput.bottlenecks)
    (Analyses.performance analyses) ++
  flat_map (findings_of ReadabilityAnalysisOutput.style_issues)
    (Analyses.readability analyses) ++
  flat_map (findings_of TestingAnalysisOutput.test_quality_issues)
    (Analyses.testing analyses).
Proof.
  unfold _collect_all_issues. rewrite !extend_from_flat. simpl.
  rewrite <- !app_assoc. reflexivity.
Qed.

Section WithAgents.

Variable logic_agent : AnalysisContext.t -> call_result LogicAnalysisOutput.t.
Variable security_agent : AnalysisContext.t -> call_result SecurityAnalysisOutput.t.
Variable performance_agent :
  AnalysisContext.t -> call_result PerformanceAnalysisOutput.t.
Variable readability_agent :
  AnalysisContext.t -> call_result ReadabilityAnalysisOutput.t.
Variable testing_agent : AnalysisContext.t -> call_result TestingAnalysisOutput.t.

Lemma analyze_files_fold files : forall acc,
  fold_left
    (fun all_analyses file_change =>
       if is_deleted file_change then all_analyses
       else append_results all_analyses
              (_analyze_file logic_agent security_agent performance_agent
                 readability_agent testing_agent file_change))
    files acc =
  Analyses.mk
    (Analyses.logic acc ++
       entries logic_agent files)
    (Analyses.security acc ++ entries security_agent files)
    (Analyses.performance acc ++ entries performance_agent files)
    (Analyses.readability acc ++ entries readability_agent files)
    (Analyses.testing acc ++ entries testing_agent files).
Proof.
  unfold entries, live_files.
  induction files as [|f files IH]; intros acc; simpl.
  - rewrite !app_nil_r. destruct acc; reflexivity.
  - rewrite IH.
    destruct (is_deleted f); simpl; [reflexivity|].
    rewrite <- !app_assoc. reflexivity.
Qed.

(** Every analyzer's sequence holds one entry per file that is not deleted,
    in file order. *)
Lemma analyze_files_entries files :
  analyze_files logic_agent security_agent performance_agent
    readability_agent testing_agent files =
  Analyses.mk (entries logic_agent files) (entries security_agent files)
    (entries performance_agent files) (entries readability_agent files)
    (entries testing_agent files).
Proof. unfold analyze_files. apply (analyze_files_fold files Analyses.empty). Qed.

End WithAgents.

End OrchestratorFacts.

(** ** The runs that return

    The functions of [Raising] return on patches with plain hunk headers,
    and whatever they return is what the total functions give: what is
    proved of the total functions holds of every run that returns. *)

Section RaisingFacts.

Variable logic_agent : AnalysisContext.t -> call_result LogicAnalysisOutput.t.
Variable security_agent : AnalysisContext.t -> call_result SecurityAnalysisOutput.t.
Variable performance_agent :
  AnalysisContext.t -> call_result PerformanceAnalysisOutput.t.
Variable readability_agent :
  AnalysisContext.t -> call_result ReadabilityAnalysisOutput.t.
Variable testing_agent : AnalysisContext.t -> call_result TestingAnalysisOutput.t.
Variable aggregator_chain : AggregationContext.t -> call_result AggregatedReview.t.
Variable mentions_security : Analyses.t -> bool.

Lemma raising_analysis_context_returns fc :
  plain_hunk_headers (FileChange.patch fc) = true ->
  Raising.analysis_context fc = Returned (analysis_context fc).
Proof.
  intros H. unfold Raising.analysis_context.
  rewrite (raising_extract_returns _ H). reflexivity.
Qed.

Lemma raising_analysis_context_agrees fc context :
  Raising.analysis_context fc = Returned context ->
  context = analysis_context fc.
Proof.
  unfold Raising.analysis_context.
  destruct (Raising.extract_changed_lines (FileChange.patch fc))
    as [records|] eqn:E; [|discriminate].
  apply raising_extract_agrees in E. subst records.
  intros H. injection H as <-. reflexivity.
Qed.

Lemma raising_analyze_file_returns fc :
  plain_hunk_headers (FileChange.patch fc) = true ->
  Raising._analyze_file logic_agent security_agent performance_agent
    readability_agent testing_agent fc =
  Returned (_analyze_file logic_agent security_agent performance_agent
              readability_agent testing_agent fc).
Proof.
  intros H. unfold Raising._analyze_file.
  rewrite (raising_analysis_context_returns fc H). reflexivity.
Qed.

Lemma raising_analyze_file_agrees fc results :
  Raising._analyze_file logic_agent security_agent performance_agent
    readability_agent testing_agent fc = Returned results ->
  results = _analyze_file logic_agent security_agent performance_agent
              readability_agent testing_agent fc.
Proof.
  unfold Raising._analyze_file.
  destruct (Raising.analysis_context fc) as [context|] eqn:E; [|discriminate].
  apply raising_analysis_context_agrees in E. subst context.
  intros H. injection H as <-. reflexivity.
Qed.

Lemma raising_files_fold_raised files :
  fold_left
    (fun acc file_change =>
       Raising.bind acc
         (fun all_analyses =>
            if is_deleted file_change then Returned all_analyses
            else
              Raising.bind
                (Raising._analyze_file logic_agent security_agent
                   performance_agent readability_agent testing_agent
                   file_change)
                (fun file_analyses =>
                   Returned (append_results all_analyses file_analyses))))
    files Raised = Raised.
Proof. induction files as [|f files IH]; [reflexivity | exact IH]. Qed.

Lemma raising_files_fold_returns files : forall acc,
  forallb (fun f => plain_hunk_headers (FileChange.patch f)) (live_files files)
    = true ->
  fold_left
    (fun acc file_change =>
       Raising.bind acc
         (fun all_analyses =>
            if is_deleted file_change then Returned all_analyses
            else
              Raising.bind
                (Raising._analyze_file logic_agent security_agent
                   performance_agent readability_agent testing_agent
                   file_change)
                (fun file_analyses =>
                   Returned (append_results all_analyses file_analyses))))
    files (Returned acc) =
  Returned
    (fold_left
       (fun all_analyses file_change =>
          if is_deleted file_change then all_analyses
          else append_results all_analyses
                 (_analyze_file logic_agent security_agent performance_agent
                    readability_agent testing_agent file_change))
       files acc).
Proof.
  unfold live_files.
  induction files as [|f files IH]; intros acc H; [reflexivity|].
  simpl in H. simpl fold_left. simpl Raising.bind at 2.
  destruct (is_deleted f); simpl in H.
  - apply IH, H.
  - apply andb_prop in H as [Hf H].
    rewrite (raising_analyze_file_returns f Hf). simpl Raising.bind.
    apply IH, H.
Qed.

Lemma raising_files_fold_agrees files : forall acc analyses,
  fold_left
    (fun acc file_change =>
       Raising.bind acc
         (fun all_analyses =>
            if is_deleted file_change then Returned all_analyses
            else
              Raising.bind
                (Raising._analyze_file logic_agent security_agent
                   performance_agent readability_agent testing_agent
                   file_change)
                (fun file_analyses =>
                   Returned (append_results all_analyses file_analyses))))
    files (Returned acc) = Returned analyses ->
  analyses =
  fold_left
    (fun all_analyses file_change =>
       if is_deleted file_change then all_analyses
       else append_results all_analyses
              (_analyze_file logic_agent security_agent performance_agent
                 readability_agent testing_agent file_change))
    files acc.
Proof.
  induction files as [|f files IH]; intros acc analyses H.
  - injection H as <-. reflexivity.
  - simpl fold_left in *. simpl Raising.bind at 2 in H.
    destruct (is_deleted f).
    + apply IH, H.
    + destruct (Raising._analyze_file logic_agent security_agent
                  performance_agent readability_agent testing_agent f)
        as [results|] eqn:E.
      * apply raising_analyze_file_agrees in E. subst results.
        simpl Raising.bind in H. apply IH, H.
      * simpl Raising.bind in H. rewrite raising_files_fold_raised in H.
        discriminate H.
Qed.

(** A review of files with plain hunk headers returns. *)
Lemma raising_review_pr_returns files :
  forallb (fun f => plain_hunk_headers (FileChange.patch f)) (live_files files)
    = true ->
  Raising.review_pr logic_agent security_agent performance_agent
    readability_agent testing_agent aggregator_chain mentions_security files =
  Returned
    (review_pr logic_agent security_agent performance_agent readability_agent
       testing_agent aggregator_chain mentions_security files).
Proof.
  intros H. unfold Raising.review_pr, Raising.analyze_files.
  rewrite (raising_files_fold_returns files Analyses.empty H). reflexivity.
Qed.

(** Whatever a review returns is what the total function gives. *)
Lemma raising_review_pr_agrees files result :
  Raising.review_pr logic_agent security_agent performance_agent
    readability_agent testing_agent aggregator_chain mentions_security files =
  Returned result ->
  result =
  review_pr logic_agent security_agent performance_agent readability_agent
    testing_agent aggregator_chain mentions_security files.
Proof.
  unfold Raising.review_pr, Raising.analyze_files.
  destruct (fold_left _ files (Returned Analyses.empty)) as [analyses|] eqn:E;
    [|discriminate].
  apply raising_files_fold_agrees in E. subst analyses.
  intros H. injection H as <-. reflexivity.
Qed.

End RaisingFacts.

(** ** The claims about the orchestrator *)

(** C1, as stated, fails: in a run whose only finding is critical and
    whose aggregation chain answers with an approving review, the review
    returned is the answer of the chain, and its status is [APPROVED]. *)
Lemma approval_rule_fails_for_accepted_answer :
  let result :=
    review_pr Examples.one_logic_issue Examples.quiet_security
      Examples.quiet_performance Examples.quiet_readability
      Examples.quiet_testing Examples.approving_aggregator
      Examples.no_mention [Examples.file "last.py"] in
  _collect_all_issues (ReviewResult.agent_analyses result) =
    [Examples.issue CRITICAL "last.py"] /\
  AggregatedReview.all_issues (ReviewResult.review result) =
    [Examples.issue CRITICAL "last.py"] /\
  AggregatedReview.approval_status (ReviewResult.review result) = "APPROVED" /\
  ~ disposition_rule
      (_collect_all_issues (ReviewResult.agent_analyses result))
      (AggregatedReview.approval_status (ReviewResult.review result)) /\
  ~ disposition_rule
      (AggregatedReview.all_issues (ReviewResult.review result))
      (AggregatedReview.approval_status (ReviewResult.review result)).
Proof.
  split; [reflexivity|]. split; [reflexivity|]. split; [reflexivity|].
  split; intros [[_ H] _].
  - assert (E : "APPROVED" = "CHANGES_REQUESTED"); [|discriminate E].
    apply H. exists (Examples.issue CRITICAL "last.py").
    split; [left; reflexivity | left; reflexivity].
  - assert (E : "APPROVED" = "CHANGES_REQUESTED"); [|discriminate E].
    apply H. exists (Examples.issue CRITICAL "last.py").
    split; [left; reflexivity | left; reflexivity].
Qed.

(** C1, amended: the status the orchestrator computes from the merged
    finding list follows the rule (CHANGES_REQUESTED iff some finding is
    critical or high, else COMMENTED if there is a finding, else APPROVED);
    that status is what the aggregation chain is asked to use and what the
    review carries whenever the chain raises or its answer is rejected.  An
    answer of the chain that is accepted is returned as it is, with the
    status the chain gave. *)
Theorem approval_status_of_review :
  forall logic_agent security_agent performance_agent readability_agent
         testing_agent aggregator_chain mentions_security files,
  let result :=
    review_pr logic_agent security_agent performance_agent readability_agent
      testing_agent aggregator_chain mentions_security files in
  let findings := _collect_all_issues (ReviewResult.agent_analyses result) in
  let context :=
    aggregation_context findings (ReviewResult.agent_analyses result) in
  disposition_rule findings (approval_status findings) /\
  AggregationContext.approval_status context = approval_status findings /\
  (accepted (aggregator_chain context) = None ->
   AggregatedReview.approval_status (ReviewResult.review result) =
   approval_status findings) /\
  (forall answer,
     accepted (aggregator_chain context) = Some answer ->
     ReviewResult.review result = answer).
Proof.
  intros. split; [apply approval_status_rule|]. split; [reflexivity|].
  subst result findings context. unfold review_pr. simpl.
  unfold _generate_aggregated_review.
  split.
  - intros ->. reflexivity.
  - intros answer ->. reflexivity.
Qed.

Lemma approval_status_of_review_witness :
  let result :=
    review_pr Examples.one_logic_issue Examples.quiet_security
      Examples.quiet_performance Examples.quiet_readability
      Examples.quiet_testing Examples.failing_aggregator
      Examples.no_mention [Examples.file "last.py"] in
  let findings := _collect_all_issues (ReviewResult.agent_analyses result) in
  let context :=
    aggregation_context findings (ReviewResult.agent_analyses result) in
  (accepted (Examples.failing_aggregator context) = None /\
   AggregatedReview.approval_status (ReviewResult.review result) =
   "CHANGES_REQUESTED") /\
  (accepted (Examples.approving_aggregator context) =
     Some (AggregatedReview.mk "Looks good." "APPROVED" findings findings
             ["Small change"] (summary_by_category findings) ["Merge"]) /\
   ReviewResult.review
     (review_pr Examples.one_logic_issue Examples.quiet_security
        Examples.quiet_performance Examples.quiet_readability
        Examples.quiet_testing Examples.approving_aggregator
        Examples.no_mention [Examples.file "last.py"]) =
   AggregatedReview.mk "Looks good." "APPROVED" findings findings
     ["Small change"] (summary_by_category findings) ["Merge"]).
Proof.
  split.
  - split; [reflexivity|].
    rewrite (proj1 (proj2 (proj2
      (approval_status_of_review Examples.one_logic_issue
         Examples.quiet_security Examples.quiet_performance
         Examples.quiet_readability Examples.quiet_testing
         Examples.failing_aggregator Examples.no_mention
         [Examples.file "last.py"])))); reflexivity.
  - split; [reflexivity|].
    apply (proj2 (proj2 (proj2
      (approval_status_of_review Examples.one_logic_issue
         Examples.quiet_security Examples.quiet_performance
         Examples.quiet_readability Examples.quiet_testing
         Examples.approving_aggregator Examples.no_mention
         [Examples.file "last.py"])))). reflexivity.
Defined.

(** C5, as stated, fails: on the empty file list the aggregation chain is
    still called, and when its answer is accepted that answer is the
    review; here it requests changes and lists a finding. *)
Lemma empty_review_not_short_circuited :
  let result :=
    review_pr Examples.quiet_logic Examples.quiet_security
      Examples.quiet_performance Examples.quiet_readability
      Examples.quiet_testing Examples.demanding_aggregator
      Examples.no_mention [] in
  AggregatedReview.approval_status (ReviewResult.review result) =
    "CHANGES_REQUESTED" /\
  AggregatedReview.all_issues (ReviewResult.review result) =
    [Examples.issue HIGH "a.py"] /\
  ~ (AggregatedReview.approval_status (ReviewResult.review result) = "APPROVED"
     /\ AggregatedReview.all_issues (ReviewResult.review result) = []
     /\ ReviewResult.agent_analyses result = Analyses.empty).
Proof.
  split; [reflexivity|]. split; [reflexivity|].
  intros [H _]. discriminate H.
Qed.

(** C5, amended: on the empty file list no analyzer is called and every
    per-analyzer sequence is empty, the merged finding list is empty and the
    computed status is APPROVED.  There is no short circuit: the aggregation
    chain is still asked.  When it raises or its answer is rejected the
    review is the fallback, with status APPROVED, no issue, no blocker and
    an empty tally; when its answer is accepted that answer is the review. *)
Theorem review_of_no_files :
  forall logic_agent security_agent performance_agent readability_agent
         testing_agent aggregator_chain mentions_security,
  let result :=
    review_pr logic_agent security_agent performance_agent readability_agent
      testing_agent aggregator_chain mentions_security [] in
  let context :=
    AggregationContext.mk 0 0 ∅ [] ([], []) "APPROVED" in
  ReviewResult.agent_analyses result = Analyses.empty /\
  _collect_all_issues (ReviewResult.agent_analyses result) = [] /\
  approval_status [] = "APPROVED" /\
  (accepted (aggregator_chain context) = None ->
   ReviewResult.review result =
   AggregatedReview.mk "Review completed with automated analysis." "APPROVED"
     [] []
     (["Code changes submitted"] ++
        (if mentions_security Analyses.empty then ["High security score"]
         else []))
     ∅
     ["Review all flagged issues"; "Address critical blockers first";
      "Improve test coverage"]) /\
  (forall answer,
     accepted (aggregator_chain context) = Some answer ->
     ReviewResult.review result = answer).
Proof.
  intros. split; [reflexivity|]. split; [reflexivity|]. split; [reflexivity|].
  subst result context. unfold review_pr, _generate_aggregated_review.
  change (aggregation_context (_collect_all_issues (analyze_files logic_agent
            security_agent performance_agent readability_agent testing_agent []))
            (analyze_files logic_agent security_agent performance_agent
               readability_agent testing_agent []))
    with (AggregationContext.mk 0 0 ∅ [] ([], []) "APPROVED").
  simpl ReviewResult.review. split.
  - intros ->. reflexivity.
  - intros answer ->. reflexivity.
Qed.

Lemma review_of_no_files_witness :
  (accepted (Examples.failing_aggregator
               (AggregationContext.mk 0 0 ∅ [] ([], []) "APPROVED")) = None /\
   ReviewResult.review
     (review_pr Examples.quiet_logic Examples.quiet_security
        Examples.quiet_performance Examples.quiet_readability
        Examples.quiet_testing Examples.failing_aggregator
        Examples.no_mention []) =
   AggregatedReview.mk "Review completed with automated analysis." "APPROVED"
     [] [] ["Code changes submitted"] ∅
     ["Review all flagged issues"; "Address critical blockers first";
      "Improve test coverage"]) /\
  (accepted (Examples.demanding_aggregator
               (AggregationContext.mk 0 0 ∅ [] ([], []) "APPROVED")) =
     Some (AggregatedReview.mk "Needs work." "CHANGES_REQUESTED"
             [Examples.issue HIGH "a.py"] [Examples.issue HIGH "a.py"] [] ∅
             ["Fix a.py"]) /\
   ReviewResult.review
     (review_pr Examples.quiet_logic Examples.quiet_security
        Examples.quiet_performance Examples.quiet_readability
        Examples.quiet_testing Examples.demanding_aggregator
        Examples.no_mention []) =
   AggregatedReview.mk "Needs work." "CHANGES_REQUESTED"
     [Examples.issue HIGH "a.py"] [Examples.issue HIGH "a.py"] [] ∅
     ["Fix a.py"]).
Proof.
  split.
  - split; [reflexivity|].
    apply (proj1 (proj2 (proj2 (proj2
      (review_of_no_files Examples.quiet_logic Examples.quiet_security
         Examples.quiet_performance Examples.quiet_readability
         Examples.quiet_testing Examples.failing_aggregator
         Examples.no_mention))))). reflexivity.
  - split; [reflexivity|].
    apply (proj2 (proj2 (proj2 (proj2
      (review_of_no_files Examples.quiet_logic Examples.quiet_security
         Examples.quiet_performance Examples.quiet_readability
         Examples.quiet_testing Examples.demanding_aggregator
         Examples.no_mention))))). reflexivity.
Defined.




Section MergeFacts.

Lemma flat_map_map {A B C : Type} (f : A -> B) (g : B -> list C) l :
  flat_map g (map f l) = flat_map (fun x => g (f x)) l.
Proof. induction l as [|x l IH]; simpl; [reflexivity|]. rewrite IH. reflexivity. Qed.

Lemma flat_map_app_perm {A B : Type} (f g : A -> list B) l :
  Permutation (flat_map (fun x => f x ++ g x) l) (flat_map f l ++ flat_map g l).
Proof.
  induction l as [|x l IH]; simpl; [constructor|].
  rewrite IH, <- !app_assoc. apply Permutation_app_head.
  rewrite !app_assoc. apply Permutation_app_tail, Permutation_app_comm.
Qed.

Lemma file_major_analyzer_major results :
  Permutation (file_major results) (analyzer_major results).
Proof.
  unfold file_major, analyzer_major, file_findings.
  rewrite flat_map_app_perm. apply Permutation_app_head.
  rewrite flat_map_app_perm. apply Permutation_app_head.
  rewrite flat_map_app_perm. apply Permutation_app_head.
  apply flat_map_app_perm.
Qed.

End MergeFacts.

(** C6, as stated, fails: with two files, a logic analyzer and a security
    analyzer reporting one finding per file, the merged list holds the two
    logic findings first and then the two security findings; the file-major
    list alternates them. *)
Lemma merge_is_not_file_major :
  let result :=
    review_pr Examples.one_logic_issue Examples.one_security_issue
      Examples.quiet_performance Examples.quiet_readability
      Examples.quiet_testing Examples.failing_aggregator
      Examples.no_mention Examples.two_files in
  let results :=
    map (_analyze_file Examples.one_logic_issue Examples.one_security_issue
           Examples.quiet_performance Examples.quiet_readability
           Examples.quiet_testing)
      (live_files Examples.two_files) in
  map ReviewIssue.category
    (_collect_all_issues (ReviewResult.agent_analyses result)) =
    [LOGIC; LOGIC; SECURITY; SECURITY] /\
  map ReviewIssue.category (file_major results) =
    [LOGIC; SECURITY; LOGIC; SECURITY] /\
  _collect_all_issues (ReviewResult.agent_analyses result) <>
  file_major results.
Proof.
  split; [reflexivity|]. split; [reflexivity|].
  intros H. apply (f_equal (map ReviewIssue.category)) in H.
  vm_compute in H. discriminate H.
Qed.

(** C6, amended: the merged sequence is analyzer-major: the findings of the
    logic analyzer for all files in file order, then those of the security,
    performance, readability and testing analyzers likewise; [None] entries
    contribute nothing.  Nothing is deduplicated: the merged sequence is a
    rearrangement of the file-major flattening, finding for finding. *)
Theorem merge_is_analyzer_major :
  forall logic_agent security_agent performance_agent readability_agent
         testing_agent aggregator_chain mentions_security files,
  let result :=
    review_pr logic_agent security_agent performance_agent readability_agent
      testing_agent aggregator_chain mentions_security files in
  let results :=
    map (_analyze_file logic_agent security_agent performance_agent
           readability_agent testing_agent)
      (live_files files) in
  _collect_all_issues (ReviewResult.agent_analyses result) =
  analyzer_major results /\
  Permutation (_collect_all_issues (ReviewResult.agent_analyses result))
    (file_major results).
Proof.
  intros la sa pa ra ta agg ms fs result results.
  assert (E : _collect_all_issues (ReviewResult.agent_analyses result) =
              analyzer_major results).
  { subst result results. unfold review_pr. simpl ReviewResult.agent_analyses.
    rewrite analyze_files_entries, collect_all_issues_flat. simpl.
    unfold analyzer_major, entries, _analyze_file.
    rewrite !flat_map_map. reflexivity. }
  split; [exact E|].
  rewrite E. symmetry. apply file_major_analyzer_major.
Qed.

Section TallyFacts.

Lemma total_count_insert_fresh (m : gmap string nat) k v :
  m !! k = None -> total_count (<[k := v]> m) = v + total_count m.
Proof.
  intros Hk. unfold total_count.
  rewrite map_fold_insert_L; [reflexivity| |assumption].
  intros. lia.
Qed.

Lemma total_count_bump (m : gmap string nat) k :
  total_count (<[k := default 0 (m !! k) + 1]> m) = total_count m + 1.
Proof.
  destruct (m !! k) as [v|] eqn:Hk; simpl.
  - rewrite <- (insert_delete_eq m k (v + 1)).
    rewrite <- (insert_delete_id m k v Hk) at 2.
    rewrite !total_count_insert_fresh by apply lookup_delete_eq. lia.
  - rewrite total_count_insert_fresh by assumption. lia.
Qed.

Lemma total_count_fold l : forall m,
  total_count (fold_left count_issue l m) = total_count m + length l.
Proof.
  induction l as [|issue l IH]; intros m; simpl; [lia|].
  rewrite IH. unfold count_issue. rewrite total_count_bump. lia.
Qed.

(** The sum of the counts of the tally is the number of findings tallied. *)
Lemma total_count_summary l :
  total_count (summary_by_category l) = length l.
Proof.
  unfold summary_by_category. rewrite total_count_fold.
  unfold total_count. rewrite map_fold_empty. reflexivity.
Qed.

Lemma lookup_fold l : forall (m : gmap string nat) k,
  fold_left count_issue l m !! k =
  match m !! k with
  | Some v => Some (v + category_count k l)
  | None =>
      if Nat.eqb (category_count k l) 0 then None
      else Some (category_count k l)
  end.
Proof.
  induction l as [|issue l IH]; intros m k; simpl.
  - unfold category_count. simpl. destruct (m !! k); [f_equal; lia|reflexivity].
  - rewrite IH. unfold count_issue at 1, category_count. simpl.
    destruct (String.eqb_spec (category_value (ReviewIssue.category issue)) k)
      as [->|Hne].
    + rewrite lookup_insert_eq. simpl.
      destruct (m !! k); simpl; f_equal; lia.
    + rewrite lookup_insert_ne by assumption. reflexivity.
Qed.

(** A key of the tally maps to the number of findings of that category; a
    category without finding is no key. *)
Lemma lookup_summary l k :
  summary_by_category l !! k =
  if Nat.eqb (category_count k l) 0 then None else Some (category_count k l).
Proof.
  unfold summary_by_category. rewrite lookup_fold, lookup_empty. reflexivity.
Qed.

Lemma default_lookup_summary l k :
  default 0 (summary_by_category l !! k) = category_count k l.
Proof.
  rewrite lookup_summary.
  destruct (Nat.eqb_spec (category_count k l) 0) as [E|]; simpl; congruence.
Qed.

Lemma in_take {A : Type} n (l : list A) x : In x (take n l) -> In x l.
Proof.
  intros H. rewrite <- (firstn_skipn n l). apply in_or_app. left. exact H.
Qed.

Lemma generate_fallback agg ms l a :
  accepted (agg (aggregation_context l a)) = None ->
  _generate_aggregated_review agg ms l a = fallback_review ms l a.
Proof. unfold _generate_aggregated_review. intros ->. reflexivity. Qed.

Lemma generate_accepted agg ms l a answer :
  accepted (agg (aggregation_context l a)) = Some answer ->
  _generate_aggregated_review agg ms l a = answer.
Proof. unfold _generate_aggregated_review. intros ->. reflexivity. Qed.

End TallyFacts.

(** C2, as stated, fails on the fallback review of that run: its only
    critical blocker is the 51st finding, which the list of issues, cut
    after 50, does not hold. *)
Lemma fallback_blockers_not_subset :
  AggregatedReview.critical_blockers many_files_review =
    [Examples.issue CRITICAL "last.py"] /\
  AggregatedReview.all_issues many_files_review =
    repeat (Examples.issue INFO "a.py") 50 /\
  ~ blockers_invariant many_files_review.
Proof.
  split; [reflexivity|]. split; [reflexivity|].
  intros [_ H]. vm_compute in H. discriminate H.
Qed.

(** C3, as stated, fails on the same review: the tally counts 51 findings,
    the list of issues holds 50. *)
Lemma fallback_tally_exceeds_issues :
  total_count (AggregatedReview.summary_by_category many_files_review) = 51 /\
  length (AggregatedReview.all_issues many_files_review) = 50 /\
  ~ tally_invariant many_files_review.
Proof.
  assert (E : total_count
                (AggregatedReview.summary_by_category many_files_review) = 51).
  { change (AggregatedReview.summary_by_category many_files_review)
      with (summary_by_category
              (_collect_all_issues
                 (analyze_files Examples.one_logic_issue
                    Examples.quiet_security Examples.quiet_performance
                    Examples.quiet_readability Examples.quiet_testing
                    Examples.many_files))).
    rewrite total_count_summary. reflexivity. }
  split; [exact E|]. split; [reflexivity|].
  intros [_ H]. rewrite E in H.
  change (length (AggregatedReview.all_issues many_files_review)) with 50 in H.
  discriminate H.
Qed.

(** C2, amended: in the fallback review [critical_blockers] is the first 10
    critical-or-high findings of the merged list and [all_issues] is the
    first 50 findings of the merged list.  Every blocker listed is a
    critical-or-high finding of the merged list; the blockers are among
    [all_issues] when the merged list has at most 50 findings, and they are
    exactly the critical-or-high findings of [all_issues] when, in addition,
    at most 10 findings are critical or high.  A review accepted from the
    aggregation chain carries the lists the chain returned. *)
Theorem fallback_blockers_truncated :
  forall logic_agent security_agent performance_agent readability_agent
         testing_agent aggregator_chain mentions_security files,
  let result :=
    review_pr logic_agent security_agent performance_agent readability_agent
      testing_agent aggregator_chain mentions_security files in
  let findings := _collect_all_issues (ReviewResult.agent_analyses result) in
  let context :=
    aggregation_context findings (ReviewResult.agent_analyses result) in
  let review := ReviewResult.review result in
  (accepted (aggregator_chain context) = None ->
   AggregatedReview.critical_blockers review =
     take 10 (List.filter is_blocker findings) /\
   AggregatedReview.all_issues review = take 50 findings /\
   (forall issue,
      In issue (AggregatedReview.critical_blockers review) ->
      In issue findings /\
      (ReviewIssue.severity issue = CRITICAL \/
       ReviewIssue.severity issue = HIGH)) /\
   (length findings <= 50 ->
    forall issue,
      In issue (AggregatedReview.critical_blockers review) ->
      In issue (AggregatedReview.all_issues review)) /\
   (length findings <= 50 ->
    length (List.filter is_blocker findings) <= 10 ->
    blockers_invariant review)) /\
  (forall answer,
     accepted (aggregator_chain context) = Some answer -> review = answer).
Proof.
  intros la sa pa ra ta agg ms fs result findings context review.
  change review
    with (_generate_aggregated_review agg ms findings
            (analyze_files la sa pa ra ta fs)).
  split; [|intros answer H; apply (generate_accepted agg ms findings
                                     (analyze_files la sa pa ra ta fs) answer H)].
  intros H. rewrite (generate_fallback agg ms findings
                      (analyze_files la sa pa ra ta fs) H).
  simpl. unfold critical_blockers.
  assert (Hb : forall issue,
             In issue (take 10 (List.filter is_blocker findings)) ->
             In issue findings /\
             (ReviewIssue.severity issue = CRITICAL \/
              ReviewIssue.severity issue = HIGH)).
  { intros issue Hin. apply in_take, filter_In in Hin as [Hin Hs].
    split; [assumption|]. apply is_blocker_spec, Hs. }
  split; [reflexivity|]. split; [reflexivity|]. split; [exact Hb|].
  split.
  - intros Hlen issue Hin. rewrite take_ge by assumption. apply Hb, Hin.
  - intros Hlen Hblk. unfold blockers_invariant. simpl.
    rewrite !take_ge by assumption.
    split; [|reflexivity].
    intros issue Hin. apply filter_In in Hin as [Hin _]. exact Hin.
Qed.

Lemma fallback_blockers_truncated_witness :
  let result :=
    review_pr Examples.one_logic_issue Examples.quiet_security
      Examples.quiet_performance Examples.quiet_readability
      Examples.quiet_testing Examples.failing_aggregator
      Examples.no_mention [Examples.file "a.py"; Examples.file "last.py"] in
  let findings := _collect_all_issues (ReviewResult.agent_analyses result) in
  let context :=
    aggregation_context findings (ReviewResult.agent_analyses result) in
  accepted (Examples.failing_aggregator context) = None /\
  length findings <= 50 /\
  length (List.filter is_blocker findings) <= 10 /\
  AggregatedReview.critical_blockers (ReviewResult.review result) =
    [Examples.issue CRITICAL "last.py"] /\
  blockers_invariant (ReviewResult.review result).
Proof.
  intros result findings context.
  destruct (fallback_blockers_truncated Examples.one_logic_issue
              Examples.quiet_security Examples.quiet_performance
              Examples.quiet_readability Examples.quiet_testing
              Examples.failing_aggregator Examples.no_mention
              [Examples.file "a.py"; Examples.file "last.py"]) as [Hf _].
  destruct (Hf eq_refl) as (_ & _ & _ & _ & Hinv).
  split; [reflexivity|].
  split; [vm_compute; lia|]. split; [vm_compute; lia|].
  split; [reflexivity|].
  apply Hinv; vm_compute; lia.
Defined.

(** C3, amended: in the fallback review [summary_by_category] is the tally
    of the whole merged finding list: a category maps to the number of
    merged findings of that category (a category without finding is no
    key), and the counts sum to the length of the merged list.  They are
    the per-category counts of [all_issues], and sum to its length, when
    the merged list has at most 50 findings, [all_issues] being its first
    50.  A review accepted from the aggregation chain carries the tally the
    chain returned. *)
Theorem fallback_tally_counts_merged_list :
  forall logic_agent security_agent performance_agent readability_agent
         testing_agent aggregator_chain mentions_security files,
  let result :=
    review_pr logic_agent security_agent performance_agent readability_agent
      testing_agent aggregator_chain mentions_security files in
  let findings := _collect_all_issues (ReviewResult.agent_analyses result) in
  let context :=
    aggregation_context findings (ReviewResult.agent_analyses result) in
  let review := ReviewResult.review result in
  (accepted (aggregator_chain context) = None ->
   (forall key,
      AggregatedReview.summary_by_category review !! key =
      if Nat.eqb (category_count key findings) 0 then None
      else Some (category_count key findings)) /\
   total_count (AggregatedReview.summary_by_category review) =
     length findings /\
   AggregatedReview.all_issues review = take 50 findings /\
   (length findings <= 50 -> tally_invariant review)) /\
  (forall answer,
     accepted (aggregator_chain context) = Some answer -> review = answer).
Proof.
  intros la sa pa ra ta agg ms fs result findings context review.
  change review
    with (_generate_aggregated_review agg ms findings
            (analyze_files la sa pa ra ta fs)).
  split; [|intros answer H; apply (generate_accepted agg ms findings
                                     (analyze_files la sa pa ra ta fs) answer H)].
  intros H. rewrite (generate_fallback agg ms findings
                      (analyze_files la sa pa ra ta fs) H). simpl.
  split; [intros key; apply lookup_summary|].
  split; [apply total_count_summary|]. split; [reflexivity|].
  intros Hlen. unfold tally_invariant. simpl.
  rewrite take_ge by assumption.
  split; [intros c; apply default_lookup_summary | apply total_count_summary].
Qed.

Lemma fallback_tally_counts_merged_list_witness :
  let result :=
    review_pr Examples.one_logic_issue Examples.one_security_issue
      Examples.quiet_performance Examples.quiet_readability
      Examples.quiet_testing Examples.failing_aggregator
      Examples.no_mention Examples.three_files in
  let findings := _collect_all_issues (ReviewResult.agent_analyses result) in
  let context :=
    aggregation_context findings (ReviewResult.agent_analyses result) in
  accepted (Examples.failing_aggregator context) = None /\
  length findings <= 50 /\
  total_count (AggregatedReview.summary_by_category (ReviewResult.review result))
    = 6 /\
  AggregatedReview.summary_by_category (ReviewResult.review result)
    !! "security" = Some 3 /\
  tally_invariant (ReviewResult.review result).
Proof.
  intros result findings context.
  destruct (fallback_tally_counts_merged_list Examples.one_logic_issue
              Examples.one_security_issue Examples.quiet_performance
              Examples.quiet_readability Examples.quiet_testing
              Examples.failing_aggregator Examples.no_mention
              Examples.three_files) as [Hf _].
  destruct (Hf eq_refl) as (Hkey & Htot & _ & Hinv).
  split; [reflexivity|].
  split; [vm_compute; lia|].
  split; [exact (eq_trans Htot eq_refl)|].
  split; [exact (eq_trans (Hkey "security") eq_refl)|].
  apply Hinv. vm_compute. lia.
Defined.

(** * Further properties of the diff parser *)

Section MoreTextFacts.

(** Joining lines that hold no newline and splitting again gives the lines
    back. *)
Lemma split_join sep l ls :
  Forall (fun x => contains sep x = false) (l :: ls) ->
  split sep (join (String sep EmptyString) (l :: ls)) = l :: ls.
Proof.
  revert l. induction ls as [|m ls IH]; intros l H.
  - apply split_line. inversion H; assumption.
  - inversion H as [|? ? Hl Hrest]; subst.
    change (join (String sep EmptyString) (l :: m :: ls))
      with (l +:+ String sep EmptyString +:+ join (String sep EmptyString) (m :: ls)).
    change (String sep EmptyString +:+ join (String sep EmptyString) (m :: ls))
      with (String sep (join (String sep EmptyString) (m :: ls))).
    rewrite split_append, (split_line sep l Hl), (IH m Hrest). reflexivity.
Qed.

Lemma first_line_startswith sep p : forall s,
  contains sep p = false ->
  startswith s p = true ->
  exists l ls, split sep s = l :: ls /\ startswith l p = true.
Proof.
  induction p as [|a p IH]; intros s Hc Hp.
  - pose proof (split_nonempty sep s) as Hne.
    destruct (split sep s) as [|l ls]; [contradiction|].
    exists l, ls. split; reflexivity.
  - destruct s as [|b s]; [discriminate|].
    simpl in Hc, Hp.
    apply orb_false_elim in Hc as [Ha Hc].
    apply andb_prop in Hp as [Hb Hp].
    apply Ascii.eqb_eq in Hb. subst b.
    destruct (IH s Hc Hp) as (l & ls & Hs & Hl).
    exists (String a l), ls.
    split; [apply split_cons_line; assumption|].
    simpl. rewrite Ascii.eqb_refl. assumption.
Qed.

Lemma last_split_no_sep sep s :
  contains sep (List.last (split sep s) EmptyString) = false.
Proof.
  pose proof (split_no_sep sep s) as H.
  pose proof (split_nonempty sep s) as Hne.
  induction (split sep s) as [|l ls IH]; [contradiction|].
  inversion H; subst. destruct ls as [|m ls]; [assumption|].
  apply IH; [assumption|discriminate].
Qed.

Lemma last_cons_line {A : Type} (x y : A) l d :
  List.last (x :: y :: l) d = List.last (y :: l) d.
Proof. reflexivity. Qed.

Lemma join_cons sep l m ls :
  join sep (l :: m :: ls) = l +:+ sep +:+ join sep (m :: ls).
Proof. reflexivity. Qed.

(** Splitting and joining again gives the string back. *)
Lemma join_split sep s :
  join (String sep EmptyString) (split sep s) = s.
Proof.
  induction s as [|c s IH]; [reflexivity|].
  simpl split. pose proof (split_nonempty sep s) as Hne.
  destruct (Ascii.eqb_spec c sep) as [->|Hc].
  - destruct (split sep s) as [|l ls]; [contradiction|].
    rewrite join_cons, IH. reflexivity.
  - destruct (split sep s) as [|l ls]; [contradiction|].
    destruct ls as [|m ls].
    + simpl in *. rewrite IH. reflexivity.
    + rewrite join_cons, append_cons. rewrite join_cons in IH.
      rewrite IH. reflexivity.
Qed.

Lemma join_snoc sep init x :
  init <> [] ->
  join sep (init ++ [x]) = join sep init +:+ sep +:+ x.
Proof.
  induction init as [|l init IH]; intros Hne; [contradiction|].
  destruct init as [|m init].
  - reflexivity.
  - change ((l :: m :: init) ++ [x]) with (l :: (m :: init) ++ [x]).
    simpl app. rewrite !join_cons.
    change (m :: init ++ [x]) with ((m :: init) ++ [x]).
    rewrite IH by discriminate. rewrite !append_assoc. reflexivity.
Qed.

(** A string that holds the separator is a stem, the separator and the
    last piece of its split. *)
Lemma split_last_decompose sep s :
  contains sep s = true ->
  exists stem,
    s = stem +:+ String sep (List.last (split sep s) EmptyString).
Proof.
  intros H.
  pose proof (join_split sep s) as Hj.
  pose proof (split_no_sep sep s) as Hf.
  destruct (split sep s) as [|x init _] using rev_ind;
    [exfalso; subst s; discriminate H|].
  rewrite last_last.
  destruct init as [|m init'] eqn:El.
  - exfalso. simpl in Hj. subst s.
    inversion Hf; subst. congruence.
  - rewrite <- El in *. rewrite join_snoc in Hj by (subst init; discriminate).
    exists (join (String sep EmptyString) init). symmetry. exact Hj.
Qed.

End MoreTextFacts.

Section MoreParseFacts.

Lemma section_body_app_header x h r :
  is_file_header h = true ->
  section_body (x ++ h :: r) = section_body x.
Proof.
  intros Hh. induction x as [|l x IH]; simpl.
  - rewrite Hh. reflexivity.
  - destruct (is_file_header l); [reflexivity|]. rewrite IH. reflexivity.
Qed.

Lemma sections_app_header x h r :
  is_file_header h = true ->
  sections (x ++ h :: r) = sections x ++ sections (h :: r).
Proof.
  intros Hh. induction x as [|l x IH]; [reflexivity|].
  simpl app. simpl sections at 1 2.
  destruct (is_file_header l).
  - rewrite section_body_app_header, IH by assumption. reflexivity.
  - exact IH.
Qed.

Lemma has_b_slash_cons c pre :
  has_b_slash (String c pre) = false -> has_b_slash pre = false.
Proof. simpl. intros H. apply orb_false_elim in H as [_ H]. exact H. Qed.

(** [search_b_path] returns what follows the first [b/] of the line. *)
Lemma search_b_path_first pre : forall c r,
  has_b_slash pre = false ->
  search_b_path (pre +:+ "b/" +:+ String c r) = Some (String c r).
Proof.
  induction pre as [|x pre IH]; intros c r H; [reflexivity|].
  rewrite append_cons.
  destruct (pre +:+ "b/" +:+ String c r) as [|d [|e r']] eqn:E.
  - destruct pre; discriminate E.
  - destruct pre as [|y [|z pre]]; discriminate E.
  - rewrite search_b_path_unfold.
    destruct (Ascii.eqb_spec x "b") as [->|Hx]; simpl andb.
    + destruct (Ascii.eqb_spec d "/") as [->|Hd].
      * exfalso. destruct pre as [|y pre]; [discriminate E|].
        rewrite append_cons in E. injection E as -> _.
        simpl in H. discriminate H.
      * rewrite <- E. apply IH. apply (has_b_slash_cons _ _ H).
    + rewrite <- E. apply IH. apply (has_b_slash_cons _ _ H).
Qed.

Lemma section_status_values body :
  section_status body = "added" \/ section_status body = "modified" \/
  section_status body = "deleted".
Proof.
  unfold section_status.
  destruct (List.find is_status_line (rev body)) as [l|]; [|auto].
  destruct (is_new_file l); auto.
Qed.

End MoreParseFacts.

(** X1: [parse_diff] returns one record per [diff --git] line of the text,
    in the order of those lines, each named after its line. *)
Theorem parse_diff_follows_headers : forall text,
  length (parse_diff text) =
    length (List.filter is_file_header (split nl text)) /\
  map FileChange.filename (parse_diff text) =
    map header_filename (List.filter is_file_header (split nl text)).
Proof.
  intros text. rewrite parse_diff_sections, <- sections_headers.
  rewrite !length_map, !map_map. split; reflexivity.
Qed.

(** X2: the [additions] and [deletions] of a record are the numbers of
    lines of its section that start with [+] but not [+++], and with [-]
    but not [---]. *)
Theorem parse_diff_counts_section_lines : forall text,
  map (fun fc => (FileChange.additions fc, FileChange.deletions fc))
    (parse_diff text) =
  map (fun sec => (length (List.filter is_addition (snd sec)),
                   length (List.filter is_deletion (snd sec))))
    (sections (split nl text)).
Proof.
  intros text. rewrite parse_diff_sections, map_map. reflexivity.
Qed.

(** X3: the [status] of a record is one of [added], [modified] and
    [deleted]: what the last line of its section starting with [new file]
    or [deleted file] announces, and [modified] when the section has no
    such line. *)
Theorem parse_diff_status_from_last_status_line : forall text,
  map FileChange.status (parse_diff text) =
    map (fun sec => section_status (snd sec)) (sections (split nl text)) /\
  Forall (fun fc => FileChange.status fc = "added" \/
                    FileChange.status fc = "modified" \/
                    FileChange.status fc = "deleted")
    (parse_diff text).
Proof.
  intros text. rewrite parse_diff_sections, map_map. split; [reflexivity|].
  apply List.Forall_forall. intros fc Hin.
  apply in_map_iff in Hin as (sec & <- & _). apply section_status_values.
Qed.

(** X4: parsing is compositional: the records of a text followed by a text
    that starts with a file header are the records of the first followed
    by the records of the second. *)
Theorem parse_diff_concatenation : forall a b,
  is_file_header b = true ->
  parse_diff (a +:+ String nl b) = parse_diff a ++ parse_diff b.
Proof.
  intros a b Hb. rewrite !parse_diff_sections, split_append.
  destruct (first_line_startswith nl "diff --git" b eq_refl Hb)
    as (h & r & Hs & Hh).
  rewrite Hs, sections_app_header by exact Hh. apply map_app.
Qed.

Lemma parse_diff_concatenation_witness :
  is_file_header ("diff --git a/g b/g" +:+ String nl "-y") = true /\
  parse_diff (("diff --git a/f b/f" +:+ String nl "+x") +:+
              String nl ("diff --git a/g b/g" +:+ String nl "-y")) =
  [FileChange.mk "f" 1 0 "+x" "modified";
   FileChange.mk "g" 0 1 "-y" "modified"].
Proof.
  split; [reflexivity|].
  rewrite parse_diff_concatenation; reflexivity.
Defined.

(** X5: the filename of a record is everything that follows the first
    [b/] of its [diff --git] line, up to the end of the line. *)
Theorem parse_diff_filename_after_first_b_slash : forall text k pre c r,
  nth_error (List.filter is_file_header (split nl text)) k =
    Some (pre +:+ "b/" +:+ String c r) ->
  has_b_slash pre = false ->
  exists fc,
    nth_error (parse_diff text) k = Some fc /\
    FileChange.filename fc = String c r.
Proof.
  intros text k pre c r Hk Hpre.
  pose proof (parse_diff_sections text) as Hp.
  assert (Hn : nth_error (map FileChange.filename (parse_diff text)) k =
               Some (String c r)).
  { rewrite Hp, map_map.
    change (fun x => FileChange.filename (section_file x))
      with (fun x : string * list string => header_filename (fst x)).
    rewrite <- (map_map fst header_filename), sections_headers.
    rewrite nth_error_map, Hk. simpl. unfold header_filename.
    rewrite search_b_path_first by assumption. reflexivity. }
  rewrite nth_error_map in Hn.
  destruct (nth_error (parse_diff text) k) as [fc|]; [|discriminate].
  exists fc. split; [reflexivity|]. simpl in Hn. congruence.
Qed.

Lemma parse_diff_filename_after_first_b_slash_witness :
  nth_error
    (List.filter is_file_header
       (split nl ("diff --git a/lib/x.py b/lib/x.py" +:+ String nl "+a"))) 0 =
    Some ("diff --git a/li" +:+ "b/" +:+ String "x" ".py b/lib/x.py") /\
  has_b_slash "diff --git a/li" = false /\
  exists fc,
    nth_error
      (parse_diff ("diff --git a/lib/x.py b/lib/x.py" +:+ String nl "+a")) 0 =
      Some fc /\
    FileChange.filename fc = String "x" ".py b/lib/x.py".
Proof.
  split; [reflexivity|]. split; [reflexivity|].
  apply (parse_diff_filename_after_first_b_slash
           ("diff --git a/lib/x.py b/lib/x.py" +:+ String nl "+a") 0
           "diff --git a/li" "x" ".py b/lib/x.py"); reflexivity.
Defined.

Section MoreScanFacts.

Lemma deletion_not_addition l : is_deletion l = true -> is_addition l = false.
Proof.
  intros H. destruct (is_addition l) eqn:Ha; [|reflexivity].
  apply addition_not_deletion in Ha. congruence.
Qed.

Lemma hunk_header_not_changed l :
  startswith l "@@" = true -> is_changed l = false.
Proof.
  intros H. unfold is_changed.
  destruct (is_addition l) eqn:Ha.
  { apply addition_not_hunk in Ha. congruence. }
  destruct (is_deletion l) eqn:Hd; [|reflexivity].
  apply deletion_not_hunk in Hd. congruence.
Qed.

Lemma scan_step_raw st l :
  map ChangedLine.raw (changed_lines (scan_step st l)) =
  map ChangedLine.raw (changed_lines st) ++ List.filter is_changed [l].
Proof.
  unfold scan_step. simpl List.filter.
  destruct (startswith l "@@") eqn:Hh.
  { rewrite (hunk_header_not_changed l Hh), app_nil_r.
    destruct (search_plus_digits l); reflexivity. }
  unfold is_changed.
  destruct (is_addition l) eqn:Ha; simpl orb; cbv iota.
  { simpl changed_lines. rewrite map_app. reflexivity. }
  destruct (is_deletion l) eqn:Hd; cbv iota.
  { simpl changed_lines. rewrite map_app. reflexivity. }
  rewrite app_nil_r. destruct (startswith l "\"); reflexivity.
Qed.

Lemma scan_fold_raw ls : forall st,
  map ChangedLine.raw (changed_lines (fold_left scan_step ls st)) =
  map ChangedLine.raw (changed_lines st) ++ List.filter is_changed ls.
Proof.
  induction ls as [|l ls IH]; intros st.
  - simpl. rewrite app_nil_r. reflexivity.
  - simpl fold_left. rewrite IH, scan_step_raw. simpl List.filter.
    destruct (is_changed l); simpl; rewrite <- app_assoc; reflexivity.
Qed.

Lemma scan_step_well_formed st l :
  Forall well_formed_record (changed_lines st) ->
  Forall well_formed_record (changed_lines (scan_step st l)).
Proof.
  intros H. unfold scan_step.
  destruct (startswith l "@@").
  { destruct (search_plus_digits l); assumption. }
  destruct (is_addition l) eqn:Ha.
  { simpl. apply Forall_app. split; [assumption|].
    constructor; [|constructor]. split; [reflexivity|]. left. auto. }
  destruct (is_deletion l) eqn:Hd.
  { simpl. apply Forall_app. split; [assumption|].
    constructor; [|constructor]. split; [reflexivity|]. right. auto. }
  destruct (negb (startswith l "\")); assumption.
Qed.

Lemma scan_fold_well_formed ls : forall st,
  Forall well_formed_record (changed_lines st) ->
  Forall well_formed_record (changed_lines (fold_left scan_step ls st)).
Proof.
  induction ls as [|l ls IH]; intros st H; [assumption|].
  simpl. apply IH, scan_step_well_formed, H.
Qed.

Lemma scan_step_counter st l :
  is_hunk_header l = false ->
  current_line_num (scan_step st l) =
  current_line_num st + length (List.filter advances [l]).
Proof.
  unfold is_hunk_header, scan_step. intros ->.
  change (List.filter advances [l]) with (if advances l then [l] else []).
  unfold advances.
  destruct (is_addition l) eqn:Ha; [reflexivity|].
  destruct (is_deletion l) eqn:Hd; [simpl; lia|].
  destruct (startswith l "\"); simpl; lia.
Qed.

Lemma scan_fold_counter body : forall st,
  forallb (fun l => negb (is_hunk_header l)) body = true ->
  current_line_num (fold_left scan_step body st) =
  current_line_num st + length (List.filter advances body).
Proof.
  induction body as [|l body IH]; intros st H; [simpl; lia|].
  simpl in H. apply andb_prop in H as [Hl H].
  apply negb_true_iff in Hl.
  simpl fold_left. rewrite (IH _ H), (scan_step_counter st l Hl).
  simpl List.filter. destruct (advances l); simpl; lia.
Qed.

Lemma filter_changed_is_addition ls :
  List.filter is_addition (List.filter is_changed ls) =
  List.filter is_addition ls.
Proof.
  induction ls as [|l ls IH]; [reflexivity|]. simpl. unfold is_changed at 1.
  destruct (is_addition l) eqn:Ha; simpl; [rewrite Ha, IH; reflexivity|].
  destruct (is_deletion l); simpl; [rewrite Ha|]; exact IH.
Qed.

Lemma length_filter_changed ls :
  length (List.filter is_changed ls) =
  length (List.filter is_addition ls) + length (List.filter is_deletion ls).
Proof.
  induction ls as [|l ls IH]; [reflexivity|]. simpl. unfold is_changed at 1.
  destruct (is_addition l) eqn:Ha.
  - rewrite (addition_not_deletion l Ha). simpl. lia.
  - destruct (is_deletion l); simpl; lia.
Qed.

Lemma filter_changed_patch_lines body :
  List.filter is_changed (section_patch_lines body) =
  List.filter is_changed body.
Proof.
  unfold section_patch_lines.
  induction body as [|l body IH]; [reflexivity|]. simpl.
  destruct (is_status_line l) eqn:Hs; simpl.
  - assert (Hc : is_changed l = false).
    { unfold is_changed. destruct (is_addition l) eqn:Ha.
      - apply addition_not_status in Ha. congruence.
      - destruct (is_deletion l) eqn:Hd; [|reflexivity].
        apply deletion_not_status in Hd. congruence. }
    rewrite Hc. exact IH.
  - rewrite IH. reflexivity.
Qed.

Lemma section_body_lines r :
  Forall (fun l => In l r /\ is_file_header l = false) (section_body r).
Proof.
  induction r as [|l r IH]; simpl; [constructor|].
  destruct (is_file_header l) eqn:Hh; [constructor|].
  constructor; [split; [left; reflexivity|assumption]|].
  eapply List.Forall_impl; [|exact IH]. simpl. intros x [Hx Hh']. auto.
Qed.

Lemma sections_lines ls sec :
  In sec (sections ls) ->
  Forall (fun l => In l ls /\ is_file_header l = false) (snd sec).
Proof.
  induction ls as [|l ls IH]; simpl; [intros []|].
  destruct (is_file_header l).
  - intros [<-|Hin].
    + simpl. eapply List.Forall_impl; [|apply section_body_lines].
      simpl. intros x [Hx Hh]. auto.
    + eapply List.Forall_impl; [|apply (IH Hin)]. simpl. intros x [Hx Hh]. auto.
  - intros Hin. eapply List.Forall_impl; [|apply (IH Hin)].
    simpl. intros x [Hx Hh]. auto.
Qed.

(** The lines of the patch of a record: the lines kept from its section,
    or one empty line when none is kept. *)
Lemma patch_lines text sec :
  In sec (sections (split nl text)) ->
  split nl (FileChange.patch (section_file sec)) =
  match section_patch_lines (snd sec) with
  | [] => [EmptyString]
  | l :: ls => l :: ls
  end.
Proof.
  intros Hin. unfold section_file. simpl FileChange.patch.
  destruct (section_patch_lines (snd sec)) as [|l ls] eqn:E; [reflexivity|].
  apply split_join. rewrite <- E. unfold section_patch_lines.
  apply List.Forall_forall. intros x Hx. apply filter_In in Hx as [Hx _].
  pose proof (sections_lines _ _ Hin) as Hf.
  rewrite List.Forall_forall in Hf. destruct (Hf x Hx) as [Hl _].
  pose proof (split_no_sep nl text) as Hs.
  rewrite List.Forall_forall in Hs. apply Hs, Hl.
Qed.

Lemma extract_raw patch :
  map ChangedLine.raw (extract_changed_lines patch) =
  List.filter is_changed (split nl patch).
Proof.
  unfold extract_changed_lines, scan_lines. rewrite scan_fold_raw.
  reflexivity.
Qed.

Lemma extract_well_formed patch :
  Forall well_formed_record (extract_changed_lines patch).
Proof.
  unfold extract_changed_lines, scan_lines.
  apply scan_fold_well_formed. constructor.
Qed.

End MoreScanFacts.

(** X6: the patch of a record holds no file header and no status line, so
    parsing a patch again yields no record. *)
Theorem parse_diff_patch_reparses_to_nothing : forall text fc,
  In fc (parse_diff text) ->
  Forall (fun l => is_file_header l = false /\ is_status_line l = false)
    (split nl (FileChange.patch fc)) /\
  parse_diff (FileChange.patch fc) = [].
Proof.
  intros text fc Hin. rewrite parse_diff_sections in Hin.
  apply in_map_iff in Hin as (sec & <- & Hsec).
  assert (Hl : Forall (fun l => is_file_header l = false /\
                                is_status_line l = false)
                 (split nl (FileChange.patch (section_file sec)))).
  { rewrite (patch_lines text sec Hsec).
    destruct (section_patch_lines (snd sec)) as [|l ls] eqn:E.
    - constructor; [split; reflexivity|constructor].
    - rewrite <- E. unfold section_patch_lines.
      apply List.Forall_forall. intros x Hx.
      apply filter_In in Hx as [Hx Hs].
      pose proof (sections_lines _ _ Hsec) as Hf.
      rewrite List.Forall_forall in Hf. destruct (Hf x Hx) as [_ Hh].
      split; [assumption|]. apply negb_true_iff, Hs. }
  split; [exact Hl|].
  rewrite parse_diff_sections, sections_no_header; [reflexivity|].
  apply forallb_forall. intros x Hx.
  rewrite List.Forall_forall in Hl. destruct (Hl x Hx) as [-> _]. reflexivity.
Qed.

Lemma parse_diff_patch_reparses_to_nothing_witness :
  In (FileChange.mk "x.py" 1 0 "+a" "added") (parse_diff ex_new_file_diff) /\
  parse_diff "+a" = [].
Proof.
  assert (Hin : In (FileChange.mk "x.py" 1 0 "+a" "added")
                  (parse_diff ex_new_file_diff)) by (left; reflexivity).
  split; [exact Hin|].
  exact (proj2 (parse_diff_patch_reparses_to_nothing ex_new_file_diff
                  (FileChange.mk "x.py" 1 0 "+a" "added") Hin)).
Defined.

(** X7: on a patch whose lines starting with [@@] are ASCII text with
    numbers of at most 4300 digits, [extract_changed_lines] returns, and
    the raw lines of the records it returns are the lines of the patch
    that start with [+] but not [+++] or with [-] but not [---], in order;
    the content of a record is its raw line without the first character
    and its type says which of the two the line is. *)
Theorem extract_changed_lines_are_change_lines : forall patch,
  plain_hunk_headers patch = true ->
  exists records,
    Raising.extract_changed_lines patch = Returned records /\
    map ChangedLine.raw records =
      List.filter (fun l => is_addition l || is_deletion l) (split nl patch) /\
    Forall well_formed_record records.
Proof.
  intros patch Hp. exists (extract_changed_lines patch).
  split; [apply raising_extract_returns, Hp|].
  split; [apply extract_raw | apply extract_well_formed].
Qed.

Lemma extract_changed_lines_are_change_lines_witness :
  plain_hunk_headers ex_hunk_patch = true /\
  exists records,
    Raising.extract_changed_lines ex_hunk_patch = Returned records /\
    map ChangedLine.raw records = ["+added"; "-deleted"] /\
    Forall well_formed_record records.
Proof.
  assert (Hp : plain_hunk_headers ex_hunk_patch = true) by reflexivity.
  split; [exact Hp|].
  exact (extract_changed_lines_are_change_lines ex_hunk_patch Hp).
Defined.

(** X8: for every record of [parse_diff] in whose patch the lines starting
    with [@@] are ASCII text with numbers of at most 4300 digits,
    [extract_changed_lines] applied to the patch returns as many records
    as the record counts additions and deletions together, and as many of
    type [addition] as it counts additions. *)
Theorem patch_changed_lines_match_counts : forall text fc,
  In fc (parse_diff text) ->
  plain_hunk_headers (FileChange.patch fc) = true ->
  exists records,
    Raising.extract_changed_lines (FileChange.patch fc) = Returned records /\
    length records = FileChange.additions fc + FileChange.deletions fc /\
    length (List.filter
              (fun r => String.eqb (ChangedLine.type r) "addition") records) =
      FileChange.additions fc.
Proof.
  intros text fc Hin Hp.
  exists (extract_changed_lines (FileChange.patch fc)).
  split; [apply raising_extract_returns, Hp|]. clear Hp.
  rewrite parse_diff_sections in Hin.
  apply in_map_iff in Hin as (sec & <- & Hsec).
  pose proof (extract_raw (FileChange.patch (section_file sec))) as Hraw.
  pose proof (extract_well_formed (FileChange.patch (section_file sec)))
    as Hwf.
  assert (Hlines : List.filter is_changed
                     (split nl (FileChange.patch (section_file sec))) =
                   List.filter is_changed (snd sec)).
  { rewrite (patch_lines text sec Hsec).
    destruct (section_patch_lines (snd sec)) as [|l ls] eqn:E;
      rewrite <- (filter_changed_patch_lines (snd sec)), E; reflexivity. }
  rewrite Hlines in Hraw. split.
  - rewrite <- (length_map ChangedLine.raw), Hraw, length_filter_changed.
    reflexivity.
  - transitivity
      (length (List.filter is_addition
                 (map ChangedLine.raw
                    (extract_changed_lines (FileChange.patch (section_file sec)))))).
    + clear Hraw Hlines.
      induction Hwf as [|r rs [_ Hr] _ IH]; [reflexivity|]. simpl.
      destruct Hr as [[-> ->]|[-> Hd]].
      * simpl. rewrite IH. reflexivity.
      * rewrite (deletion_not_addition _ Hd). simpl. exact IH.
    + rewrite Hraw, filter_changed_is_addition. reflexivity.
Qed.

Lemma patch_changed_lines_match_counts_witness :
  let text :=
    "diff --git a/f b/f" +:+ String nl "@@ -1,2 +1,2 @@" +:+ String nl
    "-old" +:+ String nl "+new" +:+ String nl " kept" in
  let fc :=
    FileChange.mk "f" 1 1
      ("@@ -1,2 +1,2 @@" +:+ String nl "-old" +:+ String nl "+new" +:+
       String nl " kept") "modified" in
  In fc (parse_diff text) /\
  plain_hunk_headers (FileChange.patch fc) = true /\
  exists records,
    Raising.extract_changed_lines (FileChange.patch fc) = Returned records /\
    length records = 2 /\
    length (List.filter
              (fun r => String.eqb (ChangedLine.type r) "addition") records)
      = 1.
Proof.
  intros text fc.
  assert (Hin : In fc (parse_diff text)) by (left; reflexivity).
  assert (Hp : plain_hunk_headers (FileChange.patch fc) = true) by reflexivity.
  split; [exact Hin|]. split; [exact Hp|].
  exact (patch_changed_lines_match_counts text fc Hin Hp).
Defined.

(** X9: inside a hunk the line numbers are those of the post-image.  In a
    patch whose lines starting with [@@] are ASCII text with numbers of at
    most 4300 digits, take a line that starts with [@@] and in which the
    first [+] followed by a digit is followed by the digits of [n], then
    lines none of which starts with [@@], then an addition or deletion
    line: [extract_changed_lines] returns the records of the patch that
    ends before that line and then the record of that line, at [n] plus
    the number of the lines in between that are additions or context
    (neither deletions nor backslash markers). *)
Theorem changed_line_number_in_hunk : forall pre p ds rest body line,
  let header := p +:+ "+" +:+ ds +:+ rest in
  Forall (fun l => contains nl l = false) (pre ++ header :: body ++ [line]) ->
  plain_hunk_headers (join newline (pre ++ header :: body ++ [line])) = true ->
  is_hunk_header p = true ->
  search_plus_digits p = None ->
  all_digits ds = true -> ds <> EmptyString ->
  starts_with_digit rest = false ->
  forallb (fun l => negb (is_hunk_header l)) body = true ->
  is_addition line = true \/ is_deletion line = true ->
  exists records,
    Raising.extract_changed_lines (join newline (pre ++ header :: body)) =
      Returned records /\
    Raising.extract_changed_lines
      (join newline (pre ++ header :: body ++ [line])) =
      Returned
        (records ++
         [ChangedLine.mk (int ds + length (List.filter advances body))
            (if is_addition line then "addition" else "deletion")
            (tail line) line]).
Proof.
  intros pre p ds rest body line header Hnl Hplain Hp Hnone Hd Hne Hr Hb Hl.
  assert (Hh : is_hunk_header header = true)
    by (apply startswith_append, Hp).
  assert (Hs : search_plus_digits header = Some ds)
    by (apply search_plus_digits_first; assumption).
  assert (Hsplit : forall ls, ls <> [] ->
            Forall (fun l => contains nl l = false) ls ->
            split nl (join newline ls) = ls).
  { intros [|l ls] Hls Hf; [contradiction|]. apply split_join, Hf. }
  assert (Hnl' : Forall (fun l => contains nl l = false)
                   (pre ++ header :: body)).
  { change (pre ++ header :: body ++ [line])
      with (pre ++ (header :: body) ++ [line]) in Hnl.
    rewrite app_assoc in Hnl. apply Forall_app in Hnl as [Hnl _].
    exact Hnl. }
  assert (Hne1 : pre ++ header :: body ++ [line] <> [])
    by (destruct pre; discriminate).
  assert (Hne2 : pre ++ header :: body <> []) by (destruct pre; discriminate).
  assert (Hplain' : plain_hunk_headers (join newline (pre ++ header :: body))
                    = true).
  { unfold plain_hunk_headers in *.
    rewrite (Hsplit _ Hne1 Hnl) in Hplain. rewrite (Hsplit _ Hne2 Hnl').
    change (pre ++ header :: body ++ [line])
      with (pre ++ (header :: body) ++ [line]) in Hplain.
    rewrite app_assoc, forallb_app in Hplain.
    apply andb_prop in Hplain as [Hplain _]. exact Hplain. }
  exists (extract_changed_lines (join newline (pre ++ header :: body))).
  split; [apply raising_extract_returns, Hplain'|].
  rewrite (raising_extract_returns _ Hplain). f_equal.
  unfold extract_changed_lines.
  rewrite (Hsplit _ Hne1 Hnl), (Hsplit _ Hne2 Hnl').
  assert (Hc : current_line_num (scan_lines (pre ++ header :: body)) =
               int ds + length (List.filter advances body)).
  { unfold scan_lines. rewrite fold_left_app. simpl fold_left.
    rewrite scan_fold_counter by exact Hb. f_equal.
    unfold scan_step. unfold is_hunk_header in Hh. rewrite Hh, Hs.
    reflexivity. }
  change (pre ++ header :: body ++ [line])
    with (pre ++ (header :: body) ++ [line]).
  rewrite app_assoc, scan_lines_snoc. unfold scan_step at 1.
  destruct Hl as [Ha|Hdel].
  - rewrite (addition_not_hunk _ Ha), Ha. simpl. rewrite Hc. reflexivity.
  - rewrite (deletion_not_hunk _ Hdel), (deletion_not_addition _ Hdel), Hdel.
    simpl. rewrite Hc. reflexivity.
Qed.

Lemma changed_line_number_in_hunk_witness :
  let lines := ["@@ -7,3 " +:+ "+" +:+ "20" +:+ ",4 @@"; " a"; "-b"; "+c"] in
  Forall (fun l => contains nl l = false) ([] ++ lines ++ ["+d"]) /\
  plain_hunk_headers (join newline ([] ++ lines ++ ["+d"])) = true /\
  is_hunk_header "@@ -7,3 " = true /\
  search_plus_digits "@@ -7,3 " = None /\
  all_digits "20" = true /\ "20" <> EmptyString /\
  starts_with_digit ",4 @@" = false /\
  forallb (fun l => negb (is_hunk_header l)) [" a"; "-b"; "+c"] = true /\
  (is_addition "+d" = true \/ is_deletion "+d" = true) /\
  Raising.extract_changed_lines (join newline ([] ++ lines ++ ["+d"])) =
  Returned
    [ChangedLine.mk 21 "deletion" "b" "-b";
     ChangedLine.mk 21 "addition" "c" "+c";
     ChangedLine.mk 22 "addition" "d" "+d"].
Proof.
  intros lines.
  assert (Hnl : Forall (fun l => contains nl l = false) ([] ++ lines ++ ["+d"]))
    by (repeat constructor).
  assert (Hne : "20" <> EmptyString) by discriminate.
  split; [exact Hnl|]. split; [reflexivity|]. split; [reflexivity|].
  split; [reflexivity|]. split; [reflexivity|]. split; [exact Hne|].
  split; [reflexivity|]. split; [reflexivity|].
  split; [left; reflexivity|].
  destruct (changed_line_number_in_hunk [] "@@ -7,3 " "20" ",4 @@"
              [" a"; "-b"; "+c"] "+d" Hnl eq_refl eq_refl eq_refl eq_refl
              Hne eq_refl eq_refl (or_introl eq_refl))
    as (records & Hshort & Hlong).
  assert (Hrec : records =
                 [ChangedLine.mk 21 "deletion" "b" "-b";
                  ChangedLine.mk 21 "addition" "c" "+c"]).
  { apply raising_extract_agrees in Hshort. exact Hshort. }
  rewrite Hrec in Hlong. exact Hlong.
Defined.

(** X10: [get_file_extension] returns the empty string for a name without
    dot; for a name with a dot it returns the part after the last dot: the
    name is a stem, a dot and the extension, and the extension holds no
    dot. *)
Theorem get_file_extension_splits_name : forall filename,
  (contains "." filename = false ->
   get_file_extension filename = EmptyString) /\
  (contains "." filename = true ->
   contains "." (get_file_extension filename) = false /\
   exists stem,
     filename = stem +:+ String "." (get_file_extension filename)).
Proof.
  intros filename. unfold get_file_extension. split; intros H; rewrite H.
  - reflexivity.
  - split; [apply last_split_no_sep | apply split_last_decompose, H].
Qed.

Lemma get_file_extension_splits_name_witness :
  (contains "." "Makefile" = false /\
   get_file_extension "Makefile" = EmptyString) /\
  (contains "." "src/app.test.py" = true /\
   get_file_extension "src/app.test.py" = "py" /\
   contains "." (get_file_extension "src/app.test.py") = false).
Proof.
  split.
  - split; [reflexivity|].
    apply (proj1 (get_file_extension_splits_name "Makefile")). reflexivity.
  - split; [reflexivity|]. split; [reflexivity|].
    apply (proj2 (get_file_extension_splits_name "src/app.test.py")).
    reflexivity.
Defined.

Section GroupFacts.

Variable search_name : string -> string -> option string.
Variable pattern : string.

Lemma alter_last (f : FunctionGroup.t -> FunctionGroup.t) fs g :
  alter f (length fs) (fs ++ [g]) = fs ++ [f g].
Proof.
  induction fs as [|x fs IH]; [reflexivity|].
  simpl. f_equal. exact IH.
Qed.

(** While a group is current, it is the last element of the list and it
    collects the change lines up to the next declaration. *)
Lemma group_fold_current ls : forall fs g,
  fst (fold_left (group_step search_name pattern) ls
         (fs ++ [g], Some (length fs))) =
  fs ++
  FunctionGroup.mk (FunctionGroup.name g)
    (FunctionGroup.changes g ++ group_body search_name pattern ls)
  :: groups_of search_name pattern ls.
Proof.
  induction ls as [|l ls IH]; intros fs g.
  - simpl. rewrite app_nil_r. destruct g; reflexivity.
  - simpl fold_left. unfold group_step at 2. simpl fst. simpl snd.
    simpl group_body. simpl groups_of.
    destruct (search_name pattern l) as [function_name|].
    + simpl snd. simpl fst. unfold own_change.
      destruct (is_change l).
      * rewrite length_app. simpl length.
        replace (length fs + 1) with (length (fs ++ [g]))
          by (rewrite length_app; reflexivity).
        rewrite alter_last, IH, app_nil_r, <- app_assoc. simpl.
        destruct g; reflexivity.
      * rewrite length_app. simpl length.
        replace (length fs + 1) with (length (fs ++ [g]))
          by (rewrite length_app; reflexivity).
        rewrite IH, app_nil_r, <- app_assoc. simpl.
        destruct g; reflexivity.
    + simpl snd. simpl fst. unfold own_change.
      destruct (is_change l).
      * rewrite alter_last, IH. unfold add_change. simpl.
        rewrite <- app_assoc. reflexivity.
      * rewrite IH. reflexivity.
Qed.

Lemma group_fold_start ls :
  fst (fold_left (group_step search_name pattern) ls ([], None)) =
  groups_of search_name pattern ls.
Proof.
  induction ls as [|l ls IH]; [reflexivity|].
  simpl fold_left. unfold group_step at 2. simpl fst. simpl snd.
  simpl groups_of.
  destruct (search_name pattern l) as [function_name|].
  - simpl snd. simpl fst. unfold own_change.
    destruct (is_change l).
    + exact (group_fold_current ls []
               (add_change l (FunctionGroup.mk function_name []))).
    + exact (group_fold_current ls [] (FunctionGroup.mk function_name [])).
  - simpl snd. exact IH.
Qed.

End GroupFacts.

(** X11: [group_changes_by_function] returns nothing for a language that
    is not in its table.  For a language of the table it returns one group
    per line of the patch on which the pattern of the language matches, in
    order, named by the match; a group holds the lines starting with [+] or
    [-] from its own line up to the next matching line, and the change
    lines before the first matching line are in no group. *)
Theorem group_changes_by_function_groups :
  forall search_name patch language,
  (function_patterns language = None ->
   group_changes_by_function search_name patch language = []) /\
  (forall pattern,
     function_patterns language = Some pattern ->
     group_changes_by_function search_name patch language =
     groups_of search_name pattern (split nl patch)).
Proof.
  intros search_name patch language. unfold group_changes_by_function.
  split.
  - intros ->. reflexivity.
  - intros pattern ->. apply group_fold_start.
Qed.

Lemma group_changes_by_function_groups_witness :
  let search_name (pattern line : string) :=
    if startswith line " def " then Some (Text.tail (Text.tail
         (Text.tail (Text.tail (Text.tail line))))) else None in
  let patch :=
    "+import os" +:+ String nl " def f" +:+ String nl "+x = 1" +:+
    String nl " y = 2" +:+ String nl " def g" +:+ String nl "-z = 3" in
  (function_patterns "rust" = None /\
   group_changes_by_function search_name patch "rust" = []) /\
  (function_patterns "python" = Some "^\s*def\s+(\w+)" /\
   group_changes_by_function search_name patch "python" =
   [FunctionGroup.mk "f" ["+x = 1"]; FunctionGroup.mk "g" ["-z = 3"]]).
Proof.
  intros search_name patch. split.
  - split; [reflexivity|].
    apply (proj1 (group_changes_by_function_groups search_name patch "rust")).
    reflexivity.
  - split; [reflexivity|].
    rewrite (proj2 (group_changes_by_function_groups search_name patch
                      "python") "^\s*def\s+(\w+)" eq_refl).
    reflexivity.
Defined.

(** * Further properties of the orchestrator *)

Section MoreOrchestratorFacts.

Lemma live_files_idempotent files :
  live_files (live_files files) = live_files files.
Proof.
  unfold live_files. induction files as [|f files IH]; [reflexivity|].
  simpl. destruct (negb (is_deleted f)) eqn:E; simpl; [rewrite E, IH|];
    congruence.
Qed.

Lemma entries_live {A : Type} (agent : AnalysisContext.t -> call_result A) files :
  entries agent (live_files files) = entries agent files.
Proof. unfold entries. rewrite live_files_idempotent. reflexivity. Qed.

Lemma existsb_critical_blocker l :
  existsb (fun issue => Severity_eqb (ReviewIssue.severity issue) CRITICAL) l
    = true ->
  existsb is_blocker l = true.
Proof.
  intros H. apply existsb_exists in H as (i & Hin & Hc).
  apply existsb_exists. exists i. split; [assumption|].
  unfold is_blocker. rewrite Hc. reflexivity.
Qed.

Lemma nonempty_filter_existsb {A : Type} (p : A -> bool) l :
  nonempty (List.filter p l) = existsb p l.
Proof.
  induction l as [|x l IH]; [reflexivity|]. simpl.
  destruct (p x); [reflexivity|exact IH].
Qed.

(** The computed status in one case distinction. *)
Lemma approval_status_cases l :
  approval_status l =
  if existsb is_blocker l then "CHANGES_REQUESTED"
  else if nonempty l then "COMMENTED" else "APPROVED".
Proof.
  unfold approval_status, critical_blockers.
  rewrite nonempty_filter_existsb.
  destruct (existsb (fun issue => Severity_eqb _ CRITICAL) l) eqn:Hc;
    [|reflexivity].
  rewrite (existsb_critical_blocker l Hc). reflexivity.
Qed.

Lemma existsb_perm {A : Type} (p : A -> bool) l l' :
  Permutation l l' -> existsb p l = existsb p l'.
Proof.
  intros H. induction H as [|x l l' _ IH|x y l|l l' l'' _ IH1 _ IH2]; simpl.
  - reflexivity.
  - rewrite IH. reflexivity.
  - destruct (p x), (p y); reflexivity.
  - congruence.
Qed.

Lemma nonempty_perm {A : Type} (l l' : list A) :
  Permutation l l' -> nonempty l = nonempty l'.
Proof.
  intros H. destruct l as [|x l], l' as [|y l']; try reflexivity.
  - apply Permutation_nil in H. discriminate H.
  - symmetry in H. apply Permutation_nil in H. discriminate H.
Qed.

Lemma category_count_perm key l l' :
  Permutation l l' -> category_count key l = category_count key l'.
Proof.
  unfold category_count.
  intros H. induction H as [|x l l' _ IH|x y l|l l' l'' _ IH1 _ IH2]; simpl.
  - reflexivity.
  - destruct (String.eqb _ key); simpl; rewrite IH; reflexivity.
  - destruct (String.eqb (category_value (ReviewIssue.category x)) key),
             (String.eqb (category_value (ReviewIssue.category y)) key);
      reflexivity.
  - congruence.
Qed.

Lemma category_count_le key l : category_count key l <= length l.
Proof.
  unfold category_count. induction l as [|x l IH]; simpl; [lia|].
  destruct (String.eqb _ key); simpl; lia.
Qed.

Lemma category_count_positive key l :
  category_count key l <> 0 ->
  exists issue, In issue l /\ category_value (ReviewIssue.category issue) = key.
Proof.
  unfold category_count. induction l as [|x l IH]; simpl; [congruence|].
  destruct (String.eqb_spec (category_value (ReviewIssue.category x)) key)
    as [E|_].
  - intros _. exists x. auto.
  - intros H. destruct (IH H) as (i & Hi & Hk). exists i. auto.
Qed.

Lemma category_value_listed c : In (category_value c) category_values.
Proof. unfold category_values. destruct c; simpl; auto 10. Qed.

End MoreOrchestratorFacts.

(** X12: files whose status is [deleted] have no influence on the result:
    the review and the per-analyzer sequences of a file list are those of
    the list without its deleted files. *)
Theorem review_pr_ignores_deleted_files :
  forall logic_agent security_agent performance_agent readability_agent
         testing_agent aggregator_chain mentions_security files,
  review_pr logic_agent security_agent performance_agent readability_agent
    testing_agent aggregator_chain mentions_security files =
  review_pr logic_agent security_agent performance_agent readability_agent
    testing_agent aggregator_chain mentions_security (live_files files).
Proof.
  intros. unfold review_pr.
  rewrite !analyze_files_entries, !entries_live. reflexivity.
Qed.

(** X13: findings only push the computed disposition up: with APPROVED
    below COMMENTED below CHANGES_REQUESTED, the status of a finding list
    is at most the status of the list with further findings put before or
    after it. *)
Theorem approval_status_monotone : forall findings more,
  status_rank (approval_status findings) <=
    status_rank (approval_status (findings ++ more)) /\
  status_rank (approval_status findings) <=
    status_rank (approval_status (more ++ findings)).
Proof.
  intros findings more. rewrite !approval_status_cases, !existsb_app.
  destruct (existsb is_blocker findings), (existsb is_blocker more);
    destruct findings as [|i l], more as [|j m];
    split; vm_compute; lia.
Qed.

(** X14: the computed disposition and the tally by category do not depend
    on the order of the findings: two finding lists that are rearrangements
    of each other get the same status and the same tally. *)
Theorem status_and_tally_order_independent : forall findings findings',
  Permutation findings findings' ->
  approval_status findings = approval_status findings' /\
  summary_by_category findings = summary_by_category findings'.
Proof.
  intros l l' H. split.
  - rewrite !approval_status_cases.
    rewrite (existsb_perm is_blocker l l' H), (nonempty_perm l l' H).
    reflexivity.
  - apply map_eq. intros key.
    rewrite !lookup_summary, (category_count_perm key l l' H). reflexivity.
Qed.

Lemma status_and_tally_order_independent_witness :
  let a := Examples.issue HIGH "a.py" in
  let b := Examples.issue INFO "b.py" in
  Permutation [a; b] [b; a] /\
  approval_status [a; b] = approval_status [b; a] /\
  summary_by_category [a; b] = summary_by_category [b; a].
Proof.
  intros a b.
  assert (H : Permutation [a; b] [b; a]) by apply perm_swap.
  split; [exact H|].
  exact (status_and_tally_order_independent [a; b] [b; a] H).
Defined.

(** X15: the fallback review is consistent with its own, truncated lists:
    its status is CHANGES_REQUESTED exactly when it lists a critical
    blocker, APPROVED exactly when it lists no issue, and COMMENTED
    otherwise; it lists at most 10 blockers, all critical or high, at most
    50 issues, one or two strengths and three priority actions. *)
Theorem fallback_review_consistent : forall mentions_security all_issues analyses,
  let r := fallback_review mentions_security all_issues analyses in
  (AggregatedReview.approval_status r = "CHANGES_REQUESTED" <->
   AggregatedReview.critical_blockers r <> []) /\
  (AggregatedReview.approval_status r = "APPROVED" <->
   AggregatedReview.all_issues r = []) /\
  (AggregatedReview.approval_status r = "COMMENTED" <->
   AggregatedReview.critical_blockers r = [] /\
   AggregatedReview.all_issues r <> []) /\
  length (AggregatedReview.critical_blockers r) <= 10 /\
  Forall (fun issue => is_blocker issue = true)
    (AggregatedReview.critical_blockers r) /\
  length (AggregatedReview.all_issues r) <= 50 /\
  1 <= length (AggregatedReview.strengths r) <= 2 /\
  length (AggregatedReview.priority_actions r) = 3.
Proof.
  intros ms l a r. subst r. unfold fallback_review. simpl.
  rewrite approval_status_cases. unfold critical_blockers.
  rewrite <- nonempty_filter_existsb.
  assert (Hf : Forall (fun issue => is_blocker issue = true)
                 (take 10 (List.filter is_blocker l))).
  { apply List.Forall_forall. intros i Hi.
    apply in_take, filter_In in Hi as [_ Hi]. exact Hi. }
  assert (Hs : 1 <= length
                 ("Code changes submitted" ::
                  (if ms a then ["High security score"] else [])) <= 2).
  { destruct (ms a); simpl; lia. }
  assert (Hstatus :
    ((if nonempty (List.filter is_blocker l) then "CHANGES_REQUESTED"
      else if nonempty l then "COMMENTED" else "APPROVED")
       = "CHANGES_REQUESTED" <->
     take 10 (List.filter is_blocker l) <> []) /\
    ((if nonempty (List.filter is_blocker l) then "CHANGES_REQUESTED"
      else if nonempty l then "COMMENTED" else "APPROVED") = "APPROVED" <->
     take 50 l = []) /\
    ((if nonempty (List.filter is_blocker l) then "CHANGES_REQUESTED"
      else if nonempty l then "COMMENTED" else "APPROVED") = "COMMENTED" <->
     take 10 (List.filter is_blocker l) = [] /\ take 50 l <> [])).
  { destruct l as [|i l'].
    - simpl. split; [split; [discriminate|congruence]|].
      split; [split; reflexivity|].
      split; [discriminate|intros [_ H]; congruence].
    - remember (List.filter is_blocker (i :: l')) as B eqn:EB.
      clear EB Hf. destruct B as [|b bs]; simpl.
      + split; [split; [discriminate|congruence]|].
        split; [split; discriminate|].
        split; [intros _; split; [reflexivity|discriminate]|reflexivity].
      + split; [split; [discriminate|reflexivity]|].
        split; [split; discriminate|].
        split; [discriminate|intros [H _]; discriminate H]. }
  destruct Hstatus as (H1 & H2 & H3).
  split; [exact H1|]. split; [exact H2|]. split; [exact H3|].
  split; [rewrite length_take; lia|]. split; [exact Hf|].
  split; [rewrite length_take; lia|]. split; [exact Hs|reflexivity].
Qed.

Section ValidationFacts.

Lemma missing_required_fields_spec issue :
  missing_required_fields issue = false <-> has_required_fields issue.
Proof.
  unfold missing_required_fields, has_required_fields.
  destruct (String.eqb_spec (ReviewIssue.filename issue) EmptyString);
  destruct (String.eqb_spec (ReviewIssue.code_snippet issue) EmptyString);
  destruct (String.eqb_spec (ReviewIssue.issue_description issue) EmptyString);
    simpl; split; intros H; try discriminate; try tauto;
    destruct H as (? & ? & ?); contradiction.
Qed.

Lemma existsb_missing_spec l :
  existsb missing_required_fields l = false <-> Forall has_required_fields l.
Proof.
  induction l as [|i l IH]; simpl.
  - split; [constructor|reflexivity].
  - rewrite orb_false_iff, IH, missing_required_fields_spec. split.
    + intros [H1 H2]. constructor; assumption.
    + intros H. inversion H; subst. split; assumption.
Qed.

Lemma accepted_spec r :
  (Forall has_required_fields (AggregatedReview.critical_blockers r) /\
   Forall has_required_fields (AggregatedReview.all_issues r) ->
   accepted (Returned r) = Some r) /\
  (~ (Forall has_required_fields (AggregatedReview.critical_blockers r) /\
      Forall has_required_fields (AggregatedReview.all_issues r)) ->
   accepted (Returned r) = None).
Proof.
  unfold accepted.
  destruct (existsb missing_required_fields
              (AggregatedReview.critical_blockers r)) eqn:E1.
  { split; [|reflexivity]. intros [H _].
    apply existsb_missing_spec in H. congruence. }
  destruct (existsb missing_required_fields (AggregatedReview.all_issues r))
    eqn:E2.
  { split; [|reflexivity]. intros [_ H].
    apply existsb_missing_spec in H. congruence. }
  split; [reflexivity|].
  intros H. exfalso. apply H. split; apply existsb_missing_spec; assumption.
Qed.

End ValidationFacts.

(** X16: an answer of the aggregation chain is returned as the review
    exactly when every issue it lists, among the blockers and among all
    issues, has a non-empty filename, code snippet and description; an
    answer with an issue that lacks one of them is discarded for the
    fallback review, as is a failure of the chain. *)
Theorem aggregation_answer_checked :
  forall aggregator_chain mentions_security all_issues analyses,
  let answer := aggregator_chain (aggregation_context all_issues analyses) in
  let review :=
    _generate_aggregated_review aggregator_chain mentions_security all_issues
      analyses in
  (forall r,
     answer = Returned r ->
     Forall has_required_fields (AggregatedReview.critical_blockers r) /\
     Forall has_required_fields (AggregatedReview.all_issues r) ->
     review = r) /\
  (forall r,
     answer = Returned r ->
     ~ (Forall has_required_fields (AggregatedReview.critical_blockers r) /\
        Forall has_required_fields (AggregatedReview.all_issues r)) ->
     review = fallback_review mentions_security all_issues analyses) /\
  (answer = Raised ->
   review = fallback_review mentions_security all_issues analyses).
Proof.
  intros agg ms l a answer review. subst answer review.
  unfold _generate_aggregated_review.
  split; [|split].
  - intros r -> H. rewrite (proj1 (accepted_spec r) H). reflexivity.
  - intros r -> H. rewrite (proj2 (accepted_spec r) H). reflexivity.
  - intros ->. reflexivity.
Qed.

Lemma aggregation_answer_checked_witness :
  let nameless :=
    ReviewIssue.mk LOGIC LOW None EmptyString "x" "unused" "remove" "noise" in
  let incomplete (c : AggregationContext.t) :=
    Returned (AggregatedReview.mk "Fine." "APPROVED" [] [nameless] [] ∅ []) in
  (Examples.demanding_aggregator (aggregation_context [] Analyses.empty) =
     Returned (AggregatedReview.mk "Needs work." "CHANGES_REQUESTED"
                 [Examples.issue HIGH "a.py"] [Examples.issue HIGH "a.py"] []
                 ∅ ["Fix a.py"]) /\
   AggregatedReview.approval_status
     (_generate_aggregated_review Examples.demanding_aggregator
        Examples.no_mention [] Analyses.empty) = "CHANGES_REQUESTED") /\
  (~ (Forall has_required_fields [] /\ Forall has_required_fields [nameless]) /\
   _generate_aggregated_review incomplete Examples.no_mention [nameless]
     Analyses.empty =
   fallback_review Examples.no_mention [nameless] Analyses.empty) /\
  (Examples.failing_aggregator (aggregation_context [] Analyses.empty) = Raised /\
   _generate_aggregated_review Examples.failing_aggregator Examples.no_mention
     [] Analyses.empty =
   fallback_review Examples.no_mention [] Analyses.empty).
Proof.
  intros nameless incomplete.
  assert (Hbad : ~ (Forall has_required_fields [] /\
                    Forall has_required_fields [nameless])).
  { intros [_ H]. inversion H as [|? ? [Hn _] _]. apply Hn. reflexivity. }
  split; [|split].
  - split; [reflexivity|].
    rewrite (proj1 (aggregation_answer_checked Examples.demanding_aggregator
                      Examples.no_mention [] Analyses.empty) _ eq_refl).
    + reflexivity.
    + split; repeat constructor; discriminate.
  - split; [exact Hbad|].
    exact (proj1 (proj2 (aggregation_answer_checked incomplete
                           Examples.no_mention [nameless] Analyses.empty))
             _ eq_refl Hbad).
  - split; [reflexivity|].
    exact (proj2 (proj2 (aggregation_answer_checked
                           Examples.failing_aggregator Examples.no_mention []
                           Analyses.empty)) eq_refl).
Defined.

(** X17: when every model call fails (the chain of each of the five
    analyzers and the aggregation chain), the review of a file list in
    whose patches the lines starting with [@@] are ASCII text with numbers
    of at most 4300 digits returns; the review returned is the fallback
    with status APPROVED, no issue, no blocker and an empty tally, and
    every analyzer's sequence holds its default result once per file that
    is not deleted. *)
Theorem review_when_every_model_call_fails : forall mentions_security files,
  forallb (fun f => plain_hunk_headers (FileChange.patch f)) (live_files files)
    = true ->
  let n := length (live_files files) in
  exists result,
    Raising.review_pr (own_logic (fun _ => Raised))
      (own_security (fun _ => Raised)) (own_performance (fun _ => Raised))
      (own_readability (fun _ => Raised)) (own_testing (fun _ => Raised))
      (fun _ => Raised) mentions_security files = Returned result /\
    ReviewResult.agent_analyses result =
      Analyses.mk (repeat (Some LogicAnalysisAgent.default) n)
        (repeat (Some SecurityAnalysisAgent.default) n)
        (repeat (Some PerformanceAnalysisAgent.default) n)
        (repeat (Some ReadabilityAnalysisAgent.default) n)
        (repeat (Some TestingAnalysisAgent.default) n) /\
    AggregatedReview.approval_status (ReviewResult.review result)
      = "APPROVED" /\
    AggregatedReview.all_issues (ReviewResult.review result) = [] /\
    AggregatedReview.critical_blockers (ReviewResult.review result) = [] /\
    AggregatedReview.summary_by_category (ReviewResult.review result) = ∅.
Proof.
  intros ms fs Hplain n.
  set (result :=
         review_pr (own_logic (fun _ => Raised)) (own_security (fun _ => Raised))
           (own_performance (fun _ => Raised))
           (own_readability (fun _ => Raised)) (own_testing (fun _ => Raised))
           (fun _ => Raised) ms fs).
  exists result. split; [apply raising_review_pr_returns, Hplain|].
  clear Hplain.
  assert (Hrep : forall (A : Type) (d : A),
             map (fun _ : FileChange.t => Some d) (live_files fs) =
             repeat (Some d) n).
  { intros A d. subst n. induction (live_files fs) as [|f l IH];
      [reflexivity|]. simpl. rewrite IH. reflexivity. }
  assert (Ha : ReviewResult.agent_analyses result =
               Analyses.mk (repeat (Some LogicAnalysisAgent.default) n)
                 (repeat (Some SecurityAnalysisAgent.default) n)
                 (repeat (Some PerformanceAnalysisAgent.default) n)
                 (repeat (Some ReadabilityAnalysisAgent.default) n)
                 (repeat (Some TestingAnalysisAgent.default) n)).
  { subst result. unfold review_pr. simpl ReviewResult.agent_analyses.
    rewrite analyze_files_entries. unfold entries. simpl.
    rewrite <- !Hrep. reflexivity. }
  assert (Hnone : forall (A : Type) (field : A -> list ReviewIssue.t) (d : A)
                         (k : nat),
             field d = [] ->
             flat_map (findings_of field) (repeat (Some d) k) = []).
  { intros A field d k Hd. induction k as [|k IH]; [reflexivity|].
    simpl. rewrite Hd, IH. reflexivity. }
  assert (Hi : _collect_all_issues (ReviewResult.agent_analyses result) = []).
  { rewrite Ha, collect_all_issues_flat. simpl.
    rewrite !Hnone by reflexivity. reflexivity. }
  split; [exact Ha|].
  subst result. unfold review_pr in *. simpl ReviewResult.review.
  simpl ReviewResult.agent_analyses in Hi.
  unfold _generate_aggregated_review. simpl accepted. cbv iota.
  rewrite Hi. repeat split; reflexivity.
Qed.

Lemma review_when_every_model_call_fails_witness :
  forallb (fun f => plain_hunk_headers (FileChange.patch f))
    (live_files Examples.two_files) = true /\
  exists result,
    Raising.review_pr (own_logic (fun _ => Raised))
      (own_security (fun _ => Raised)) (own_performance (fun _ => Raised))
      (own_readability (fun _ => Raised)) (own_testing (fun _ => Raised))
      (fun _ => Raised) Examples.no_mention Examples.two_files
      = Returned result /\
    Analyses.security (ReviewResult.agent_analyses result) =
      [Some SecurityAnalysisAgent.default; Some SecurityAnalysisAgent.default]
    /\
    AggregatedReview.approval_status (ReviewResult.review result) = "APPROVED".
Proof.
  assert (Hp : forallb (fun f => plain_hunk_headers (FileChange.patch f))
                 (live_files Examples.two_files) = true) by reflexivity.
  destruct (review_when_every_model_call_fails Examples.no_mention
              Examples.two_files Hp) as (result & Hr & Ha & Hs & _).
  split; [exact Hp|]. exists result. split; [exact Hr|]. split; [|exact Hs].
  exact (eq_trans (f_equal Analyses.security Ha) eq_refl).
Defined.

(** X18: the keys of the tally are category names and its counts are
    positive: a key of [summary_by_category] is the printed name of the
    category of some tallied finding and maps to at least 1 and at most
    the number of findings; the tally has at most 7 keys. *)
Theorem summary_keys_are_categories : forall all_issues,
  (forall key n,
     summary_by_category all_issues !! key = Some n ->
     1 <= n <= length all_issues /\
     In key category_values /\
     exists issue,
       In issue all_issues /\
       category_value (ReviewIssue.category issue) = key) /\
  size (summary_by_category all_issues) <= 7.
Proof.
  intros l.
  assert (Hkey : forall key n,
             summary_by_category l !! key = Some n ->
             1 <= n <= length l /\
             In key category_values /\
             exists issue,
               In issue l /\
               category_value (ReviewIssue.category issue) = key).
  { intros key n H. rewrite lookup_summary in H.
    destruct (Nat.eqb_spec (category_count key l) 0) as [|Hn]; [discriminate|].
    injection H as <-.
    pose proof (category_count_le key l).
    destruct (category_count_positive key l Hn) as (i & Hi & Hk).
    split; [lia|]. split; [|exists i; auto].
    rewrite <- Hk. apply category_value_listed. }
  split; [exact Hkey|].
  assert (Hdom : dom (summary_by_category l) ⊆
                 (list_to_set category_values : gset string)).
  { intros key Hin. apply elem_of_dom in Hin as [n Hn].
    apply elem_of_list_to_set, list_elem_of_In.
    apply (Hkey key n Hn). }
  rewrite <- size_dom.
  etransitivity; [apply (subseteq_size _ _ Hdom)|].
  vm_compute. lia.
Qed.

(** * Properties of the GitHub client and of the request handlers *)

Section UrlFacts.

Lemma span_segment_append seg r :
  contains "/" seg = false ->
  span_segment (seg +:+ String "/" r) = (seg, String "/" r).
Proof.
  induction seg as [|c seg IH]; intros H; [reflexivity|].
  simpl in H. apply orb_false_elim in H as [Hc H].
  rewrite append_cons. simpl. rewrite Hc, (IH H). reflexivity.
Qed.

Lemma span_segment_spec s : forall seg rest,
  span_segment s = (seg, rest) ->
  s = seg +:+ rest /\ contains "/" seg = false.
Proof.
  induction s as [|c s IH]; intros seg rest H; simpl in H.
  - injection H as <- <-. split; reflexivity.
  - destruct (Ascii.eqb c "/") eqn:Hc.
    + injection H as <- <-. split; reflexivity.
    + destruct (span_segment s) as [seg' rest'].
      injection H as <- <-. destruct (IH seg' rest' eq_refl) as [-> Hs].
      split; [reflexivity|]. simpl. rewrite Hc. exact Hs.
Qed.

Lemma digits_prefix_spec s :
  all_digits (digits_prefix s) = true /\
  exists rest, s = digits_prefix s +:+ rest.
Proof.
  induction s as [|c s [IH1 [rest IH2]]]; simpl.
  - split; [reflexivity|]. exists EmptyString. reflexivity.
  - destruct (is_digit c) eqn:Hc; simpl.
    + rewrite Hc, IH1. split; [reflexivity|].
      exists rest. rewrite append_cons. f_equal. exact IH2.
    + split; [reflexivity|]. exists (String c s). reflexivity.
Qed.

Lemma match_pr_here_canonical owner repo n rest :
  owner <> EmptyString -> contains "/" owner = false ->
  repo <> EmptyString -> contains "/" repo = false ->
  all_digits n = true -> n <> EmptyString ->
  starts_with_digit rest = false ->
  match_pr_here ("github.com/" +:+ owner +:+ "/" +:+ repo +:+ "/pull/" +:+
                 n +:+ rest) =
  Some (ParsedPR.mk owner repo n).
Proof.
  intros Ho1 Ho2 Hr1 Hr2 Hn1 Hn2 Hrest. unfold match_pr_here.
  rewrite strip_prefix_append.
  change ("/" +:+ repo +:+ "/pull/" +:+ n +:+ rest)
    with (String "/" (repo +:+ "/pull/" +:+ n +:+ rest)).
  rewrite (span_segment_append owner _ Ho2).
  destruct owner as [|c owner]; [contradiction|]. simpl String.eqb.
  change (strip_prefix "/" (String "/" (repo +:+ "/pull/" +:+ n +:+ rest)))
    with (Some (repo +:+ "/pull/" +:+ n +:+ rest)).
  cbv iota.
  change ("/pull/" +:+ n +:+ rest) with (String "/" ("pull/" +:+ n +:+ rest)).
  rewrite (span_segment_append repo _ Hr2).
  destruct repo as [|d repo]; [contradiction|]. simpl String.eqb.
  change (String "/" ("pull/" +:+ n +:+ rest)) with ("/pull/" +:+ n +:+ rest).
  rewrite strip_prefix_append, (digits_prefix_append n rest Hn1 Hrest).
  destruct n; [contradiction|]. reflexivity.
Qed.

Lemma match_pr_here_not_g c s :
  Ascii.eqb c "g" = false -> match_pr_here (String c s) = None.
Proof. intros H. unfold match_pr_here. simpl. rewrite H. reflexivity. Qed.

Lemma parse_pr_url_skip pre s :
  contains "g" pre = false -> parse_pr_url (pre +:+ s) = parse_pr_url s.
Proof.
  induction pre as [|c pre IH]; intros H; [reflexivity|].
  simpl in H. apply orb_false_elim in H as [Hc H].
  rewrite append_cons. simpl parse_pr_url at 1.
  rewrite (match_pr_here_not_g c _ Hc). apply IH, H.
Qed.

Lemma match_pr_here_sound s p :
  match_pr_here s = Some p ->
  (exists rest,
     s = "github.com/" +:+ ParsedPR.owner p +:+ "/" +:+ ParsedPR.repo p +:+
         "/pull/" +:+ ParsedPR.pr_number p +:+ rest) /\
  ParsedPR.owner p <> EmptyString /\ contains "/" (ParsedPR.owner p) = false /\
  ParsedPR.repo p <> EmptyString /\ contains "/" (ParsedPR.repo p) = false /\
  ParsedPR.pr_number p <> EmptyString /\
  all_digits (ParsedPR.pr_number p) = true.
Proof.
  unfold match_pr_here. intros H.
  destruct (strip_prefix "github.com/" s) as [s1|] eqn:E1; [|discriminate].
  apply strip_prefix_spec in E1.
  destruct (span_segment s1) as [owner s2] eqn:E2.
  apply span_segment_spec in E2 as [-> Ho].
  destruct (String.eqb_spec owner EmptyString) as [|Hone]; [discriminate|].
  destruct (strip_prefix "/" s2) as [s3|] eqn:E3; [|discriminate].
  apply strip_prefix_spec in E3.
  destruct (span_segment s3) as [repo s4] eqn:E4.
  apply span_segment_spec in E4 as [-> Hr].
  destruct (String.eqb_spec repo EmptyString) as [|Hrne]; [discriminate|].
  destruct (strip_prefix "/pull/" s4) as [s5|] eqn:E5; [|discriminate].
  apply strip_prefix_spec in E5.
  destruct (String.eqb_spec (digits_prefix s5) EmptyString) as [|Hnne];
    [discriminate|].
  injection H as <-. simpl.
  destruct (digits_prefix_spec s5) as [Hd [rest Hrest]].
  split; [|auto 10].
  exists rest. rewrite E1, E3, E5. rewrite Hrest at 1. reflexivity.
Qed.

Lemma parse_pr_url_unfold url :
  parse_pr_url url =
  match match_pr_here url with
  | Some parsed => Some parsed
  | None =>
      match url with
      | EmptyString => None
      | String _ r => parse_pr_url r
      end
  end.
Proof. destruct url; reflexivity. Qed.

End UrlFacts.

(** X19: [parse_pr_url] reads a pull-request address back: for a prefix
    without the letter [g] (such as [https://]), an owner and a repository
    name that are not empty and hold no slash, a number written in ASCII
    digits and a rest of ASCII characters that does not begin with a
    digit, the address [prefix github.com/owner/repo/pull/number rest]
    parses to that owner, repository and number. *)
Theorem parse_pr_url_reads_canonical_address :
  forall pre owner repo n rest,
  contains "g" pre = false ->
  owner <> EmptyString -> contains "/" owner = false ->
  repo <> EmptyString -> contains "/" repo = false ->
  all_digits n = true -> n <> EmptyString ->
  all_ascii rest = true -> starts_with_digit rest = false ->
  parse_pr_url (pre +:+ "github.com/" +:+ owner +:+ "/" +:+ repo +:+
                "/pull/" +:+ n +:+ rest) =
  Some (ParsedPR.mk owner repo n).
Proof.
  intros pre owner repo n rest Hpre Ho1 Ho2 Hr1 Hr2 Hn1 Hn2 _ Hrest.
  rewrite (parse_pr_url_skip pre _ Hpre).
  pose proof (match_pr_here_canonical owner repo n rest Ho1 Ho2 Hr1 Hr2 Hn1
                Hn2 Hrest) as Hm.
  rewrite parse_pr_url_unfold, Hm. reflexivity.
Qed.

Lemma parse_pr_url_reads_canonical_address_witness :
  contains "g" "https://" = false /\
  "octo" <> EmptyString /\ contains "/" "octo" = false /\
  "hello-world" <> EmptyString /\ contains "/" "hello-world" = false /\
  all_digits "123" = true /\ "123" <> EmptyString /\
  all_ascii "/files" = true /\ starts_with_digit "/files" = false /\
  parse_pr_url ("https://" +:+ "github.com/" +:+ "octo" +:+ "/" +:+
                "hello-world" +:+ "/pull/" +:+ "123" +:+ "/files") =
  Some (ParsedPR.mk "octo" "hello-world" "123").
Proof.
  repeat (split; [first [reflexivity | discriminate]|]).
  apply parse_pr_url_reads_canonical_address;
    first [reflexivity | discriminate].
Defined.

(** X20: whatever [parse_pr_url] returns for an address of ASCII
    characters was found in the address: the address holds
    [github.com/owner/repo/pull/number]; owner and repository are not empty
    and hold no slash; the number is a non-empty string of digits, not
    longer than the address. *)
Theorem parse_pr_url_result_in_address : forall url p,
  all_ascii url = true ->
  parse_pr_url url = Some p ->
  (exists pre rest,
     url = pre +:+ "github.com/" +:+ ParsedPR.owner p +:+ "/" +:+
           ParsedPR.repo p +:+ "/pull/" +:+ ParsedPR.pr_number p +:+ rest) /\
  ParsedPR.owner p <> EmptyString /\ contains "/" (ParsedPR.owner p) = false /\
  ParsedPR.repo p <> EmptyString /\ contains "/" (ParsedPR.repo p) = false /\
  ParsedPR.pr_number p <> EmptyString /\
  all_digits (ParsedPR.pr_number p) = true /\
  String.length (ParsedPR.pr_number p) <= String.length url.
Proof.
  intros url p _ Hparse.
  assert (H : (exists pre rest,
                 url = pre +:+ "github.com/" +:+ ParsedPR.owner p +:+ "/" +:+
                       ParsedPR.repo p +:+ "/pull/" +:+ ParsedPR.pr_number p
                       +:+ rest) /\
              ParsedPR.owner p <> EmptyString /\
              contains "/" (ParsedPR.owner p) = false /\
              ParsedPR.repo p <> EmptyString /\
              contains "/" (ParsedPR.repo p) = false /\
              ParsedPR.pr_number p <> EmptyString /\
              all_digits (ParsedPR.pr_number p) = true).
  { revert Hparse. induction url as [|c url IH]; intros H.
    - discriminate H.
    - rewrite parse_pr_url_unfold in H.
      destruct (match_pr_here (String c url)) as [q|] eqn:E.
      + injection H as ->.
        destruct (match_pr_here_sound _ _ E) as [[rest Hrest] Hp].
        split; [|exact Hp]. exists EmptyString, rest. exact Hrest.
      + destruct (IH H) as [(pre & rest & Hurl) Hp].
        split; [|exact Hp]. exists (String c pre), rest.
        rewrite append_cons. f_equal. exact Hurl. }
  destruct H as ((pre & rest & Hurl) & Ho1 & Ho2 & Hr1 & Hr2 & Hn1 & Hn2).
  split; [exists pre, rest; exact Hurl|].
  repeat (split; [assumption|]).
  rewrite Hurl, !length_append. lia.
Qed.

Lemma parse_pr_url_result_in_address_witness :
  all_ascii "see github.com/a/b/pull/7?diff=split" = true /\
  parse_pr_url "see github.com/a/b/pull/7?diff=split" =
    Some (ParsedPR.mk "a" "b" "7") /\
  parse_pr_url "https://github.com/a/b/issues/7" = None /\
  all_digits (ParsedPR.pr_number (ParsedPR.mk "a" "b" "7")) = true.
Proof.
  split; [reflexivity|]. split; [reflexivity|]. split; [reflexivity|].
  apply (parse_pr_url_result_in_address
           "see github.com/a/b/pull/7?diff=split" (ParsedPR.mk "a" "b" "7"));
    reflexivity.
Defined.

Section HandlerFacts.

Variable Dict : Type.
Variable dict_truthy : Dict -> bool.
Variable build_metadata : Dict -> PRMetadata.t + string.
Variable fetch_pr_metadata : string -> string -> nat -> option PRMetadata.t.
Variable fetch_pr_files : string -> string -> nat -> list FileChange.t.
Variable orchestrator_review_pr : list FileChange.t -> ReviewResult.t + string.

Lemma respond_reviews pr_metadata files resp :
  Main.respond orchestrator_review_pr pr_metadata files = Responds resp ->
  exists result,
    orchestrator_review_pr files = inl result /\
    resp = PRReviewResponse.mk pr_metadata (ReviewResult.review result)
             (Main.serialize (ReviewResult.agent_analyses result)).
Proof.
  unfold Main.respond. destruct (orchestrator_review_pr files) as [result|m];
    [|discriminate].
  intros H. injection H as <-. exists result. auto.
Qed.

Lemma process_review_terminal request :
  Main.process_review Dict dict_truthy build_metadata fetch_pr_metadata
    fetch_pr_files orchestrator_review_pr request <> Processing.
Proof.
  unfold Main.process_review.
  destruct (Main.truthy (PRReviewRequest.github_url request)).
  - destruct (parse_pr_url _) as [p|]; [|discriminate].
    destruct (fetch_pr_files _ _ _); [discriminate|].
    destruct (orchestrator_review_pr _); discriminate.
  - destruct (Main.truthy (PRReviewRequest.diff_content request));
      [|discriminate].
    destruct (PRReviewRequest.pr_metadata request) as [d|].
    + destruct (dict_truthy d).
      * destruct (build_metadata d); [|discriminate].
        destruct (parse_diff _); [discriminate|].
        destruct (orchestrator_review_pr _); discriminate.
      * destruct (parse_diff _); [discriminate|].
        destruct (orchestrator_review_pr _); discriminate.
    + destruct (parse_diff _); [discriminate|].
      destruct (orchestrator_review_pr _); discriminate.
Qed.

End HandlerFacts.

(** X21: the review handler never reviews nothing: every response it
    returns carries the review of a file list that is not empty, together
    with the serialized results of that same run. *)
Theorem review_handler_reviews_some_file :
  forall Dict dict_truthy build_metadata fetch_pr_metadata fetch_pr_files
         orchestrator_review_pr (request : PRReviewRequest.t Dict) resp,
  Main.review_pr Dict dict_truthy build_metadata fetch_pr_metadata
    fetch_pr_files orchestrator_review_pr request = Responds resp ->
  exists files result,
    files <> [] /\
    orchestrator_review_pr files = inl result /\
    PRReviewResponse.review resp = ReviewResult.review result /\
    PRReviewResponse.agent_analyses resp =
      Main.serialize (ReviewResult.agent_analyses result).
Proof.
  intros Dict dt bm fm ff orp request resp. unfold Main.review_pr.
  assert (Hr : forall m files,
             files <> [] ->
             Main.respond orp m files = Responds resp ->
             exists files result,
               files <> [] /\ orp files = inl result /\
               PRReviewResponse.review resp = ReviewResult.review result /\
               PRReviewResponse.agent_analyses resp =
                 Main.serialize (ReviewResult.agent_analyses result)).
  { intros m files Hne H.
    destruct (respond_reviews orp m files resp H) as (result & Ho & ->).
    exists files, result. auto. }
  destruct (negb (Main.truthy (PRReviewRequest.github_url request)) &&
            negb (Main.truthy (PRReviewRequest.diff_content request)));
    [discriminate|].
  destruct (Main.truthy (PRReviewRequest.github_url request)).
  - destruct (parse_pr_url _) as [p|]; [|discriminate].
    destruct (fm _ _ _) as [m|]; [|discriminate].
    destruct (ff _ _ _) as [|f fs] eqn:E; [discriminate|].
    apply Hr. discriminate.
  - destruct (Main.truthy (PRReviewRequest.diff_content request));
      [|discriminate].
    destruct (parse_diff _) as [|f fs] eqn:E; [discriminate|].
    destruct (PRReviewRequest.pr_metadata request) as [d|].
    + destruct (dt d).
      * destruct (bm d); [|discriminate]. apply Hr. discriminate.
      * apply Hr. discriminate.
    + apply Hr. discriminate.
Qed.

Lemma review_handler_reviews_some_file_witness :
  let orp (files : list FileChange.t) : ReviewResult.t + string :=
    inl (ReviewOrchestrator.review_pr Examples.quiet_logic
           Examples.quiet_security Examples.quiet_performance
           Examples.quiet_readability Examples.quiet_testing
           Examples.failing_aggregator Examples.no_mention files) in
  let request : PRReviewRequest.t unit :=
    PRReviewRequest.mk None
      (Some ("diff --git a/f b/f" +:+ String nl "+x")) None in
  exists resp,
    Main.review_pr unit (fun _ => false) (fun _ => inr "unused")
      (fun _ _ _ => None) (fun _ _ _ => []) orp request = Responds resp /\
    exists files result,
      files <> [] /\ orp files = inl result /\
      PRReviewResponse.review resp = ReviewResult.review result /\
      PRReviewResponse.agent_analyses resp =
        Main.serialize (ReviewResult.agent_analyses result).
Proof.
  intros orp request.
  eexists. split; [reflexivity|].
  apply (review_handler_reviews_some_file unit (fun _ => false)
           (fun _ => inr "unused") (fun _ _ _ => None) (fun _ _ _ => []) orp
           request).
  reflexivity.
Defined.

(** X22: a request that carries only diff text none of whose lines starts
    with [diff --git] is turned down before any analysis: the review
    handler raises 400 with [Could not parse diff content], and the
    background task stores a failure, never a result. *)
Theorem header_free_diff_is_rejected :
  forall Dict dict_truthy build_metadata fetch_pr_metadata fetch_pr_files
         orchestrator_review_pr github_url text pr_metadata,
  Main.truthy github_url = false ->
  text <> EmptyString ->
  forallb (fun l => negb (is_file_header l)) (split nl text) = true ->
  let request : PRReviewRequest.t Dict :=
    PRReviewRequest.mk github_url (Some text) pr_metadata in
  Main.review_pr Dict dict_truthy build_metadata fetch_pr_metadata
    fetch_pr_files orchestrator_review_pr request =
    HTTPException 400 "Could not parse diff content" /\
  exists error,
    Main.process_review Dict dict_truthy build_metadata fetch_pr_metadata
      fetch_pr_files orchestrator_review_pr request = Failed error.
Proof.
  intros Dict dt bm fm ff orp url text md Hurl Htext Hlines request.
  assert (Hp : parse_diff text = []).
  { rewrite parse_diff_sections, sections_no_header; auto. }
  assert (Ht : Main.truthy (Some text) = true).
  { destruct text; [contradiction|reflexivity]. }
  subst request. unfold Main.review_pr, Main.process_review.
  cbn [PRReviewRequest.github_url PRReviewRequest.diff_content
       PRReviewRequest.pr_metadata Main.text_of].
  rewrite Hurl, Ht, Hp. split; [reflexivity|].
  destruct md as [d|]; [|eexists; reflexivity].
  destruct (dt d); [|eexists; reflexivity].
  destruct (bm d); eexists; reflexivity.
Qed.

Lemma header_free_diff_is_rejected_witness :
  let orp (files : list FileChange.t) : ReviewResult.t + string :=
    inr "not reached" in
  let request : PRReviewRequest.t unit :=
    PRReviewRequest.mk None (Some ("+x" +:+ String nl "-y")) None in
  Main.truthy None = false /\
  "+x" +:+ String nl "-y" <> EmptyString /\
  forallb (fun l => negb (is_file_header l))
    (split nl ("+x" +:+ String nl "-y")) = true /\
  Main.review_pr unit (fun _ => false) (fun _ => inr "unused")
    (fun _ _ _ => None) (fun _ _ _ => []) orp request =
    HTTPException 400 "Could not parse diff content" /\
  Main.process_review unit (fun _ => false) (fun _ => inr "unused")
    (fun _ _ _ => None) (fun _ _ _ => []) orp request =
    Failed "Could not process PR".
Proof.
  intros orp request.
  split; [reflexivity|]. split; [discriminate|]. split; [reflexivity|].
  split; [|reflexivity].
  apply (header_free_diff_is_rejected unit (fun _ => false)
           (fun _ => inr "unused") (fun _ _ _ => None) (fun _ _ _ => []) orp
           None ("+x" +:+ String nl "-y") None);
    [reflexivity|discriminate|reflexivity].
Defined.

(** X23: the address wins over the diff text: when a request carries a
    non-empty [github_url], the outcome of the review handler and of the
    background task does not depend on its [diff_content] and
    [pr_metadata]. *)
Theorem github_url_takes_precedence :
  forall Dict dict_truthy build_metadata fetch_pr_metadata fetch_pr_files
         orchestrator_review_pr github_url diff1 meta1 diff2 meta2,
  Main.truthy github_url = true ->
  Main.review_pr Dict dict_truthy build_metadata fetch_pr_metadata
    fetch_pr_files orchestrator_review_pr
    (PRReviewRequest.mk github_url diff1 meta1) =
  Main.review_pr Dict dict_truthy build_metadata fetch_pr_metadata
    fetch_pr_files orchestrator_review_pr
    (PRReviewRequest.mk github_url diff2 meta2) /\
  Main.process_review Dict dict_truthy build_metadata fetch_pr_metadata
    fetch_pr_files orchestrator_review_pr
    (PRReviewRequest.mk github_url diff1 meta1) =
  Main.process_review Dict dict_truthy build_metadata fetch_pr_metadata
    fetch_pr_files orchestrator_review_pr
    (PRReviewRequest.mk github_url diff2 meta2).
Proof.
  intros Dict dt bm fm ff orp url d1 m1 d2 m2 Hurl.
  unfold Main.review_pr, Main.process_review.
  cbn [PRReviewRequest.github_url PRReviewRequest.diff_content
       PRReviewRequest.pr_metadata Main.text_of].
  rewrite Hurl. split; reflexivity.
Qed.

Lemma github_url_takes_precedence_witness :
  let orp (files : list FileChange.t) : ReviewResult.t + string :=
    inr "not reached" in
  Main.truthy (Some "https://example.org/x") = true /\
  Main.review_pr unit (fun _ => false) (fun _ => inr "unused")
    (fun _ _ _ => None) (fun _ _ _ => []) orp
    (PRReviewRequest.mk (Some "https://example.org/x")
       (Some ("diff --git a/f b/f" +:+ String nl "+x")) None) =
  HTTPException 400 "Invalid GitHub PR URL format".
Proof.
  intros orp. split; [reflexivity|].
  rewrite (proj1 (github_url_takes_precedence unit (fun _ => false)
                    (fun _ => inr "unused") (fun _ _ _ => None)
                    (fun _ _ _ => []) orp (Some "https://example.org/x")
                    (Some ("diff --git a/f b/f" +:+ String nl "+x")) None
                    None None eq_refl)).
  reflexivity.
Defined.

(** X24: the response of the review handler leaves the null placeholders
    out: the serialized sequence of an analyzer holds the results of its
    calls that returned, in file order.  An analyzer whose every call
    raised is reported with an empty sequence, and an analyzer none of
    whose calls raised with one result per file that is not deleted. *)
Theorem response_leaves_out_failed_calls :
  forall logic_agent security_agent performance_agent readability_agent
         testing_agent aggregator_chain mentions_security files,
  let serialized :=
    Main.serialize
      (ReviewResult.agent_analyses
         (ReviewOrchestrator.review_pr logic_agent security_agent
            performance_agent readability_agent testing_agent
            aggregator_chain mentions_security files)) in
  (SerializedAnalyses.logic serialized = omap id (entries logic_agent files) /\
   SerializedAnalyses.security serialized =
     omap id (entries security_agent files) /\
   SerializedAnalyses.performance serialized =
     omap id (entries performance_agent files) /\
   SerializedAnalyses.readability serialized =
     omap id (entries readability_agent files) /\
   SerializedAnalyses.testing serialized =
     omap id (entries testing_agent files)) /\
  (forall (A : Type) (agent : AnalysisContext.t -> call_result A),
     (forall c, agent c = Raised) ->
     omap id (entries agent files) = []) /\
  (forall (A : Type) (agent : AnalysisContext.t -> call_result A),
     (forall c, agent c <> Raised) ->
     length (omap id (entries agent files)) = length (live_files files)).
Proof.
  intros la sa pa ra ta agg ms fs serialized. subst serialized.
  unfold ReviewOrchestrator.review_pr. simpl ReviewResult.agent_analyses.
  rewrite analyze_files_entries. unfold Main.serialize. simpl.
  split; [repeat split; reflexivity|]. split.
  - intros A agent Hr. unfold entries.
    induction (live_files fs) as [|f l IH]; [reflexivity|].
    simpl. rewrite Hr. simpl. exact IH.
  - intros A agent Hr. unfold entries.
    induction (live_files fs) as [|f l IH]; [reflexivity|].
    simpl. specialize (Hr (analysis_context f)).
    destruct (agent (analysis_context f)); [|contradiction].
    simpl. f_equal. exact IH.
Qed.

Lemma response_leaves_out_failed_calls_witness :
  (forall c, Examples.failing_security c = Raised) /\
  (forall c, Examples.quiet_logic c <> Raised) /\
  SerializedAnalyses.security
    (Main.serialize
       (ReviewResult.agent_analyses
          (ReviewOrchestrator.review_pr Examples.quiet_logic
             Examples.failing_security Examples.quiet_performance
             Examples.quiet_readability Examples.quiet_testing
             Examples.failing_aggregator Examples.no_mention
             Examples.three_files))) = [] /\
  length (omap id (entries Examples.quiet_logic Examples.three_files)) = 3.
Proof.
  pose proof (response_leaves_out_failed_calls Examples.quiet_logic
                Examples.failing_security Examples.quiet_performance
                Examples.quiet_readability Examples.quiet_testing
                Examples.failing_aggregator Examples.no_mention
                Examples.three_files) as ((_ & Hs & _) & Hnone & Hsome).
  split; [intros c; reflexivity|]. split; [intros c; discriminate|].
  split.
  - rewrite Hs. apply Hnone. intros c. reflexivity.
  - rewrite (Hsome _ Examples.quiet_logic); [reflexivity|].
    intros c. discriminate.
Defined.

(** X25: the life of an asynchronous job.  Once registered, a job reads as
    processing; once its background task has run, it reads as completed
    or failed and never again as processing, and a completed job holds the
    review of a file list that is not empty; the entries of the other jobs
    are left as they were; a job that was never registered reads as 404
    [Job not found]. *)
Theorem job_lifecycle :
  forall Dict dict_truthy build_metadata fetch_pr_metadata fetch_pr_files
         orchestrator_review_pr (request : PRReviewRequest.t Dict) job_id
         review_results,
  let process :=
    Main.process_review_async Dict dict_truthy build_metadata
      fetch_pr_metadata fetch_pr_files orchestrator_review_pr in
  let started := Main.review_pr_async job_id review_results in
  let finished := process job_id request started in
  Main.get_review_status job_id started = Responds Processing /\
  (exists status,
     Main.get_review_status job_id finished = Responds status /\
     status <> Processing /\
     (forall pr_metadata result,
        status = Completed pr_metadata result ->
        exists files,
          files <> [] /\ orchestrator_review_pr files = inl result)) /\
  (forall other,
     other <> job_id ->
     Main.get_review_status other finished =
     Main.get_review_status other review_results) /\
  (forall unknown,
     review_results !! unknown = None ->
     Main.get_review_status unknown review_results =
     HTTPException 404 "Job not found").
Proof.
  intros Dict dt bm fm ff orp request job_id store process started finished.
  subst process started finished.
  unfold Main.get_review_status, Main.process_review_async,
    Main.review_pr_async.
  split; [rewrite lookup_insert_eq; reflexivity|]. split; [|split].
  - rewrite lookup_insert_eq. eexists. split; [reflexivity|].
    split; [apply process_review_terminal|].
    intros m result. unfold Main.process_review.
    assert (Hdone : forall (m' : option PRMetadata.t) files,
               match files with
               | [] => Failed "Could not process PR"
               | _ :: _ =>
                   match orp files with
                   | inl review_result => Completed m' review_result
                   | inr message => Failed message
                   end
               end = Completed m result ->
               exists files, files <> [] /\ orp files = inl result).
    { intros m' files H. destruct files as [|f fs]; [discriminate|].
      exists (f :: fs). split; [discriminate|].
      destruct (orp (f :: fs)); [|discriminate]. congruence. }
    destruct (Main.truthy (PRReviewRequest.github_url request)).
    + destruct (parse_pr_url _) as [p|]; [|discriminate]. apply Hdone.
    + destruct (Main.truthy (PRReviewRequest.diff_content request));
        [|discriminate].
      destruct (PRReviewRequest.pr_metadata request) as [d|];
        [|apply Hdone].
      destruct (dt d); [|apply Hdone].
      destruct (bm d); [apply Hdone|discriminate].
  - intros other Hne. rewrite !lookup_insert_ne by congruence. reflexivity.
  - intros unknown ->. reflexivity.
Qed.

Lemma job_lifecycle_witness :
  let orp (files : list FileChange.t) : ReviewResult.t + string :=
    inl (ReviewOrchestrator.review_pr Examples.quiet_logic
           Examples.quiet_security Examples.quiet_performance
           Examples.quiet_readability Examples.quiet_testing
           Examples.failing_aggregator Examples.no_mention files) in
  let request : PRReviewRequest.t unit :=
    PRReviewRequest.mk None
      (Some ("diff --git a/f b/f" +:+ String nl "+x")) None in
  let store : gmap string job := {[ "job-1" := Failed "earlier" ]} in
  let finished :=
    Main.process_review_async unit (fun _ => false) (fun _ => inr "unused")
      (fun _ _ _ => None) (fun _ _ _ => []) orp "job-2" request
      (Main.review_pr_async "job-2" store) in
  "job-1" <> "job-2" /\
  store !! "job-3" = None /\
  Main.get_review_status "job-1" finished = Responds (Failed "earlier") /\
  Main.get_review_status "job-3" store = HTTPException 404 "Job not found" /\
  Main.get_review_status "job-2" finished =
    Responds (Completed None
                (ReviewOrchestrator.review_pr Examples.quiet_logic
                   Examples.quiet_security Examples.quiet_performance
                   Examples.quiet_readability Examples.quiet_testing
                   Examples.failing_aggregator Examples.no_mention
                   [FileChange.mk "f" 1 0 "+x" "modified"])).
Proof.
  intros orp request store finished.
  pose proof (job_lifecycle unit (fun _ => false) (fun _ => inr "unused")
                (fun _ _ _ => None) (fun _ _ _ => []) orp request "job-2"
                store) as (_ & _ & Hother & Hunknown).
  assert (Hne : "job-1" <> "job-2") by discriminate.
  assert (Hno : store !! "job-3" = None) by reflexivity.
  split; [exact Hne|]. split; [exact Hno|].
  split; [exact (eq_trans (Hother "job-1" Hne) eq_refl)|].
  split; [exact (Hunknown "job-3" Hno)|].
  subst finished. unfold Main.get_review_status, Main.process_review_async.
  rewrite lookup_insert_eq. reflexivity.
Defined.

(** X26: for a file in whose patch the lines starting with [@@] are ASCII
    text with numbers of at most 4300 digits, the context of the analyzers
    is built: it names the file, gives the part of the name after its last
    dot as language, carries the patch unchanged, and as [changes] the
    addition and deletion lines of the patch, one per line and in order:
    splitting [changes] at newlines gives those lines back when there is
    one, and [changes] is empty when there is none. *)
Theorem analysis_context_holds_change_lines : forall file_change,
  plain_hunk_headers (FileChange.patch file_change) = true ->
  let change_lines :=
    List.filter is_changed (split nl (FileChange.patch file_change)) in
  exists context,
    Raising.analysis_context file_change = Returned context /\
    AnalysisContext.filename context = FileChange.filename file_change /\
    AnalysisContext.language context =
      get_file_extension (FileChange.filename file_change) /\
    AnalysisContext.patch context = FileChange.patch file_change /\
    AnalysisContext.changes context = join newline change_lines /\
    (change_lines <> [] ->
     split nl (AnalysisContext.changes context) = change_lines) /\
    (change_lines = [] -> AnalysisContext.changes context = EmptyString).
Proof.
  intros fc Hplain change_lines. exists (analysis_context fc).
  split; [apply raising_analysis_context_returns, Hplain|].
  unfold analysis_context.
  simpl. rewrite extract_raw. fold change_lines.
  split; [reflexivity|]. split; [reflexivity|]. split; [reflexivity|].
  split; [reflexivity|]. split.
  - intros Hne. destruct change_lines as [|l ls] eqn:E; [contradiction|].
    apply split_join. rewrite <- E. subst change_lines.
    apply List.Forall_forall. intros x Hx. apply filter_In in Hx as [Hx _].
    pose proof (split_no_sep nl (FileChange.patch fc)) as Hs.
    rewrite List.Forall_forall in Hs. apply Hs, Hx.
  - intros ->. reflexivity.
Qed.

Lemma analysis_context_holds_change_lines_witness :
  let fc :=
    FileChange.mk "src/app.py" 1 1
      ("@@ -1,2 +1,2 @@" +:+ String nl "-old" +:+ String nl "+new" +:+
       String nl " kept") "modified" in
  plain_hunk_headers (FileChange.patch fc) = true /\
  List.filter is_changed (split nl (FileChange.patch fc)) <> [] /\
  exists context,
    Raising.analysis_context fc = Returned context /\
    AnalysisContext.language context = "py" /\
    split nl (AnalysisContext.changes context) = ["-old"; "+new"].
Proof.
  intros fc.
  assert (Hp : plain_hunk_headers (FileChange.patch fc) = true) by reflexivity.
  assert (Hne : List.filter is_changed (split nl (FileChange.patch fc)) <> [])
    by discriminate.
  split; [exact Hp|]. split; [exact Hne|].
  destruct (analysis_context_holds_change_lines fc Hp)
    as (context & Hc & _ & Hlang & _ & _ & Hsplit & _).
  exists context. split; [exact Hc|].
  split; [exact (eq_trans Hlang eq_refl) | exact (eq_trans (Hsplit Hne) eq_refl)].
Defined.

Lemma summary_keys_are_categories_witness :
  let findings := [Examples.issue HIGH "a.py"; Examples.issue INFO "b.py"] in
  summary_by_category findings !! "logic" = Some 2 /\
  1 <= 2 <= length findings /\
  In "logic" category_values.
Proof.
  intros findings.
  assert (H : summary_by_category findings !! "logic" = Some 2)
    by reflexivity.
  split; [exact H|].
  destruct (proj1 (summary_keys_are_categories findings) "logic" 2 H)
    as (Hn & Hk & _).
  split; [exact Hn | exact Hk].
Defined.
